(** * torch_xla packaging script and FSDP ResNet latency script

    A shallow embedding of [setup.py] (environment-driven build
    configuration) and of [test/fsdp_dynamo_resnet_latency_test.py]
    (flag-driven FSDP configuration), with the properties of their
    external interfaces.

    Conventions.  Python [str] values are Rocq strings; [str.upper] is
    modelled on ASCII letters.  [os.environ] is a finite map from names
    to values.  Code that can raise returns an [outcome]; code with
    effects threads an explicit state. *)

From Stdlib Require Import ZArith Ascii.
From stdpp Require Import gmap strings list fin_maps.

Local Open Scope string_scope.
Local Open Scope list_scope.

(** ** Python strings *)

Module PyStr.

(** [c.upper()] for one ASCII character; a character that is no
    ASCII lower-case letter is left as it is. *)
Definition upper_char (c : ascii) : ascii :=
  let n := Ascii.N_of_ascii c in
  if ((97 <=? n) && (n <=? 122))%N then Ascii.ascii_of_N (n - 32) else c.

(** [s.upper()], character by character: Python's result for a
    string of ASCII characters. *)
Fixpoint upper (s : string) : string :=
  match s with
  | EmptyString => EmptyString
  | String c s' => String (upper_char c) (upper s')
  end.

(** [s.isascii()]: every character is below 128.  Strings are byte
    strings here, and on the ASCII ones [upper] is Python's
    [str.upper]. *)
Fixpoint isascii (s : string) : bool :=
  match s with
  | EmptyString => true
  | String c s' => (Ascii.N_of_ascii c <? 128)%N && isascii s'
  end.

(** Two characters that are equal or the two cases of one of the
    letters [A] to [Z], and two strings that are equal up to the case
    of such letters. *)
Definition same_letter (a b : ascii) : bool :=
  let x := Ascii.N_of_ascii a in
  let y := Ascii.N_of_ascii b in
  ((x =? y)
   || ((65 <=? x) && (x <=? 90) && (y =? x + 32))
   || ((65 <=? y) && (y <=? 90) && (x =? y + 32)))%N.

Fixpoint equal_ignoring_case (s t : string) : bool :=
  match s, t with
  | EmptyString, EmptyString => true
  | String a s', String b t' => same_letter a b && equal_ignoring_case s' t'
  | _, _ => false
  end.

(** [s.startswith(p)]. *)
Fixpoint startswith (s p : string) {struct p} : bool :=
  match p, s with
  | EmptyString, _ => true
  | String a p', String b s' => Ascii.eqb a b && startswith s' p'
  | String _ _, EmptyString => false
  end.

(** [s[:n]]. *)
Fixpoint take (n : nat) (s : string) : string :=
  match n, s with
  | S n', String c s' => String c (take n' s')
  | _, _ => EmptyString
  end.

(** [sep.join(l)]. *)
Fixpoint join (sep : string) (l : list string) : string :=
  match l with
  | [] => EmptyString
  | [x] => x
  | x :: l' => x +:+ sep +:+ join sep l'
  end.

(** Truth value of a string: [bool(s)]. *)
Definition truthy (s : string) : bool := negb (String.eqb s EmptyString).

Definition newline : string := String "010"%char EmptyString.
Definition dquote : string := String "034"%char EmptyString.

End PyStr.

(** ** Exceptions and state

    A computation takes a state and either returns a value or raises,
    and leaves a state behind in both cases (what was written before an
    exception stays written). *)

Module PyMonad.

Inductive outcome (E A : Type) : Type :=
| Return (a : A)
| Raise (e : E).
Arguments Return {E A} a.
Arguments Raise {E A} e.

Definition M (E S A : Type) : Type := S -> outcome E A * S.

Definition ret {E S A} (a : A) : M E S A := fun s => (Return a, s).

Definition bind {E S A B} (m : M E S A) (k : A -> M E S B) : M E S B :=
  fun s =>
    match m s with
    | (Return a, s') => k a s'
    | (Raise e, s') => (Raise e, s')
    end.

Definition raise {E S A} (e : E) : M E S A := fun s => (Raise e, s).
Definition get {E S} : M E S S := fun s => (Return s, s).
Definition modify {E S} (f : S -> S) : M E S unit := fun s => (Return tt, f s).

(** [try: m except <handled>: h]. *)
Definition try_except {E S A} (handled : E -> bool)
    (m : M E S A) (h : M E S A) : M E S A :=
  fun s =>
    match m s with
    | (Raise e, s') => if handled e then h s' else (Raise e, s')
    | r => r
    end.

(** [try: m finally: cleanup], for a cleanup that cannot raise. *)
Definition finally {E S A} (m : M E S A) (cleanup : S -> S) : M E S A :=
  fun s => let (r, s') := m s in (r, cleanup s').

(** A computation that returns from no state. *)
Definition never_returns {E S A} (m : M E S A) : Prop :=
  ∀ s, ∃ e s', m s = (Raise e, s').

#[global] Instance M_ret {E S} : MRet (M E S) := @ret E S.
#[global] Instance M_bind {E S} : MBind (M E S) := fun A B k m => bind m k.

End PyMonad.

(** ** setup.py *)

Module Setup.
Import PyStr PyMonad.

Abbreviation environ := (gmap string string).

(** [os.getenv(name, default)]. *)
Definition getenv (env : environ) (name dflt : string) : string :=
  default dflt (env !! name).

(** The values [_check_env_flag] accepts. *)
Definition truthy_values : list string := ["ON"; "1"; "YES"; "TRUE"; "Y"].

(** [_check_env_flag(name, default)]; the Python default of [default]
    is the empty string, passed explicitly here. *)
Definition _check_env_flag (env : environ) (name dflt : string) : bool :=
  bool_decide (upper (getenv env name dflt) ∈ truthy_values).

(** [_get_build_mode()]: the first of [sys.argv[1:]] that is not an
    option, [None] when there is none. *)
Definition _get_build_mode (argv : list string) : option string :=
  List.find (fun a => negb (startswith a "-")) (tail argv).

(** [get_build_version(xla_git_sha)].  [xla_git_sha] is a [str], so the
    slice and the concatenation inside the [try] cannot raise. *)
Definition get_build_version (env : environ) (xla_git_sha : string) : string :=
  let version := getenv env "TORCH_XLA_VERSION" "2.1.0" in
  if _check_env_flag env "VERSIONED_XLA_BUILD" "0"
  then version +:+ ("+" +:+ take 7 xla_git_sha)
  else version.

(** *** Module-level configuration *)

(** What the script reads from the host besides the environment. *)
Record host := {
  sys_platform : string;                        (* sys.platform *)
  platform_system : string;                     (* platform.system() *)
  os_path_join : string -> string -> string;    (* os.path.join *)
  cxx_abi : option bool                         (* torch._C._GLIBCXX_USE_CXX11_ABI *)
}.

(** [posixpath.join(a, b)]. *)
Definition posix_join (a b : string) : string :=
  if startswith b "/" then b
  else if String.eqb a EmptyString then b
  else if String.eqb (String.substring (String.length a - 1) 1 a) "/" then a +:+ b
  else a +:+ "/" +:+ b.

(** The module globals assigned at lines 189-199. *)
Record globals := {
  DEBUG : bool;
  IS_DARWIN : bool;
  IS_WINDOWS : bool;
  IS_LINUX : bool;
  GCLOUD_KEY_FILE : string;
  CACHE_SILO_NAME : string;
  extra_compile_args : list string
}.

Definition module_globals (h : host) (env : environ) : globals := {|
  DEBUG := _check_env_flag env "DEBUG" EmptyString;
  IS_DARWIN := String.eqb (platform_system h) "Darwin";
  IS_WINDOWS := startswith (sys_platform h) "win";
  IS_LINUX := String.eqb (platform_system h) "Linux";
  GCLOUD_KEY_FILE := getenv env "GCLOUD_SERVICE_KEY_FILE" EmptyString;
  CACHE_SILO_NAME := getenv env "SILO_NAME" "dev";
  extra_compile_args :=
    match cxx_abi h with
    | Some b => ["-D_GLIBCXX_USE_CXX11_ABI=" +:+ (if b then "1" else "0")]
    | None => []
    end
|}.

(** *** The bazel command line *)

Record BazelExtension := { bazel_target : string }.

(** The fields of the [build_ext] command that [bazel_build] reads. *)
Record build_ext := {
  build_temp : string;
  library_dirs : list string
}.

Definition silo_option (silo : string) : string :=
  "--host_platform_remote_properties_override='properties:{name:" +:+ dquote
  +:+ "cache-silo-key" +:+ dquote +:+ " value:" +:+ dquote +:+ silo +:+ dquote
  +:+ "}'".

(** [bazel_argv] as [bazel_build] hands it to [self.spawn]: the list
    literal of lines 228-232 followed by the appends of lines 234-257,
    in source order.  DEBUG, GCLOUD_KEY_FILE and CACHE_SILO_NAME are the
    module globals; BAZEL_VERBOSE, XLA_CUDA and XLA_CPU_USE_ACL are read
    from the environment when the command is built. *)
Definition bazel_argv (h : host) (g : globals) (env : environ)
    (self : build_ext) (ext : BazelExtension) : list string :=
  let argv :=
    ["bazel"; "build"; bazel_target ext;
     "--symlink_prefix=" +:+ os_path_join h (build_temp self) "bazel-";
     join newline (map (fun opt => "--cxxopt=" +:+ opt) (extra_compile_args g))] in
  let argv := if DEBUG g then argv ++ ["--compilation_mode=dbg"] else argv in
  let argv :=
    if truthy (GCLOUD_KEY_FILE g) then
      let argv := argv ++ ["--config=remote_cache"] in
      let argv := argv ++ ["--google_credentials=" +:+ GCLOUD_KEY_FILE g] in
      if truthy (CACHE_SILO_NAME g)
      then argv ++ [silo_option (CACHE_SILO_NAME g)]
      else argv
    else argv in
  let argv := if _check_env_flag env "BAZEL_VERBOSE" EmptyString
              then argv ++ ["-s"] else argv in
  let argv := if _check_env_flag env "XLA_CUDA" EmptyString
              then argv ++ ["--config=cuda"] else argv in
  let argv := if _check_env_flag env "XLA_CPU_USE_ACL" EmptyString
              then argv ++ ["--config=acl"] else argv in
  if IS_WINDOWS g
  then argv ++ map (fun library_dir => "--linkopt=/LIBPATH:" +:+ library_dir)
                   (library_dirs self)
  else argv.

(** What [bazel_build] appended to the five-element list literal. *)
Definition appended_options (argv : list string) : list string := drop 5 argv.

(** The command line of a run of the script: the globals are computed
    from the same environment the build step reads later (the script
    never writes [os.environ]). *)
Definition setup_bazel_argv (h : host) (env : environ)
    (self : build_ext) (ext : BazelExtension) : list string :=
  bazel_argv h (module_globals h env) env self ext.

(** [ext_modules] of the [setup(...)] call. *)
Definition ext_modules : list BazelExtension :=
  [ {| bazel_target := "//:_XLAC.so" |} ].

Definition posix_host : host := {|
  sys_platform := "linux";
  platform_system := "Linux";
  os_path_join := posix_join;
  cxx_abi := Some true
|}.

(** *** Files *)

(** A path is the list of its components below the root; every path
    the script builds comes from [os.path.join] of the absolute
    [base_dir] with literal names.  The file system maps a path to a
    regular file or a directory; permissions and links are not
    modelled. *)
Abbreviation path := (list string) (only parsing).

Definition path_str (p : path) : string := "/" +:+ join "/" p.

(** [os.path.dirname] and [os.path.join(p, '..')]. *)
Definition parent (p : path) : path := removelast p.

Inductive node :=
| File (data : string)
| Dir.

Inductive exn :=
| FileNotFoundError (p : path)
| IsADirectoryError (p : path)
| NotADirectoryError (p : path)
| SameFileError (p : path)
| ModuleNotFoundError (name : string)
| CalledProcessError (cwd : path)
| HTTPError (status : nat)
| RequestException (url : string)
| ZipError (member : string).

Record world := {
  fs : gmap path node;
  stdout : list string
}.

Definition set_fs (f : gmap path node -> gmap path node) (w : world) : world :=
  {| fs := f (fs w); stdout := stdout w |}.

Abbreviation IO := (M exn world).

(** Whether a proper prefix of [p] is a regular file: the system then
    refuses the path with ENOTDIR. *)
Definition under_file (files : gmap path node) (p : path) : bool :=
  existsb (fun n => match files !! firstn n p with
                    | Some (File _) => true
                    | _ => false
                    end)
          (seq 0 (length p)).

(** [print(line)]. *)
Definition print (line : string) : IO unit :=
  modify (fun w => {| fs := fs w; stdout := stdout w ++ [line] |}).

(** [os.remove(p)]. *)
Definition os_remove (p : path) : IO unit :=
  w ← get;
  if under_file (fs w) p then raise (NotADirectoryError p)
  else
    match fs w !! p with
    | None => raise (FileNotFoundError p)
    | Some Dir => raise (IsADirectoryError p)
    | Some (File _) => modify (set_fs (delete p))
    end.

(** [os.path.isdir(p)]. *)
Definition isdir (w : world) (p : path) : bool :=
  negb (under_file (fs w) p)
  && match fs w !! p with Some Dir => true | _ => false end.

(** [open(p, 'w')]: the file is created or truncated. *)
Definition open_w (p : path) : IO unit :=
  w ← get;
  if under_file (fs w) p then raise (NotADirectoryError p)
  else
    match fs w !! p with
    | Some Dir => raise (IsADirectoryError p)
    | _ =>
        match fs w !! parent p with
        | Some Dir => modify (set_fs (insert p (File EmptyString)))
        | _ => raise (FileNotFoundError p)
        end
    end.

(** [f.write(text)] on the file opened at [p]. *)
Definition f_write (p : path) (text : string) : IO unit :=
  modify (set_fs (alter (fun n => match n with
                                  | File data => File (data +:+ text)
                                  | Dir => Dir
                                  end) p)).

(** [open(p, 'rb').read()]. *)
Definition read_file (p : path) : IO string :=
  w ← get;
  if under_file (fs w) p then raise (NotADirectoryError p)
  else
    match fs w !! p with
    | Some (File data) => mret data
    | Some Dir => raise (IsADirectoryError p)
    | None => raise (FileNotFoundError p)
    end.

(** [shutil.copyfile(src, dst)]. *)
Definition copyfile (src dst : path) : IO unit :=
  if bool_decide (src = dst) then raise (SameFileError src)
  else
    data ← read_file src;
    open_w dst;;
    f_write dst data.

(** What the script obtains from outside the file system. *)
Record externals := {
  (* subprocess.check_output(['git','rev-parse','HEAD'], cwd=...)
     .decode('ascii').strip(); None when the command fails *)
  git_rev_parse : path -> option string;
  (* libtpu.__file__ when [import libtpu] succeeds *)
  libtpu_file : option path;
  (* requests.get(url): None when the request raises, else status and body *)
  http_get : string -> option (nat * string);
  (* the name tempfile.NamedTemporaryFile gives its file *)
  tmp_name : path;
  (* zipfile.ZipFile(archive).read(member) on the archive's bytes *)
  zip_read : string -> string -> option string
}.

Definition _libtpu_version : string := "0.1.dev20230330".

Definition _libtpu_storage_path : string :=
  "https://storage.googleapis.com/cloud-tpu-tpuvm-artifacts/wheels/libtpu-nightly/libtpu_nightly-"
  +:+ _libtpu_version +:+ "-py3-none-any.whl".

(** [get_git_head_sha(base_dir)]. *)
Definition get_git_head_sha (x : externals) (base_dir : path)
    : IO (string * string) :=
  xla_git_sha ← from_option mret (raise (CalledProcessError base_dir))
                  (git_rev_parse x base_dir);
  w ← get;
  torch_git_sha ←
    (if isdir w (parent base_dir ++ [".git"])
     then from_option mret (raise (CalledProcessError (parent base_dir)))
            (git_rev_parse x (parent base_dir))
     else mret EmptyString);
  mret (xla_git_sha, torch_git_sha).

(** [create_version_files(base_dir, version, xla_git_sha, torch_git_sha)]. *)
Definition create_version_files (base_dir : path)
    (version xla_git_sha torch_git_sha : string) : IO unit :=
  print ("Building torch_xla version: " +:+ version);;
  print ("XLA Commit ID: " +:+ xla_git_sha);;
  print ("PyTorch Commit ID: " +:+ torch_git_sha);;
  let py_version_path := base_dir ++ ["torch_xla"; "version.py"] in
  open_w py_version_path;;
  f_write py_version_path ("# Autogenerated file, do not edit!" +:+ newline);;
  f_write py_version_path ("__version__ = '" +:+ version +:+ "'" +:+ newline);;
  f_write py_version_path ("__xla_gitrev__ = '" +:+ xla_git_sha +:+ "'" +:+ newline);;
  f_write py_version_path ("__torch_gitrev__ = '" +:+ torch_git_sha +:+ "'" +:+ newline);;
  let cpp_version_path := base_dir ++ ["torch_xla"; "csrc"; "version.cpp"] in
  open_w cpp_version_path;;
  f_write cpp_version_path ("// Autogenerated file, do not edit!" +:+ newline);;
  f_write cpp_version_path ("#include " +:+ dquote +:+ "torch_xla/csrc/version.h"
                            +:+ dquote +:+ newline +:+ newline);;
  f_write cpp_version_path ("namespace torch_xla {" +:+ newline +:+ newline);;
  f_write cpp_version_path ("const char XLA_GITREV[] = {" +:+ dquote +:+ xla_git_sha
                            +:+ dquote +:+ "};" +:+ newline);;
  f_write cpp_version_path ("const char TORCH_GITREV[] = {" +:+ dquote +:+ torch_git_sha
                            +:+ dquote +:+ "};" +:+ newline +:+ newline);;
  f_write cpp_version_path ("}  // namespace torch_xla" +:+ newline).

Definition is_FileNotFoundError (e : exn) : bool :=
  match e with FileNotFoundError _ => true | _ => false end.

Definition is_ModuleNotFoundError (e : exn) : bool :=
  match e with ModuleNotFoundError _ => true | _ => false end.

(** [with contextlib.suppress(FileNotFoundError): m]. *)
Definition suppress_FileNotFoundError (m : IO unit) : IO unit :=
  try_except is_FileNotFoundError m (mret tt).

Definition libtpu_path (base_dir : path) : path :=
  base_dir ++ ["torch_xla"; "lib"; "libtpu.so"].

(** The [except ModuleNotFoundError] branch of [maybe_bundle_libtpu]:
    download the wheel to a temporary file and unpack libtpu.so. *)
Definition download_libtpu (x : externals) (base_dir : path) : IO unit :=
  print "No installed libtpu found. Downloading...";;
  modify (set_fs (insert (tmp_name x) (File EmptyString)));;
  finally
    (resp ← from_option mret (raise (RequestException _libtpu_storage_path))
              (http_get x _libtpu_storage_path);
     (if bool_decide (400 <= resp.1 < 600)%nat
      then raise (HTTPError resp.1) else mret tt);;
     f_write (tmp_name x) resp.2;;
     open_w (libtpu_path base_dir);;
     archive ← read_file (tmp_name x);
     so ← from_option mret (raise (ZipError "libtpu/libtpu.so"))
            (zip_read x archive "libtpu/libtpu.so");
     f_write (libtpu_path base_dir) so)
    (set_fs (delete (tmp_name x))).

(** [maybe_bundle_libtpu(base_dir)]. *)
Definition maybe_bundle_libtpu (x : externals) (env : environ)
    (base_dir : path) : IO unit :=
  suppress_FileNotFoundError (os_remove (libtpu_path base_dir));;
  if negb (_check_env_flag env "BUNDLE_LIBTPU" "0") then mret tt
  else
    try_except is_ModuleNotFoundError
      (libtpu_file ← from_option mret (raise (ModuleNotFoundError "libtpu"))
                       (libtpu_file x);
       let module_path := parent libtpu_file in
       print ("Found pre-installed libtpu at  " +:+ path_str module_path);;
       copyfile (module_path ++ ["libtpu.so"]) (libtpu_path base_dir))
      (download_libtpu x base_dir).

(** Lines 178-187: what the script does on import before [setup(...)]
    is called.  Returns [version]. *)
Definition module_prelude (x : externals) (env : environ)
    (argv : list string) (base_dir : path) : IO string :=
  shas ← get_git_head_sha x base_dir;
  let version := get_build_version env shas.1 in
  let build_mode := _get_build_mode argv in
  (if negb (bool_decide (build_mode = Some "clean"))
   then create_version_files base_dir version shas.1 shas.2;;
        maybe_bundle_libtpu x env base_dir
   else mret tt);;
  mret version.

(** *** The clean command *)

(** [s.split('\n')]. *)
Fixpoint split_lines (s : string) : list string :=
  match s with
  | EmptyString => [EmptyString]
  | String c s' =>
      if Ascii.eqb c "010" then EmptyString :: split_lines s'
      else
        match split_lines s' with
        | line :: lines => String c line :: lines
        | [] => [String c EmptyString]
        end
  end.

(** The text that group 1 of the pattern [^#( BEGIN NOT-CLEAN-FILES )?]
    stands for, after the [#]. *)
Definition not_clean_marker : string := "# BEGIN NOT-CLEAN-FILES ".

(** What [Clean.run] uses besides the file system. *)
Record clean_externals := {
  (* the working directory, where .gitignore is opened *)
  cwd : path;
  (* glob.glob(wildcard) on the files present *)
  glob : gmap path node -> string -> list path;
  (* distutils.command.clean.clean.run(self) *)
  distutils_clean_run : IO unit
}.

(** The exceptions that are OSError. *)
Definition is_OSError (e : exn) : bool :=
  match e with
  | FileNotFoundError _ | IsADirectoryError _ | NotADirectoryError _
  | SameFileError _ | HTTPError _ | RequestException _ => true
  | ModuleNotFoundError _ | CalledProcessError _ | ZipError _ => false
  end.

(** [shutil.rmtree(p, ignore_errors=True)]: a directory goes with all
    that is under it; anything else is an error, which is ignored. *)
Definition rmtree_ignore_errors (p : path) : IO unit :=
  w ← get;
  if isdir w p
  then modify (set_fs (filter (fun kv => ¬ p `prefix_of` kv.1)))
  else mret tt.

(** The body of the inner loop of [Clean.run]: [os.remove(filename)],
    and on OSError [shutil.rmtree(filename, ignore_errors=True)]. *)
Definition remove_file_or_tree (filename : path) : IO unit :=
  try_except is_OSError (os_remove filename) (rmtree_ignore_errors filename).

Fixpoint remove_all (filenames : list path) : IO unit :=
  match filenames with
  | [] => mret tt
  | filename :: rest => remove_file_or_tree filename;; remove_all rest
  end.

(** The loop of [Clean.run] over the non-empty lines of .gitignore. *)
Fixpoint clean_lines (c : clean_externals) (lines : list string) : IO unit :=
  match lines with
  | [] => mret tt
  | wildcard :: rest =>
      if negb (truthy wildcard) then clean_lines c rest
      else if startswith wildcard "#" then
        if startswith wildcard not_clean_marker then mret tt
        else clean_lines c rest
      else
        w ← get;
        remove_all (glob c (fs w) wildcard);;
        clean_lines c rest
  end.

(** [Clean.run(self)]. *)
Definition Clean_run (c : clean_externals) : IO unit :=
  ignores ← read_file (cwd c ++ [".gitignore"]);
  clean_lines c (split_lines ignores);;
  distutils_clean_run c.

End Setup.

(** ** test/fsdp_dynamo_resnet_latency_test.py *)

Module FsdpLatencyTest.
Import PyStr PyMonad.

(** *** Exceptions and values *)

Inductive exn :=
| NameError (name : string)
| UnboundLocalError (name : string)         (* a subclass of NameError *)
| PyException (message : string)            (* raise Exception(message) *)
| ZeroDivisionError
| TypeError
| AttributeError (attr : string)
| LibraryError (what : string).             (* raised inside a library call *)

#[warnings="-register-all"]
Inductive pyval :=
| VNone
| VBool (b : bool)
| VInt (z : Z)
| VFloat (literal : string)                 (* a float literal, as written *)
| VStr (s : string)
| VTuple (items : list pyval)
| VList (items : list pyval)
| VSet (items : list pyval)                 (* a set display, in source order *)
| VFString (parts : list pyval)             (* an f-string with non-str fields *)
| VGlobal (name : string)                   (* what a module-level name is bound to *)
| VBuiltin (name : string)
| VOperator (symbol : string)               (* an operator applied to library values *)
| VAttr (obj : pyval) (attr : string)       (* obj.attr *)
| VPartial (func : pyval) (keywords : list (string * pyval))
                                            (* functools.partial(func, **keywords) *)
| VAutoWrapperCallable                      (* lambda m, *args, **kwargs:
                                                 FSDP(checkpoint_module(m), *args, **kwargs) *)
| VObject (id : nat)                        (* an object made by a library *)
| VExcInfo (e : exn).                       (* the exception a with-body raised,
                                               as handed to __exit__ *)

Definition is_NameError (e : exn) : bool :=
  match e with
  | NameError _ | UnboundLocalError _ => true
  | _ => false
  end.

(** A call that leaves the script: callee, positional and keyword
    arguments. *)
Record call := {
  callee : pyval;
  args : list pyval;
  kwargs : list (string * pyval)
}.

(** [kwargs[k]] of a call. *)
Definition kwarg (k : string) (c : call) : option pyval :=
  snd <$> List.find (fun kv => String.eqb (fst kv) k) (kwargs c).

(** *** Command-line options *)

Inductive opt_type := type_int | type_str.
Inductive opt_action := store_true | store_false.

Record opt := {
  action : option opt_action;
  dest : option string;
  type_ : option opt_type;
  choices : option (list string);
  default_ : option pyval
}.

Definition MODEL_OPTS : list (string * opt) := [
  ("--flatten_parameters",
   {| action := Some store_true; dest := None; type_ := None;
      choices := None; default_ := None |});
  ("--auto_wrap_policy",
   {| action := None; dest := None; type_ := None;
      choices := Some ["none"; "size_based"; "type_based"];
      default_ := Some (VStr "none") |});
  ("--auto_wrap_min_num_params",
   {| action := None; dest := None; type_ := Some type_int;
      choices := None; default_ := Some (VInt 1000) |});
  ("--use_nested_fsdp",
   {| action := Some store_true; dest := None; type_ := None;
      choices := None; default_ := None |});
  ("--use_gradient_checkpointing",
   {| action := Some store_true; dest := None; type_ := None;
      choices := None; default_ := None |});
  ("--ckpt_prefix",
   {| action := None; dest := None; type_ := Some type_str;
      choices := None; default_ := Some (VStr "/tmp/mnist-fsdp/final_ckpt") |});
  ("--no_ckpt_consolidation",
   {| action := Some store_false; dest := Some "ckpt_consolidation"; type_ := None;
      choices := None; default_ := None |});
  ("--compute_dtype",
   {| action := None; dest := None; type_ := None;
      choices := Some ["float32"; "float16"; "bfloat16"];
      default_ := Some (VStr "float32") |});
  ("--fp32_reduce_scatter",
   {| action := Some store_true; dest := None; type_ := None;
      choices := None; default_ := None |});
  ("--shard_param_on_dim_0",
   {| action := Some store_true; dest := None; type_ := None;
      choices := None; default_ := None |});
  ("--no_pin_layout_in_collective_ops",
   {| action := Some store_false; dest := Some "pin_layout_in_collective_ops";
      type_ := None; choices := None; default_ := None |});
  ("--sample_count",
   {| action := None; dest := None; type_ := Some type_int;
      choices := None; default_ := Some (VInt 10000) |})
].

(** The [choices] of an option of [MODEL_OPTS]. *)
Definition choices_of (flag : string) : list string :=
  match List.find (fun kv => String.eqb (fst kv) flag) MODEL_OPTS with
  | Some (_, o) => default [] (choices o)
  | None => []
  end.

(** The attributes of [flags] that the script defines or reads. *)
Record Flags := {
  (* from args_parse.parse_common_options *)
  datadir : string;
  batch_size : Z;
  num_workers : Z;
  lr : pyval;
  drop_last : bool;
  fake_data : bool;
  (* from MODEL_OPTS *)
  flatten_parameters : bool;
  auto_wrap_policy : string;
  auto_wrap_min_num_params : Z;
  use_nested_fsdp : bool;
  use_gradient_checkpointing : bool;
  ckpt_prefix : string;
  ckpt_consolidation : bool;
  compute_dtype : string;
  fp32_reduce_scatter : bool;
  shard_param_on_dim_0 : bool;
  pin_layout_in_collective_ops : bool;
  sample_count : Z
}.

Definition set_ckpt_prefix (prefix : string) (f : Flags) : Flags := {|
  datadir := datadir f; batch_size := batch_size f; num_workers := num_workers f;
  lr := lr f; drop_last := drop_last f; fake_data := fake_data f;
  flatten_parameters := flatten_parameters f;
  auto_wrap_policy := auto_wrap_policy f;
  auto_wrap_min_num_params := auto_wrap_min_num_params f;
  use_nested_fsdp := use_nested_fsdp f;
  use_gradient_checkpointing := use_gradient_checkpointing f;
  ckpt_prefix := prefix;
  ckpt_consolidation := ckpt_consolidation f;
  compute_dtype := compute_dtype f;
  fp32_reduce_scatter := fp32_reduce_scatter f;
  shard_param_on_dim_0 := shard_param_on_dim_0 f;
  pin_layout_in_collective_ops := pin_layout_in_collective_ops f;
  sample_count := sample_count f
|}.

(** *** Names *)

(** The names bound at module level when [inference_resnet] runs: the
    imports of lines 1-2 and 59-84, the assignments of lines 4 and 50
    and the two function definitions. *)
Definition module_names : list string := [
  "args_parse"; "partial"; "MODEL_OPTS"; "FLAGS";
  "os"; "shutil"; "sys"; "time"; "torch"; "nn"; "F"; "optim"; "torchvision";
  "torch_xla"; "met"; "pl"; "xu"; "xm"; "xmp"; "test_utils"; "xp";
  "FSDP"; "consolidate_sharded_model_checkpoints"; "checkpoint_module";
  "size_based_auto_wrap_policy"; "transformer_auto_wrap_policy";
  "inference_resnet"; "_mp_fn"
].

(** Python's built-in functions, and the one built-in exception class
    the script names. *)
Definition builtin_names : list string := [
  "abs"; "aiter"; "all"; "anext"; "any"; "ascii"; "bin"; "bool"; "breakpoint";
  "bytearray"; "bytes"; "callable"; "chr"; "classmethod"; "compile"; "complex";
  "delattr"; "dict"; "dir"; "divmod"; "enumerate"; "eval"; "exec"; "filter";
  "float"; "format"; "frozenset"; "getattr"; "globals"; "hasattr"; "hash";
  "help"; "hex"; "id"; "input"; "int"; "isinstance"; "issubclass"; "iter";
  "len"; "list"; "locals"; "map"; "max"; "memoryview"; "min"; "next"; "object";
  "oct"; "open"; "ord"; "pow"; "print"; "property"; "range"; "repr"; "reversed";
  "round"; "set"; "setattr"; "slice"; "sorted"; "staticmethod"; "str"; "sum";
  "super"; "tuple"; "type"; "vars"; "zip"; "__import__"; "Exception"
].

(** *** The interpreter state of one call of [inference_resnet]

    [calls] lists the calls that go to [extern]: those into [torch],
    [torch_xla], [time] and the like, and [print], [str] and [float].
    Three calls are no entries of it, and are represented by what they
    return: [functools.partial(f, **kw)] by the object [VPartial f kw],
    [enumerate(loader)] by the items [iterate] gives, and
    [getattr(torch, name)] by the attribute. *)

Record state := {
  locals : gmap string pyval;     (* the local variables bound so far *)
  calls : list call               (* the library calls made so far *)
}.

Abbreviation Py := (M exn state).

(** A name the compiler resolves as global: module globals, then
    builtins, else NameError. *)
Definition load_global (name : string) : Py pyval :=
  if bool_decide (name ∈ module_names) then mret (VGlobal name)
  else if bool_decide (name ∈ builtin_names) then mret (VBuiltin name)
  else raise (NameError name).

(** A name assigned somewhere in the function body is local to it
    throughout; reading it before it is bound raises UnboundLocalError. *)
Definition load_fast (name : string) : Py pyval :=
  st ← get;
  match locals st !! name with
  | Some v => mret v
  | None => raise (UnboundLocalError name)
  end.

Definition store_fast (name : string) (v : pyval) : Py unit :=
  modify (fun st => {| locals := <[name := v]> (locals st); calls := calls st |}).

(** [obj.attr] and [getattr(obj, attr)] on a module or library object.
    The attributes the script names are taken to exist. *)
Definition py_getattr (obj : pyval) (attr : string) : pyval := VAttr obj attr.

(** *** Library calls and the function body *)

Section Script.

(** The libraries the script calls (torch, torchvision, torch_xla, the
    standard library): the outcome of a call given the calls before it,
    and the items an iterable yields. *)
Variable extern : list call -> call -> outcome exn pyval.
Variable iterate : list call -> pyval -> list pyval.

(** The names the [torch] module defines. *)
Variable torch_has_attr : string -> bool.

(** A call of the library function [f] with positional and keyword
    arguments. *)
Definition py_call (f : pyval) (args : list pyval)
    (kwargs : list (string * pyval)) : Py pyval :=
  fun st =>
    let c := {| callee := f; args := args; kwargs := kwargs |} in
    (extern (calls st) c, {| locals := locals st; calls := calls st ++ [c] |}).

(** [a // b]: floor division on ints, the operand's own method
    otherwise. *)
Definition floordiv (a b : pyval) : Py pyval :=
  match a, b with
  | VInt x, VInt y =>
      if (y =? 0)%Z then raise ZeroDivisionError else mret (VInt (x / y))
  | _, _ => py_call (VOperator "//") [a; b] []
  end.

(** [a * b], [a - b] and [a / b] on library values and floats. *)
Definition binop (symbol : string) (a b : pyval) : Py pyval :=
  py_call (VOperator symbol) [a; b] [].

(** Lines 92-110: the test loader. *)
Definition make_test_loader (flags : Flags) : Py unit :=
  if fake_data flags then
    xu ← load_global "xu";
    torch ← load_global "torch";
    batch_size1 ← load_global "batch_size";
    device1 ← load_fast "device";
    randn ← py_call (py_getattr torch "randn")
              [batch_size1; VInt 3; VInt 224; VInt 224] [("device", device1)];
    torch ← load_global "torch";
    batch_size2 ← load_global "batch_size";
    torch' ← load_global "torch";
    device2 ← load_fast "device";
    zeros ← py_call (py_getattr torch "zeros") [batch_size2]
              [("dtype", py_getattr torch' "int64"); ("device", device2)];
    n ← floordiv (VInt (sample_count flags)) (VInt (batch_size flags));
    xm ← load_global "xm";
    world_size ← py_call (py_getattr xm "xrt_world_size") [] [];
    n ← floordiv n world_size;
    test_loader ← py_call (py_getattr xu "SampleGenerator") []
                    [("data", VTuple [randn; zeros]); ("sample_count", n)];
    store_fast "test_loader" test_loader
  else
    datasets ← load_global "datasets";
    os ← load_global "os";
    str ← load_global "str";
    xm ← load_global "xm";
    ordinal ← py_call (py_getattr xm "get_ordinal") [] [];
    ordinal ← py_call str [ordinal] [];
    root ← py_call (py_getattr (py_getattr os "path") "join")
             [VStr (datadir flags); ordinal] [];
    transforms ← load_global "transforms";
    transforms1 ← load_global "transforms";
    to_tensor ← py_call (py_getattr transforms1 "ToTensor") [] [];
    transforms2 ← load_global "transforms";
    normalize ← py_call (py_getattr transforms2 "Normalize")
                  [VTuple [VFloat "0.1307"]; VTuple [VFloat "0.3081"]] [];
    transform ← py_call (py_getattr transforms "Compose")
                  [VList [to_tensor; normalize]] [];
    test_dataset ← py_call (py_getattr datasets "MNIST") [root]
                     [("train", VBool false); ("download", VBool true);
                      ("transform", transform)];
    store_fast "test_dataset" test_dataset;;
    torch ← load_global "torch";
    test_dataset ← load_fast "test_dataset";
    test_loader ← py_call
        (py_getattr (py_getattr (py_getattr torch "utils") "data") "DataLoader")
        [test_dataset]
        [("batch_size", VInt (batch_size flags));
         ("drop_last", VBool (drop_last flags));
         ("shuffle", VBool false);
         ("num_workers", VInt (num_workers flags))];
    store_fast "test_loader" test_loader.

(** Lines 112-119: learning rate, device and model. *)
Definition make_model (flags : Flags) : Py unit :=
  xm ← load_global "xm";
  world_size ← py_call (py_getattr xm "xrt_world_size") [] [];
  lr ← binop "*" (lr flags) world_size;
  store_fast "lr" lr;;
  xm ← load_global "xm";
  device ← py_call (py_getattr xm "xla_device") [] [];
  store_fast "device" device;;
  torchvision ← load_global "torchvision";
  model ← py_call (py_getattr (py_getattr torchvision "models") "resnet18") [] [];
  store_fast "model" model.

(** Lines 121-141: the choice of the auto-wrap policy.  The call
    [partial(f, **kw)] of lines 127 and 133 is represented by the
    object it returns, [VPartial f kw]. *)
Definition select_auto_wrap_policy (flags : Flags) : Py unit :=
  store_fast "auto_wrap_policy" VNone;;
  store_fast "auto_wrapper_callable" VNone;;
  if negb (String.eqb (auto_wrap_policy flags) "none") then
    (if String.eqb (auto_wrap_policy flags) "size_based" then
       partial ← load_global "partial";
       size_based_auto_wrap_policy ← load_global "size_based_auto_wrap_policy";
       store_fast "auto_wrap_policy"
         (VPartial size_based_auto_wrap_policy
            [("min_num_params", VInt (auto_wrap_min_num_params flags))])
     else if String.eqb (auto_wrap_policy flags) "type_based" then
       partial ← load_global "partial";
       transformer_auto_wrap_policy ← load_global "transformer_auto_wrap_policy";
       nn1 ← load_global "nn";
       nn2 ← load_global "nn";
       store_fast "auto_wrap_policy"
         (VPartial transformer_auto_wrap_policy
            [("transformer_layer_cls",
              VSet [py_getattr nn1 "Conv2d"; py_getattr nn2 "Linear"])])
     else
       _ ← load_global "Exception";
       raise (PyException ("Invalid auto-wrap policy: " +:+ auto_wrap_policy flags)));;
    if use_gradient_checkpointing flags
    then store_fast "auto_wrapper_callable" VAutoWrapperCallable
    else mret tt
  else mret tt.

(** [getattr(torch, name)] for a name that comes from the command
    line. *)
Definition getattr_torch (torch : pyval) (name : string) : Py pyval :=
  if torch_has_attr name then mret (py_getattr torch name)
  else raise (AttributeError name).

(** Lines 143-153: [fsdp_wrap = lambda m: FSDP(m, ...)].  The body
    runs when the lambda is called; [flags], [auto_wrap_policy] and
    [auto_wrapper_callable] are variables of the enclosing function. *)
Definition fsdp_wrap (flags : Flags) (m : pyval) : Py pyval :=
  FSDP ← load_global "FSDP";
  getattr ← load_global "getattr";
  torch ← load_global "torch";
  dtype ← getattr_torch torch (compute_dtype flags);
  auto_wrap_policy ← load_fast "auto_wrap_policy";
  auto_wrapper_callable ← load_fast "auto_wrapper_callable";
  py_call FSDP [m]
    [("compute_dtype", dtype);
     ("fp32_reduce_scatter", VBool (fp32_reduce_scatter flags));
     ("flatten_parameters", VBool (flatten_parameters flags));
     ("shard_param_on_dim_0", VBool (shard_param_on_dim_0 flags));
     ("pin_layout_in_collective_ops", VBool (pin_layout_in_collective_ops flags));
     ("auto_wrap_policy", auto_wrap_policy);
     ("auto_wrapper_callable", auto_wrapper_callable);
     ("optimization_barrier_in_forward", VBool false);
     ("optimization_barrier_in_backward", VBool false)].

(** Lines 154-158: wrap and compile the model. *)
Definition wrap_model (flags : Flags) : Py unit :=
  model ← load_fast "model";
  model ← fsdp_wrap flags model;
  store_fast "model" model;;
  torch ← load_global "torch";
  model ← load_fast "model";
  model ← py_call (py_getattr torch "compile") [model]
            [("backend", VStr "torchxla_trace_once")];
  store_fast "model" model;;
  print ← load_global "print";
  _ ← py_call print [VStr "Starting..."] [];
  mret tt.

(** Lines 121-158: from the policy choice to the wrapped model. *)
Definition configure_model (flags : Flags) : Py unit :=
  select_auto_wrap_policy flags;;
  wrap_model flags.

(** Lines 161-163: [inference_loop_fn(model, loader)], over the items
    [enumerate(loader)] yields; the call of [enumerate] and the
    iteration are represented by these items, [step] is not used. *)
Fixpoint inference_loop_items (model : pyval) (items : list pyval) : Py unit :=
  match items with
  | [] => mret tt
  | VTuple [data; target] :: rest =>
      _ ← py_call model [data] [];
      inference_loop_items model rest
  | _ :: _ => raise TypeError
  end.

Definition inference_loop_fn (model loader : pyval) : Py unit :=
  _ ← load_global "enumerate";
  st ← get;
  inference_loop_items model (iterate (calls st) loader).

(** [with cm: body].  [__exit__] runs on both ways out of the body; an
    exception of the body is swallowed when [__exit__] returns True. *)
Definition with_statement (cm : pyval) (body : Py unit) : Py unit :=
  let exit_ : Py unit := fun st =>
    match body st with
    | (Return _, st') =>
        match py_call (py_getattr cm "__exit__") [VNone; VNone; VNone] [] st' with
        | (Return _, st'') => (Return tt, st'')
        | (Raise e', st'') => (Raise e', st'')
        end
    | (Raise e, st') =>
        match py_call (py_getattr cm "__exit__") [VExcInfo e] [] st' with
        | (Return (VBool true), st'') => (Return tt, st'')
        | (Return _, st'') => (Raise e, st'')
        | (Raise e', st'') => (Raise e', st'')
        end
    end in
  _ ← py_call (py_getattr cm "__enter__") [] [];
  exit_.

(** Lines 165-167: run the loop under [torch.no_grad()]. *)
Definition run_inference : Py unit :=
  pl ← load_global "pl";
  test_loader ← load_fast "test_loader";
  device ← load_fast "device";
  test_device_loader ← py_call (py_getattr pl "MpDeviceLoader")
                         [test_loader; device] [];
  store_fast "test_device_loader" test_device_loader;;
  torch ← load_global "torch";
  no_grad ← py_call (py_getattr torch "no_grad") [] [];
  with_statement no_grad
    (model ← load_fast "model";
     test_device_loader ← load_fast "test_device_loader";
     inference_loop_fn model test_device_loader).

(** Lines 168-176: the timing report and the return. *)
Definition report_timing (flags : Flags) : Py pyval :=
  print ← load_global "print";
  _ ← py_call print [VStr "Done."] [];
  time ← load_global "time";
  end_ ← py_call (py_getattr time "time") [] [];
  store_fast "end" end_;;
  end_ ← load_fast "end";
  start ← load_fast "start";
  elapsed_time ← binop "-" end_ start;
  store_fast "elapsed_time" elapsed_time;;
  elapsed_time ← load_fast "elapsed_time";
  float ← load_global "float";
  sample_count1 ← load_global "sample_count";
  samples ← py_call float [sample_count1] [];
  elapsed_time_per_sample ← binop "/" elapsed_time samples;
  store_fast "elapsed_time_per_sample" elapsed_time_per_sample;;
  print ← load_global "print";
  elapsed_time ← load_fast "elapsed_time";
  _ ← py_call print [VFString [VStr "Total time: "; elapsed_time; VStr " for ";
                               VInt (sample_count flags); VStr " samples"]] [];
  print ← load_global "print";
  elapsed_time_per_sample ← load_fast "elapsed_time_per_sample";
  _ ← py_call print [VFString [VStr "Total per sample: ";
                               elapsed_time_per_sample]] [];
  xm ← load_global "xm";
  met ← load_global "met";
  report ← py_call (py_getattr met "metrics_report") [] [];
  _ ← py_call (py_getattr xm "master_print") [report] [("flush", VBool true)];
  mret (VInt 100).

(** The body of [inference_resnet(flags, **kwargs)], from the state the
    call starts in.  [kwargs] is never read. *)
Definition inference_resnet_body (flags : Flags) : Py pyval :=
  time ← load_global "time";
  start ← py_call (py_getattr time "time") [] [];
  store_fast "start" start;;
  torch ← load_global "torch";
  _ ← py_call (py_getattr torch "manual_seed") [VInt 1] [];
  make_test_loader flags;;
  make_model flags;;
  configure_model flags;;
  run_inference;;
  report_timing flags.

(** [inference_resnet(flags)]: the body in a frame of its own, with no
    local bound yet. *)
Definition inference_resnet (flags : Flags) : Py pyval :=
  fun st =>
    let (r, st') := inference_resnet_body flags {| locals := ∅; calls := calls st |} in
    (r, {| locals := locals st; calls := calls st' |}).

(** [_mp_fn(index, flags)]. *)
Definition _mp_fn (index : Z) (flags : Flags) : Py pyval :=
  torch ← load_global "torch";
  _ ← py_call (py_getattr torch "set_default_tensor_type")
        [VStr "torch.FloatTensor"] [];
  accuracy ← inference_resnet flags;
  store_fast "accuracy" accuracy;;
  mret VNone.

(** Every library call returns. *)
Definition library_returns : Prop :=
  ∀ history c, ∃ v, extern history c = Return v.

End Script.

(** *** Example inputs *)

(** A library in which every call returns a new object, and a loader
    with no batches. *)
Definition fresh_objects (history : list call) (c : call) : outcome exn pyval :=
  Return (VObject (length history)).

Definition no_items (history : list call) (loader : pyval) : list pyval := [].

(** The dtypes that [--compute_dtype] can name. *)
Definition torch_dtypes (name : string) : bool :=
  bool_decide (name ∈ ["float32"; "float16"; "bfloat16"]).

(** Flags for a given wrap policy: the defaults of [MODEL_OPTS], the
    [datadir], [batch_size] and [lr] handed to [parse_common_options]
    at lines 50-57, real data, four workers and no dropped batch. *)
Definition flags_with_policy (policy : string) : Flags := {|
  datadir := "/tmp/mnist-data";
  batch_size := 128;
  num_workers := 4;
  lr := VFloat "0.01";
  drop_last := false;
  fake_data := false;
  flatten_parameters := false;
  auto_wrap_policy := policy;
  auto_wrap_min_num_params := 1000;
  use_nested_fsdp := false;
  use_gradient_checkpointing := false;
  ckpt_prefix := "/tmp/mnist-fsdp/final_ckpt";
  ckpt_consolidation := true;
  compute_dtype := "float32";
  fp32_reduce_scatter := false;
  shard_param_on_dim_0 := false;
  pin_layout_in_collective_ops := true;
  sample_count := 10000
|}.

Definition example_flags : Flags := flags_with_policy "none".

(** The state of a call that starts, and a state in which the model
    has been made. *)
Definition initial_state : state := {| locals := ∅; calls := [] |}.

Definition model_state : state :=
  {| locals := {["model" := VObject 0]}; calls := [] |}.

(** Whether the string [s] occurs as a value inside [v]. *)
Fixpoint mentions (s : string) (v : pyval) : bool :=
  match v with
  | VStr s' => String.eqb s s'
  | VTuple items | VList items | VSet items | VFString items =>
      existsb (mentions s) items
  | VAttr obj _ => mentions s obj
  | VPartial func keywords =>
      mentions s func || existsb (fun kv => mentions s (snd kv)) keywords
  | _ => false
  end.

(** Whether a call receives the string [s] in an argument. *)
Definition call_mentions (s : string) (c : call) : bool :=
  mentions s (callee c)
  || existsb (mentions s) (args c)
  || existsb (fun kv => mentions s (snd kv)) (kwargs c).

(** A batch [(data, target)] as the loader yields it, and the call
    [inference_loop_fn] makes for it. *)
Definition batch_item (batch : pyval * pyval) : pyval :=
  VTuple [batch.1; batch.2].

Definition batch_call (model : pyval) (batch : pyval * pyval) : call :=
  {| callee := model; args := [batch.1]; kwargs := [] |}.

(** A loader that yields one batch. *)
Definition one_batch (history : list call) (loader : pyval) : list pyval :=
  [batch_item (VObject 100, VObject 101)].

(** Flags with gradient checkpointing switched, and with another
    compute dtype. *)
Definition set_use_gradient_checkpointing (b : bool) (f : Flags) : Flags := {|
  datadir := datadir f; batch_size := batch_size f; num_workers := num_workers f;
  lr := lr f; drop_last := drop_last f; fake_data := fake_data f;
  flatten_parameters := flatten_parameters f;
  auto_wrap_policy := auto_wrap_policy f;
  auto_wrap_min_num_params := auto_wrap_min_num_params f;
  use_nested_fsdp := use_nested_fsdp f;
  use_gradient_checkpointing := b;
  ckpt_prefix := ckpt_prefix f;
  ckpt_consolidation := ckpt_consolidation f;
  compute_dtype := compute_dtype f;
  fp32_reduce_scatter := fp32_reduce_scatter f;
  shard_param_on_dim_0 := shard_param_on_dim_0 f;
  pin_layout_in_collective_ops := pin_layout_in_collective_ops f;
  sample_count := sample_count f
|}.

Definition set_compute_dtype (name : string) (f : Flags) : Flags := {|
  datadir := datadir f; batch_size := batch_size f; num_workers := num_workers f;
  lr := lr f; drop_last := drop_last f; fake_data := fake_data f;
  flatten_parameters := flatten_parameters f;
  auto_wrap_policy := auto_wrap_policy f;
  auto_wrap_min_num_params := auto_wrap_min_num_params f;
  use_nested_fsdp := use_nested_fsdp f;
  use_gradient_checkpointing := use_gradient_checkpointing f;
  ckpt_prefix := ckpt_prefix f;
  ckpt_consolidation := ckpt_consolidation f;
  compute_dtype := name;
  fp32_reduce_scatter := fp32_reduce_scatter f;
  shard_param_on_dim_0 := shard_param_on_dim_0 f;
  pin_layout_in_collective_ops := pin_layout_in_collective_ops f;
  sample_count := sample_count f
|}.

(** A state in which the policy has been chosen, and one in which the
    loop can start. *)
Definition policy_state : state :=
  {| locals := {["model" := VObject 0;
                 "auto_wrap_policy" := VNone;
                 "auto_wrapper_callable" := VNone]};
     calls := [] |}.

Definition loop_state : state :=
  {| locals := {["test_loader" := VObject 0;
                 "device" := VObject 1;
                 "model" := VObject 2]};
     calls := [] |}.

End FsdpLatencyTest.

(** * Reasoning about computations *)

Module PyMonadFacts.
Import PyMonad.

Section Bind.
Context {E S A B : Type}.
Implicit Types (m : M E S A) (k : A -> M E S B).

Lemma bind_Return m k s a s1 :
  m s = (Return a, s1) → (m ≫= k) s = k a s1.
Proof. intros H. unfold mbind, M_bind, bind. rewrite H. reflexivity. Qed.

Lemma bind_Raise m k s e s1 :
  m s = (Raise e, s1) → (m ≫= k) s = (Raise e, s1).
Proof. intros H. unfold mbind, M_bind, bind. rewrite H. reflexivity. Qed.

(** A sequence returns only if both of its parts do. *)
Lemma bind_returns m k s b s2 :
  (m ≫= k) s = (Return b, s2) →
  ∃ a s1, m s = (Return a, s1) ∧ k a s1 = (Return b, s2).
Proof.
  unfold mbind, M_bind, bind. destruct (m s) as [[a | e] s1]; [eauto | discriminate].
Qed.

End Bind.

Lemma never_returns_bind_l {E S A B} (m : M E S A) (k : A -> M E S B) :
  never_returns m → never_returns (m ≫= k).
Proof.
  intros H s. destruct (H s) as (e & s' & Hm).
  exists e, s'. apply bind_Raise, Hm.
Qed.

Lemma never_returns_bind_r {E S A B} (m : M E S A) (k : A -> M E S B) :
  (∀ a, never_returns (k a)) → never_returns (m ≫= k).
Proof.
  intros H s. unfold mbind, M_bind, bind.
  destruct (m s) as [[a | e] s1]; [apply H | eauto].
Qed.

End PyMonadFacts.

(** * Properties of setup.py *)

Module SetupSpec.
Import PyStr PyMonad PyMonadFacts Setup.

Lemma check_env_flag_true (env : environ) (name dflt : string) :
  _check_env_flag env name dflt = true ↔
  upper (getenv env name dflt) ∈ truthy_values.
Proof. unfold _check_env_flag. apply bool_decide_eq_true. Qed.

Lemma check_env_flag_false (env : environ) (name dflt : string) :
  _check_env_flag env name dflt = false ↔
  upper (getenv env name dflt) ∉ truthy_values.
Proof. unfold _check_env_flag. apply bool_decide_eq_false. Qed.

Lemma truthy_true (s : string) : truthy s = true ↔ s ≠ EmptyString.
Proof.
  unfold truthy. destruct s; simpl; split; try done.
Qed.

(** The command line, with each conditional append as a segment. *)
Lemma bazel_argv_segments h g env self ext :
  bazel_argv h g env self ext =
  ["bazel"; "build"; bazel_target ext;
   "--symlink_prefix=" +:+ os_path_join h (build_temp self) "bazel-";
   join newline (map (fun opt => "--cxxopt=" +:+ opt) (extra_compile_args g))]
  ++ (if DEBUG g then ["--compilation_mode=dbg"] else [])
  ++ (if truthy (GCLOUD_KEY_FILE g)
      then ["--config=remote_cache"; "--google_credentials=" +:+ GCLOUD_KEY_FILE g]
           ++ (if truthy (CACHE_SILO_NAME g)
               then [silo_option (CACHE_SILO_NAME g)] else [])
      else [])
  ++ (if _check_env_flag env "BAZEL_VERBOSE" EmptyString then ["-s"] else [])
  ++ (if _check_env_flag env "XLA_CUDA" EmptyString then ["--config=cuda"] else [])
  ++ (if _check_env_flag env "XLA_CPU_USE_ACL" EmptyString then ["--config=acl"] else [])
  ++ (if IS_WINDOWS g
      then map (fun library_dir => "--linkopt=/LIBPATH:" +:+ library_dir)
               (library_dirs self)
      else []).
Proof.
  unfold bazel_argv.
  destruct (DEBUG g), (truthy (GCLOUD_KEY_FILE g)), (truthy (CACHE_SILO_NAME g)),
    (_check_env_flag env "BAZEL_VERBOSE" EmptyString),
    (_check_env_flag env "XLA_CUDA" EmptyString),
    (_check_env_flag env "XLA_CPU_USE_ACL" EmptyString), (IS_WINDOWS g);
    cbn [app]; rewrite ?app_nil_r; reflexivity.
Qed.

Lemma appended_options_segments h g env self ext :
  appended_options (bazel_argv h g env self ext) =
  (if DEBUG g then ["--compilation_mode=dbg"] else [])
  ++ (if truthy (GCLOUD_KEY_FILE g)
      then ["--config=remote_cache"; "--google_credentials=" +:+ GCLOUD_KEY_FILE g]
           ++ (if truthy (CACHE_SILO_NAME g)
               then [silo_option (CACHE_SILO_NAME g)] else [])
      else [])
  ++ (if _check_env_flag env "BAZEL_VERBOSE" EmptyString then ["-s"] else [])
  ++ (if _check_env_flag env "XLA_CUDA" EmptyString then ["--config=cuda"] else [])
  ++ (if _check_env_flag env "XLA_CPU_USE_ACL" EmptyString then ["--config=acl"] else [])
  ++ (if IS_WINDOWS g
      then map (fun library_dir => "--linkopt=/LIBPATH:" +:+ library_dir)
               (library_dirs self)
      else []).
Proof. rewrite bazel_argv_segments. reflexivity. Qed.

(** Membership in a conditional segment. *)
Lemma elem_of_if_singleton (b : bool) (x y : string) :
  x ∈ (if b then [y] else []) ↔ b = true ∧ x = y.
Proof.
  destruct b; rewrite ?list_elem_of_singleton, ?elem_of_nil; intuition congruence.
Qed.

(** Two strings that differ at a character fixed by their literal
    prefixes. *)
Ltac str_discr :=
  match goal with
  | H : @eq string _ _ |- _ =>
      cbv [String.append silo_option dquote newline] in H; discriminate H
  end.

(** Every appended option, with the condition that appended it. *)
Lemma elem_of_appended_options x h g env self ext :
  x ∈ appended_options (bazel_argv h g env self ext) ↔
  (DEBUG g = true ∧ x = "--compilation_mode=dbg")
  ∨ (truthy (GCLOUD_KEY_FILE g) = true ∧
     (x = "--config=remote_cache"
      ∨ x = "--google_credentials=" +:+ GCLOUD_KEY_FILE g
      ∨ (truthy (CACHE_SILO_NAME g) = true ∧ x = silo_option (CACHE_SILO_NAME g))))
  ∨ (_check_env_flag env "BAZEL_VERBOSE" EmptyString = true ∧ x = "-s")
  ∨ (_check_env_flag env "XLA_CUDA" EmptyString = true ∧ x = "--config=cuda")
  ∨ (_check_env_flag env "XLA_CPU_USE_ACL" EmptyString = true ∧ x = "--config=acl")
  ∨ (IS_WINDOWS g = true ∧
     ∃ library_dir, library_dir ∈ library_dirs self ∧
                    x = "--linkopt=/LIBPATH:" +:+ library_dir).
Proof.
  rewrite appended_options_segments, !elem_of_app, !elem_of_if_singleton.
  assert (Hkey : ∀ l : list string,
    x ∈ (if truthy (GCLOUD_KEY_FILE g) then l else []) ↔
    truthy (GCLOUD_KEY_FILE g) = true ∧ x ∈ l).
  { intros l. destruct (truthy (GCLOUD_KEY_FILE g));
      rewrite ?elem_of_nil; intuition congruence. }
  assert (Hwin : ∀ l : list string,
    x ∈ (if IS_WINDOWS g then l else []) ↔ IS_WINDOWS g = true ∧ x ∈ l).
  { intros l. destruct (IS_WINDOWS g); rewrite ?elem_of_nil; intuition congruence. }
  rewrite Hkey, Hwin, elem_of_app, !elem_of_cons, elem_of_nil,
    elem_of_if_singleton, list_elem_of_fmap.
  assert (Hdir :
    (∃ d, x = "--linkopt=/LIBPATH:" +:+ d ∧ d ∈ library_dirs self) ↔
    (∃ d, d ∈ library_dirs self ∧ x = "--linkopt=/LIBPATH:" +:+ d)).
  { split; intros (d & ? & ?); exists d; split; assumption. }
  rewrite Hdir. tauto.
Qed.

Lemma bazel_argv_split h g env self ext :
  bazel_argv h g env self ext =
  ["bazel"; "build"; bazel_target ext;
   "--symlink_prefix=" +:+ os_path_join h (build_temp self) "bazel-";
   join newline (map (fun opt => "--cxxopt=" +:+ opt) (extra_compile_args g))]
  ++ appended_options (bazel_argv h g env self ext).
Proof. rewrite appended_options_segments. apply bazel_argv_segments. Qed.

(** The joined [--cxxopt] element of the script: empty, or one option. *)
Lemma cxxopt_element h env :
  let e := join newline (map (fun opt => "--cxxopt=" +:+ opt)
                             (extra_compile_args (module_globals h env))) in
  e = EmptyString ∨ startswith e "--cxxopt=" = true.
Proof.
  cbn [extra_compile_args module_globals].
  destruct (cxx_abi h) as [[]|]; [right | right | left]; reflexivity.
Qed.

(** An option string that is in the command line without having been
    appended would have to be the target. *)
Lemma elem_of_setup_bazel_argv x h env self ext :
  startswith (bazel_target ext) "-" = false →
  startswith x "-" = true →
  startswith x "--symlink_prefix=" = false →
  startswith x "--cxxopt=" = false →
  x ∈ setup_bazel_argv h env self ext ↔
  x ∈ appended_options (setup_bazel_argv h env self ext).
Proof.
  intros Htarget Hopt Hsym Hcxx. unfold setup_bazel_argv.
  rewrite bazel_argv_split at 1. rewrite elem_of_app.
  split; [intros [Hx | Hx]; [exfalso | exact Hx] | tauto].
  rewrite !elem_of_cons, elem_of_nil in Hx.
  destruct Hx as [-> | [-> | [-> | [-> | [Hx | []]]]]].
  - discriminate Hopt.
  - discriminate Hopt.
  - congruence.
  - discriminate Hsym.
  - destruct (cxxopt_element h env) as [He | He]; rewrite <- Hx in He.
    + rewrite He in Hopt. discriminate Hopt.
    + congruence.
Qed.

Lemma getenv_unset (env : environ) (name dflt : string) :
  env !! name = None → getenv env name dflt = dflt.
Proof. unfold getenv. intros ->. reflexivity. Qed.

Lemma append_eq_self (s t : string) : s +:+ t = s → t = EmptyString.
Proof.
  induction s as [|c s IH]; cbn [String.append]; [done |].
  intros [=]. auto.
Qed.


(** An option with a fixed text is appended exactly when its own
    condition holds. *)
Lemma appended_env_flags h env self ext :
  let appended := appended_options (setup_bazel_argv h env self ext) in
  ("--compilation_mode=dbg" ∈ appended ↔ _check_env_flag env "DEBUG" EmptyString = true)
  ∧ ("--config=cuda" ∈ appended ↔ _check_env_flag env "XLA_CUDA" EmptyString = true)
  ∧ ("--config=acl" ∈ appended ↔ _check_env_flag env "XLA_CPU_USE_ACL" EmptyString = true).
Proof.
  cbv zeta. unfold setup_bazel_argv. rewrite !elem_of_appended_options.
  cbn [DEBUG module_globals GCLOUD_KEY_FILE CACHE_SILO_NAME IS_WINDOWS].
  repeat split; try tauto; intros H;
    repeat (destruct H as [H|H]);
    try (destruct H as [? [?|[?|[? ?]]]]; str_discr);
    try (destruct H as [? (d & ? & ?)]; str_discr);
    try (destruct H; first [assumption | str_discr]).
Qed.

(** The same three options in the whole command line of an extension
    whose target is not itself an option. *)
Lemma bazel_argv_env_flags h env self ext :
  startswith (bazel_target ext) "-" = false →
  let argv := setup_bazel_argv h env self ext in
  ("--compilation_mode=dbg" ∈ argv ↔ _check_env_flag env "DEBUG" EmptyString = true)
  ∧ ("--config=cuda" ∈ argv ↔ _check_env_flag env "XLA_CUDA" EmptyString = true)
  ∧ ("--config=acl" ∈ argv ↔ _check_env_flag env "XLA_CPU_USE_ACL" EmptyString = true).
Proof.
  intros Htarget. cbv zeta.
  rewrite !elem_of_setup_bazel_argv by (assumption || reflexivity).
  apply appended_env_flags.
Qed.

(** C6: the options [bazel_build] appends for the DEBUG, XLA_CUDA and
    XLA_CPU_USE_ACL environment variables.  Each of
    [--compilation_mode=dbg], [--config=cuda] and [--config=acl] is
    among the options appended to the command line exactly when the
    value of its variable (the empty string when unset), uppercased, is
    one of ON, 1, YES, TRUE, Y. *)
Theorem bazel_build_env_flags h env self ext :
  let appended := appended_options (setup_bazel_argv h env self ext) in
  ("--compilation_mode=dbg" ∈ appended ↔
     upper (getenv env "DEBUG" EmptyString) ∈ ["ON"; "1"; "YES"; "TRUE"; "Y"])
  ∧ ("--config=cuda" ∈ appended ↔
     upper (getenv env "XLA_CUDA" EmptyString) ∈ ["ON"; "1"; "YES"; "TRUE"; "Y"])
  ∧ ("--config=acl" ∈ appended ↔
     upper (getenv env "XLA_CPU_USE_ACL" EmptyString) ∈ ["ON"; "1"; "YES"; "TRUE"; "Y"]).
Proof.
  cbv zeta. rewrite <- !check_env_flag_true. apply appended_env_flags.
Qed.

(** C7: version stamping.  [get_build_version] returns the value of
    TORCH_XLA_VERSION, or 2.1.0 when it is unset; the result is that
    version followed by [+] and the first seven characters of the git
    head SHA exactly when VERSIONED_XLA_BUILD is truthy, and is the
    bare version when VERSIONED_XLA_BUILD is falsy or unset. *)
Theorem get_build_version_stamp (env : environ) (xla_git_sha : string) :
  let version := getenv env "TORCH_XLA_VERSION" "2.1.0" in
  let versioned :=
    upper (getenv env "VERSIONED_XLA_BUILD" "0") ∈ ["ON"; "1"; "YES"; "TRUE"; "Y"] in
  (env !! "TORCH_XLA_VERSION" = None → version = "2.1.0")
  ∧ (∀ v, env !! "TORCH_XLA_VERSION" = Some v → version = v)
  ∧ (get_build_version env xla_git_sha = version +:+ "+" +:+ take 7 xla_git_sha
     ↔ versioned)
  ∧ (¬ versioned → get_build_version env xla_git_sha = version)
  ∧ (env !! "VERSIONED_XLA_BUILD" = None →
     get_build_version env xla_git_sha = version).
Proof.
  cbv zeta. rewrite <- check_env_flag_true. unfold get_build_version.
  split; [apply getenv_unset |].
  split; [intros v Hv; unfold getenv; rewrite Hv; reflexivity |].
  split; [| split].
  - destruct (_check_env_flag env "VERSIONED_XLA_BUILD" "0"); [tauto |].
    split; [| discriminate].
    intros H. symmetry in H. apply append_eq_self in H. discriminate H.
  - intros H. destruct (_check_env_flag env "VERSIONED_XLA_BUILD" "0"); tauto.
  - intros H. unfold _check_env_flag. rewrite (getenv_unset _ _ _ H). reflexivity.
Qed.

Lemma getenv_nonempty (env : environ) (name : string) :
  getenv env name EmptyString ≠ EmptyString ↔
  ∃ s, env !! name = Some s ∧ s ≠ EmptyString.
Proof.
  unfold getenv. destruct (env !! name) as [s|]; cbn.
  - split; [eauto | intros (s' & [= <-] & Hs); exact Hs].
  - split; [done | intros (s' & [=] & _)].
Qed.

Lemma getenv_empty (env : environ) (name : string) :
  getenv env name EmptyString = EmptyString ↔
  env !! name = None ∨ env !! name = Some EmptyString.
Proof.
  unfold getenv. destruct (env !! name) as [s|]; cbn.
  - split; [intros ->; auto | intros [[=] | [= ->]]; reflexivity].
  - split; auto.
Qed.

Lemma startswith_not_option (s rest : string) :
  startswith s "-" = false → startswith s (String "-" rest) = false.
Proof.
  destruct s as [|c s]; cbn [startswith]; [done |].
  destruct (Ascii.eqb "-" c); [discriminate | done].
Qed.

(** The shapes an element of the command line can have when no key
    file is configured. *)
Lemma setup_bazel_argv_without_key x h env self ext :
  getenv env "GCLOUD_SERVICE_KEY_FILE" EmptyString = EmptyString →
  x ∈ setup_bazel_argv h env self ext →
  x = "bazel" ∨ x = "build" ∨ x = bazel_target ext
  ∨ (∃ s, x = "--symlink_prefix=" +:+ s)
  ∨ x = EmptyString ∨ (∃ s, x = "--cxxopt=" +:+ s)
  ∨ x = "--compilation_mode=dbg" ∨ x = "-s"
  ∨ x = "--config=cuda" ∨ x = "--config=acl"
  ∨ (∃ s, x = "--linkopt=/LIBPATH:" +:+ s).
Proof.
  intros Hkey. unfold setup_bazel_argv.
  rewrite bazel_argv_split, elem_of_app, elem_of_appended_options.
  cbn [GCLOUD_KEY_FILE module_globals extra_compile_args].
  rewrite Hkey, !elem_of_cons, elem_of_nil.
  intros [Hx | Hx].
  - destruct Hx as [-> | [-> | [-> | [-> | [-> | []]]]]]; eauto 10.
    destruct (cxx_abi h) as [b|]; cbn [map join]; eauto 12.
  - repeat (destruct Hx as [Hx | Hx]); try (destruct Hx as [_ ->]; tauto).
    + destruct Hx as [Hx _]. discriminate Hx.
    + destruct Hx as [_ (d & _ & ->)]. eauto 15.
Qed.

(** C8: remote-cache credentials.  For an extension whose target is not
    itself an option, the command line contains [--config=remote_cache]
    and [--google_credentials=] followed by the key file exactly when
    GCLOUD_SERVICE_KEY_FILE is set to a non-empty string; when it is
    unset or empty, no element of the command line is the remote-cache
    option, a credentials option or a cache-silo option. *)
Theorem remote_cache_credentials h (env : environ) self ext :
  startswith (bazel_target ext) "-" = false →
  let argv := setup_bazel_argv h env self ext in
  let key := getenv env "GCLOUD_SERVICE_KEY_FILE" EmptyString in
  ("--config=remote_cache" ∈ argv ∧ "--google_credentials=" +:+ key ∈ argv
   ↔ ∃ s, env !! "GCLOUD_SERVICE_KEY_FILE" = Some s ∧ s ≠ EmptyString)
  ∧ (env !! "GCLOUD_SERVICE_KEY_FILE" = None
     ∨ env !! "GCLOUD_SERVICE_KEY_FILE" = Some EmptyString →
     ∀ x, x ∈ argv →
       x ≠ "--config=remote_cache"
       ∧ startswith x "--google_credentials=" = false
       ∧ startswith x "--host_platform_remote_properties_override=" = false).
Proof.
  intros Htarget. cbv zeta. split.
  - rewrite <- getenv_nonempty, <- truthy_true.
    rewrite !elem_of_setup_bazel_argv by (assumption || reflexivity).
    unfold setup_bazel_argv. rewrite !elem_of_appended_options.
    cbn [DEBUG module_globals GCLOUD_KEY_FILE CACHE_SILO_NAME IS_WINDOWS].
    split; [| tauto].
    intros [H _].
    repeat (destruct H as [H|H]);
      try (destruct H as [? (d & ? & ?)]; str_discr);
      try (destruct H as [? ?]; first [assumption | str_discr]).
  - intros Hkey%getenv_empty x Hx.
    apply (setup_bazel_argv_without_key _ _ _ _ _ Hkey) in Hx.
    repeat (destruct Hx as [Hx | Hx]);
      lazymatch type of Hx with
      | ex _ => destruct Hx as [s Hs]; subst x
      | _ => subst x
      end;
      try (split; [discriminate | split; reflexivity]).
    split; [intros Heq; rewrite Heq in Htarget; discriminate Htarget |].
    split; apply startswith_not_option, Htarget.
Qed.

(** The script's own extension, a key file configured. *)
Lemma remote_cache_credentials_witness :
  "--config=remote_cache" ∈
    setup_bazel_argv posix_host {["GCLOUD_SERVICE_KEY_FILE" := "/keys/sa.json"]}
      {| build_temp := "build/temp"; library_dirs := [] |}
      {| bazel_target := "//:_XLAC.so" |}
  ∧ "--google_credentials=/keys/sa.json" ∈
    setup_bazel_argv posix_host {["GCLOUD_SERVICE_KEY_FILE" := "/keys/sa.json"]}
      {| build_temp := "build/temp"; library_dirs := [] |}
      {| bazel_target := "//:_XLAC.so" |}.
Proof.
  destruct (remote_cache_credentials posix_host
              {["GCLOUD_SERVICE_KEY_FILE" := "/keys/sa.json"]}
              {| build_temp := "build/temp"; library_dirs := [] |}
              {| bazel_target := "//:_XLAC.so" |} eq_refl) as [[_ H] _].
  apply H. exists "/keys/sa.json". split; [reflexivity | discriminate].
Defined.



Lemma check_env_flag_unset (env : environ) (name : string) :
  env !! name = None → _check_env_flag env name "0" = false.
Proof.
  intros H. unfold _check_env_flag. rewrite (getenv_unset _ _ _ H). reflexivity.
Qed.

(** The first statement of [maybe_bundle_libtpu], by what is at the
    path. *)
Lemma remove_libtpu_absent p w :
  under_file (fs w) p = false →
  fs w !! p = None →
  suppress_FileNotFoundError (os_remove p) w = (Return tt, w).
Proof.
  intros Hu H. unfold suppress_FileNotFoundError, try_except, os_remove.
  unfold mbind, M_bind, bind, get. rewrite Hu, H. reflexivity.
Qed.

Lemma remove_libtpu_file p w data :
  under_file (fs w) p = false →
  fs w !! p = Some (File data) →
  suppress_FileNotFoundError (os_remove p) w = (Return tt, set_fs (delete p) w).
Proof.
  intros Hu H. unfold suppress_FileNotFoundError, try_except, os_remove.
  unfold mbind, M_bind, bind, get. rewrite Hu, H. reflexivity.
Qed.

Lemma remove_libtpu_dir p w :
  under_file (fs w) p = false →
  fs w !! p = Some Dir →
  suppress_FileNotFoundError (os_remove p) w = (Raise (IsADirectoryError p), w).
Proof.
  intros Hu H. unfold suppress_FileNotFoundError, try_except, os_remove.
  unfold mbind, M_bind, bind, get. rewrite Hu, H. reflexivity.
Qed.

Lemma remove_libtpu_under_file p w :
  under_file (fs w) p = true →
  suppress_FileNotFoundError (os_remove p) w = (Raise (NotADirectoryError p), w).
Proof.
  intros Hu. unfold suppress_FileNotFoundError, try_except, os_remove.
  unfold mbind, M_bind, bind, get. rewrite Hu. reflexivity.
Qed.

(** With BUNDLE_LIBTPU falsy the function is its first statement. *)
Lemma maybe_bundle_libtpu_falsy x env base_dir w :
  _check_env_flag env "BUNDLE_LIBTPU" "0" = false →
  maybe_bundle_libtpu x env base_dir w =
  suppress_FileNotFoundError (os_remove (libtpu_path base_dir)) w.
Proof.
  intros H. unfold maybe_bundle_libtpu. rewrite H. cbn [negb].
  unfold mbind, M_bind, bind.
  destruct (suppress_FileNotFoundError _ w) as [[[] | e] w']; reflexivity.
Qed.

Lemma maybe_bundle_libtpu_returns_gone x env base_dir w u w' :
  _check_env_flag env "BUNDLE_LIBTPU" "0" = false →
  maybe_bundle_libtpu x env base_dir w = (Return u, w') →
  fs w' !! libtpu_path base_dir = None.
Proof.
  intros Hflag. rewrite (maybe_bundle_libtpu_falsy _ _ _ _ Hflag).
  destruct (under_file (fs w) (libtpu_path base_dir)) eqn:Hu;
    [rewrite (remove_libtpu_under_file _ _ Hu); discriminate |].
  destruct (fs w !! libtpu_path base_dir) as [[data |] |] eqn:Hp.
  - rewrite (remove_libtpu_file _ _ _ Hu Hp). intros [= _ <-]. apply lookup_delete_eq.
  - rewrite (remove_libtpu_dir _ _ Hu Hp). discriminate.
  - rewrite (remove_libtpu_absent _ _ Hu Hp). intros [= _ <-]. exact Hp.
Qed.

(** C10: with BUNDLE_LIBTPU unset or falsy, [maybe_bundle_libtpu]
    removes torch_xla/lib/libtpu.so.  Whether the path held a file or
    nothing, the call returns, the path is absent afterwards, and
    nothing else changes; the errors of the removal other than
    FileNotFoundError (a directory at the path, a file above it) are
    raised; and in a build whose mode is not clean, the module-level
    code leaves the path absent whenever it returns. *)
Theorem maybe_bundle_libtpu_removes x (env : environ) base_dir w :
  upper (getenv env "BUNDLE_LIBTPU" "0") ∉ ["ON"; "1"; "YES"; "TRUE"; "Y"] →
  let p := libtpu_path base_dir in
  (under_file (fs w) p = false → fs w !! p ≠ Some Dir →
   ∃ w', maybe_bundle_libtpu x env base_dir w = (Return tt, w')
         ∧ fs w' !! p = None
         ∧ (∀ q, q ≠ p → fs w' !! q = fs w !! q)
         ∧ stdout w' = stdout w)
  ∧ (under_file (fs w) p = false → fs w !! p = Some Dir →
     maybe_bundle_libtpu x env base_dir w = (Raise (IsADirectoryError p), w))
  ∧ (under_file (fs w) p = true →
     maybe_bundle_libtpu x env base_dir w = (Raise (NotADirectoryError p), w))
  ∧ (∀ argv version w',
       _get_build_mode argv ≠ Some "clean" →
       module_prelude x env argv base_dir w = (Return version, w') →
       fs w' !! p = None).
Proof.
  intros Hflag%check_env_flag_false. cbv zeta. split; [| split; [| split]].
  - intros Hu Hnd. rewrite (maybe_bundle_libtpu_falsy _ _ _ _ Hflag).
    destruct (fs w !! libtpu_path base_dir) as [[data |] |] eqn:Hp.
    + exists (set_fs (delete (libtpu_path base_dir)) w).
      split; [apply (remove_libtpu_file _ _ _ Hu Hp) |].
      split; [apply lookup_delete_eq |].
      split; [| reflexivity].
      intros q Hq. cbn [fs set_fs]. apply lookup_delete_ne. congruence.
    + congruence.
    + exists w. split; [apply (remove_libtpu_absent _ _ Hu Hp) |]. auto.
  - intros Hu Hd. rewrite (maybe_bundle_libtpu_falsy _ _ _ _ Hflag).
    apply (remove_libtpu_dir _ _ Hu Hd).
  - intros Hu. rewrite (maybe_bundle_libtpu_falsy _ _ _ _ Hflag).
    apply (remove_libtpu_under_file _ _ Hu).
  - intros argv version w' Hmode. unfold module_prelude.
    intros (shas & w0 & _ & Hrest)%bind_returns.
    apply bind_returns in Hrest as ([] & w1 & Hstep & Hret).
    injection Hret as _ <-.
    rewrite bool_decide_eq_false_2 in Hstep by exact Hmode. cbn [negb] in Hstep.
    apply bind_returns in Hstep as ([] & w2 & _ & Hbundle).
    apply (maybe_bundle_libtpu_returns_gone _ _ _ _ _ _ Hflag Hbundle).
Qed.

(** A build with BUNDLE_LIBTPU unset and an old libtpu.so in place. *)
Lemma maybe_bundle_libtpu_removes_witness :
  ∃ w', maybe_bundle_libtpu
          {| git_rev_parse := fun _ => None; libtpu_file := None;
             http_get := fun _ => None; tmp_name := ["tmp"; "whl"];
             zip_read := fun _ _ => None |}
          ∅ ["xla"]
          {| fs := {[ ["xla"; "torch_xla"; "lib"; "libtpu.so"] := File "old" ]};
             stdout := [] |}
        = (Return tt, w')
        ∧ fs w' !! ["xla"; "torch_xla"; "lib"; "libtpu.so"] = None.
Proof.
  assert (Hflag : upper (getenv (∅ : environ) "BUNDLE_LIBTPU" "0")
                  ∉ ["ON"; "1"; "YES"; "TRUE"; "Y"]).
  { apply check_env_flag_false. reflexivity. }
  destruct (maybe_bundle_libtpu_removes
              {| git_rev_parse := fun _ => None; libtpu_file := None;
                 http_get := fun _ => None; tmp_name := ["tmp"; "whl"];
                 zip_read := fun _ _ => None |}
              ∅ ["xla"]
              {| fs := {[ ["xla"; "torch_xla"; "lib"; "libtpu.so"] := File "old" ]};
                 stdout := [] |} Hflag) as [H _].
  destruct H as (w' & Hrun & Hgone & _);
    [reflexivity | vm_compute; discriminate |].
  exists w'. split; assumption.
Defined.

End SetupSpec.

(** * Properties of the latency test script *)

Module FsdpLatencySpec.
Import PyStr PyMonad PyMonadFacts FsdpLatencyTest.

Lemma choices_auto_wrap_policy :
  choices_of "--auto_wrap_policy" = ["none"; "size_based"; "type_based"].
Proof. reflexivity. Qed.

Lemma choices_compute_dtype :
  choices_of "--compute_dtype" = ["float32"; "float16"; "bfloat16"].
Proof. reflexivity. Qed.

(** The four names the function reads and nothing binds. *)
Lemma unbound_names :
  Forall (fun name => (name ∉ module_names) ∧ (name ∉ builtin_names))
         ["batch_size"; "datasets"; "transforms"; "sample_count"].
Proof.
  repeat constructor; (apply (bool_decide_eq_false_1 _); vm_compute; reflexivity).
Qed.

Lemma load_fast_bound name v st :
  locals st !! name = Some v → load_fast name st = (Return v, st).
Proof.
  intros H. unfold load_fast, mbind, M_bind, bind, get. rewrite H. reflexivity.
Qed.

Section Facts.
Variable extern : list call -> call -> outcome exn pyval.
Variable iterate : list call -> pyval -> list pyval.
Variable torch_has_attr : string -> bool.

Lemma py_call_eq f a k st :
  py_call extern f a k st =
  (extern (calls st) {| callee := f; args := a; kwargs := k |},
   {| locals := locals st;
      calls := calls st ++ [{| callee := f; args := a; kwargs := k |}] |}).
Proof. reflexivity. Qed.

Lemma py_call_returns f a k st :
  library_returns extern →
  ∃ v, py_call extern f a k st =
       (Return v, {| locals := locals st;
                     calls := calls st ++ [{| callee := f; args := a; kwargs := k |}] |}).
Proof.
  intros H. destruct (H (calls st) {| callee := f; args := a; kwargs := k |}) as [v Hv].
  exists v. rewrite py_call_eq, Hv. reflexivity.
Qed.

(** Lines 92-96 and 98: the loader cannot be built. *)
Lemma make_test_loader_fake flags st :
  fake_data flags = true →
  make_test_loader extern flags st = (Raise (NameError "batch_size"), st).
Proof. intros H. unfold make_test_loader. rewrite H. reflexivity. Qed.

Lemma make_test_loader_real flags st :
  fake_data flags = false →
  make_test_loader extern flags st = (Raise (NameError "datasets"), st).
Proof. intros H. unfold make_test_loader. rewrite H. reflexivity. Qed.

Lemma make_test_loader_never_returns flags :
  never_returns (make_test_loader extern flags).
Proof.
  intros st. destruct (fake_data flags) eqn:H.
  - eexists _, _. apply (make_test_loader_fake _ _ H).
  - eexists _, _. apply (make_test_loader_real _ _ H).
Qed.

Ltac never_returns_step :=
  first
    [ apply never_returns_bind_l;
      solve [ intros ?; eexists _, _; reflexivity
            | apply make_test_loader_never_returns ]
    | apply never_returns_bind_r; intros ? ].

Lemma report_timing_never_returns flags :
  never_returns (report_timing extern flags).
Proof. unfold report_timing. repeat never_returns_step. Qed.

Lemma inference_resnet_body_never_returns flags :
  never_returns (inference_resnet_body extern iterate torch_has_attr flags).
Proof. unfold inference_resnet_body. repeat never_returns_step. Qed.

Lemma inference_resnet_never_returns flags :
  never_returns (inference_resnet extern iterate torch_has_attr flags).
Proof.
  intros st. unfold inference_resnet.
  destruct (inference_resnet_body_never_returns flags
              {| locals := ∅; calls := calls st |}) as (e & st' & ->).
  eauto.
Qed.

(** One statement at a time: a step that computes is taken by
    evaluation, a library call by the assumption that it returns, a
    read of a local by looking it up. *)
Ltac py_step Hret :=
  first
    [ erewrite bind_Return by reflexivity
    | match goal with
      | |- context [(py_call extern ?f ?a ?k ≫= _) ?st] =>
          let v := fresh "v" in
          let Hv := fresh "Hv" in
          destruct (py_call_returns f a k st Hret) as [v Hv];
          rewrite (bind_Return _ _ _ _ _ Hv); clear Hv
      | |- context [(load_fast ?x ≫= _) ?st] =>
          erewrite (bind_Return (load_fast x))
            by (apply load_fast_bound; cbn [locals]; simplify_map_eq; reflexivity)
      end ];
  cbv beta; cbn [locals calls].

Lemma report_timing_NameError flags st start :
  library_returns extern →
  locals st !! "start" = Some start →
  ∃ st', report_timing extern flags st = (Raise (NameError "sample_count"), st').
Proof.
  intros Hret Hstart. unfold report_timing, binop.
  repeat py_step Hret.
  eexists. apply bind_Raise. reflexivity.
Qed.

Lemma inference_resnet_body_fake flags history :
  library_returns extern →
  fake_data flags = true →
  ∃ st', inference_resnet_body extern iterate torch_has_attr flags
           {| locals := ∅; calls := history |}
         = (Raise (NameError "batch_size"), st')
         ∧ locals st' !! "device" = None.
Proof.
  intros Hret Hfake. unfold inference_resnet_body.
  repeat py_step Hret.
  eexists. split.
  - apply bind_Raise. apply (make_test_loader_fake _ _ Hfake).
  - cbn [locals]. simplify_map_eq. reflexivity.
Qed.

(** *** The policy choice, case by case *)

Lemma select_none flags st :
  auto_wrap_policy flags = "none" →
  select_auto_wrap_policy flags st =
  (Return tt,
   {| locals := <["auto_wrapper_callable" := VNone]>
                  (<["auto_wrap_policy" := VNone]> (locals st));
      calls := calls st |}).
Proof. intros H. unfold select_auto_wrap_policy. rewrite H. reflexivity. Qed.

Lemma select_size_based flags st :
  auto_wrap_policy flags = "size_based" →
  ∃ st', select_auto_wrap_policy flags st = (Return tt, st')
         ∧ calls st' = calls st
         ∧ locals st' !! "model" = locals st !! "model"
         ∧ locals st' !! "auto_wrap_policy" =
             Some (VPartial (VGlobal "size_based_auto_wrap_policy")
                     [("min_num_params", VInt (auto_wrap_min_num_params flags))])
         ∧ locals st' !! "auto_wrapper_callable" =
             Some (if use_gradient_checkpointing flags
                   then VAutoWrapperCallable else VNone).
Proof.
  intros H. unfold select_auto_wrap_policy. rewrite H.
  destruct (use_gradient_checkpointing flags);
    (eexists; split; [reflexivity |]); cbn [locals calls];
    repeat split; simplify_map_eq; reflexivity.
Qed.

Lemma select_type_based flags st :
  auto_wrap_policy flags = "type_based" →
  ∃ st', select_auto_wrap_policy flags st = (Return tt, st')
         ∧ calls st' = calls st
         ∧ locals st' !! "model" = locals st !! "model"
         ∧ locals st' !! "auto_wrap_policy" =
             Some (VPartial (VGlobal "transformer_auto_wrap_policy")
                     [("transformer_layer_cls",
                       VSet [VAttr (VGlobal "nn") "Conv2d";
                             VAttr (VGlobal "nn") "Linear"])])
         ∧ locals st' !! "auto_wrapper_callable" =
             Some (if use_gradient_checkpointing flags
                   then VAutoWrapperCallable else VNone).
Proof.
  intros H. unfold select_auto_wrap_policy. rewrite H.
  destruct (use_gradient_checkpointing flags);
    (eexists; split; [reflexivity |]); cbn [locals calls];
    repeat split; simplify_map_eq; reflexivity.
Qed.

Lemma select_invalid flags st :
  auto_wrap_policy flags ∉ choices_of "--auto_wrap_policy" →
  select_auto_wrap_policy flags st =
  (Raise (PyException ("Invalid auto-wrap policy: " +:+ auto_wrap_policy flags)),
   {| locals := <["auto_wrapper_callable" := VNone]>
                  (<["auto_wrap_policy" := VNone]> (locals st));
      calls := calls st |}).
Proof.
  rewrite choices_auto_wrap_policy, !not_elem_of_cons. intros (H1 & H2 & H3 & _).
  unfold select_auto_wrap_policy.
  rewrite (proj2 (String.eqb_neq _ _) H1), (proj2 (String.eqb_neq _ _) H2),
    (proj2 (String.eqb_neq _ _) H3).
  reflexivity.
Qed.

(** The policy choice on its own raises exactly for a value outside
    the choices of [--auto_wrap_policy]. *)
Lemma select_auto_wrap_policy_raises_iff flags st :
  (∃ e st', select_auto_wrap_policy flags st = (Raise e, st')) ↔
  auto_wrap_policy flags ∉ choices_of "--auto_wrap_policy".
Proof.
  split.
  - intros (e & st' & Hrun) Hin.
    rewrite choices_auto_wrap_policy, !elem_of_cons, elem_of_nil in Hin.
    destruct Hin as [H | [H | [H | []]]].
    + rewrite (select_none _ _ H) in Hrun. discriminate.
    + destruct (select_size_based _ st H) as (? & Hok & _). congruence.
    + destruct (select_type_based _ st H) as (? & Hok & _). congruence.
  - intros H. eexists _, _. apply (select_invalid _ _ H).
Qed.

(** *** The call of FSDP *)

Lemma fsdp_wrap_eq flags m st policy wrapper :
  torch_has_attr (compute_dtype flags) = true →
  locals st !! "auto_wrap_policy" = Some policy →
  locals st !! "auto_wrapper_callable" = Some wrapper →
  fsdp_wrap extern torch_has_attr flags m st =
  py_call extern (VGlobal "FSDP") [m]
    [("compute_dtype", VAttr (VGlobal "torch") (compute_dtype flags));
     ("fp32_reduce_scatter", VBool (fp32_reduce_scatter flags));
     ("flatten_parameters", VBool (flatten_parameters flags));
     ("shard_param_on_dim_0", VBool (shard_param_on_dim_0 flags));
     ("pin_layout_in_collective_ops", VBool (pin_layout_in_collective_ops flags));
     ("auto_wrap_policy", policy);
     ("auto_wrapper_callable", wrapper);
     ("optimization_barrier_in_forward", VBool false);
     ("optimization_barrier_in_backward", VBool false)] st.
Proof.
  intros Hd Hp Hw. unfold fsdp_wrap, getattr_torch. rewrite Hd.
  do 4 (erewrite bind_Return by reflexivity; cbv beta).
  rewrite (bind_Return _ _ _ _ _ (load_fast_bound _ _ _ Hp)).
  rewrite (bind_Return _ _ _ _ _ (load_fast_bound _ _ _ Hw)).
  reflexivity.
Qed.

(** The first library call [wrap_model] makes is the call of FSDP. *)
Lemma wrap_model_first_call flags st m policy wrapper :
  torch_has_attr (compute_dtype flags) = true →
  locals st !! "model" = Some m →
  locals st !! "auto_wrap_policy" = Some policy →
  locals st !! "auto_wrapper_callable" = Some wrapper →
  calls (wrap_model extern torch_has_attr flags st).2 !! length (calls st) =
  Some {| callee := VGlobal "FSDP"; args := [m];
          kwargs :=
            [("compute_dtype", VAttr (VGlobal "torch") (compute_dtype flags));
             ("fp32_reduce_scatter", VBool (fp32_reduce_scatter flags));
             ("flatten_parameters", VBool (flatten_parameters flags));
             ("shard_param_on_dim_0", VBool (shard_param_on_dim_0 flags));
             ("pin_layout_in_collective_ops",
              VBool (pin_layout_in_collective_ops flags));
             ("auto_wrap_policy", policy);
             ("auto_wrapper_callable", wrapper);
             ("optimization_barrier_in_forward", VBool false);
             ("optimization_barrier_in_backward", VBool false)] |}.
Proof.
  intros Hd Hm Hp Hw. unfold wrap_model.
  rewrite (bind_Return _ _ _ _ _ (load_fast_bound _ _ _ Hm)).
  unfold mbind at 1, M_bind at 1, bind at 1.
  rewrite (fsdp_wrap_eq _ _ _ _ _ Hd Hp Hw), py_call_eq.
  destruct (extern (calls st) _) as [v | e]; cbn [snd calls locals].
  - erewrite bind_Return by reflexivity. cbv beta.
    erewrite bind_Return by reflexivity. cbv beta.
    erewrite (bind_Return (load_fast "model"))
      by (apply load_fast_bound; cbn [locals]; simplify_map_eq; reflexivity).
    unfold mbind at 1, M_bind at 1, bind at 1. rewrite py_call_eq.
    destruct (extern _ _) as [v' | e']; cbn [snd calls locals].
    + erewrite bind_Return by reflexivity. cbv beta.
      erewrite bind_Return by reflexivity. cbv beta.
      unfold mbind at 1, M_bind at 1, bind at 1. rewrite py_call_eq.
      destruct (extern _ _) as [v'' | e'']; cbn [snd calls locals mret M_ret ret];
        rewrite <- !app_assoc; apply list_lookup_middle; reflexivity.
    + rewrite <- !app_assoc. apply list_lookup_middle. reflexivity.
  - apply list_lookup_middle. reflexivity.
Qed.

(** The state in which [wrap_model] starts after a policy choice that
    returned, and the FSDP call that follows. *)
Lemma configure_model_first_call flags st st1 m policy wrapper :
  torch_has_attr (compute_dtype flags) = true →
  select_auto_wrap_policy flags st = (Return tt, st1) →
  calls st1 = calls st →
  locals st1 !! "model" = Some m →
  locals st1 !! "auto_wrap_policy" = Some policy →
  locals st1 !! "auto_wrapper_callable" = Some wrapper →
  ∃ c, calls (configure_model extern torch_has_attr flags st).2
         !! length (calls st) = Some c
       ∧ callee c = VGlobal "FSDP"
       ∧ args c = [m]
       ∧ kwargs c =
           [("compute_dtype", VAttr (VGlobal "torch") (compute_dtype flags));
            ("fp32_reduce_scatter", VBool (fp32_reduce_scatter flags));
            ("flatten_parameters", VBool (flatten_parameters flags));
            ("shard_param_on_dim_0", VBool (shard_param_on_dim_0 flags));
            ("pin_layout_in_collective_ops",
             VBool (pin_layout_in_collective_ops flags));
            ("auto_wrap_policy", policy);
            ("auto_wrapper_callable", wrapper);
            ("optimization_barrier_in_forward", VBool false);
            ("optimization_barrier_in_backward", VBool false)].
Proof.
  intros Hd Hsel Hcalls Hm Hp Hw. unfold configure_model.
  rewrite (bind_Return _ _ _ _ _ Hsel), <- Hcalls.
  rewrite (wrap_model_first_call _ _ _ _ _ Hd Hm Hp Hw).
  eexists. split; [reflexivity |]. repeat split.
Qed.

(** The policy handed to FSDP, for each recognised choice. *)
Lemma configure_model_policy flags st m :
  torch_has_attr (compute_dtype flags) = true →
  locals st !! "model" = Some m →
  auto_wrap_policy flags ∈ choices_of "--auto_wrap_policy" →
  ∃ c wrapper,
    calls (configure_model extern torch_has_attr flags st).2
      !! length (calls st) = Some c
    ∧ callee c = VGlobal "FSDP"
    ∧ args c = [m]
    ∧ kwargs c =
        [("compute_dtype", VAttr (VGlobal "torch") (compute_dtype flags));
         ("fp32_reduce_scatter", VBool (fp32_reduce_scatter flags));
         ("flatten_parameters", VBool (flatten_parameters flags));
         ("shard_param_on_dim_0", VBool (shard_param_on_dim_0 flags));
         ("pin_layout_in_collective_ops",
          VBool (pin_layout_in_collective_ops flags));
         ("auto_wrap_policy",
          if String.eqb (auto_wrap_policy flags) "size_based" then
            VPartial (VGlobal "size_based_auto_wrap_policy")
              [("min_num_params", VInt (auto_wrap_min_num_params flags))]
          else if String.eqb (auto_wrap_policy flags) "type_based" then
            VPartial (VGlobal "transformer_auto_wrap_policy")
              [("transformer_layer_cls",
                VSet [VAttr (VGlobal "nn") "Conv2d";
                      VAttr (VGlobal "nn") "Linear"])]
          else VNone);
         ("auto_wrapper_callable", wrapper);
         ("optimization_barrier_in_forward", VBool false);
         ("optimization_barrier_in_backward", VBool false)].
Proof.
  intros Hd Hm Hin.
  rewrite choices_auto_wrap_policy, !elem_of_cons, elem_of_nil in Hin.
  destruct Hin as [H | [H | [H | []]]].
  - destruct (configure_model_first_call flags st _ m VNone VNone Hd
                (select_none _ _ H)) as (c & Hc);
      [reflexivity | cbn [locals]; simplify_map_eq; reflexivity ..|].
    exists c, VNone. rewrite H. exact Hc.
  - destruct (select_size_based _ st H) as (st1 & Hsel & Hcalls & Hmodel & Hp & Hw).
    rewrite Hm in Hmodel.
    destruct (configure_model_first_call flags st st1 m _ _ Hd Hsel Hcalls Hmodel Hp Hw)
      as (c & Hc).
    exists c. eexists. rewrite H. exact Hc.
  - destruct (select_type_based _ st H) as (st1 & Hsel & Hcalls & Hmodel & Hp & Hw).
    rewrite Hm in Hmodel.
    destruct (configure_model_first_call flags st st1 m _ _ Hd Hsel Hcalls Hmodel Hp Hw)
      as (c & Hc).
    exists c. eexists. rewrite H. exact Hc.
Qed.

(** No block reads [flags.ckpt_prefix]. *)
Lemma ckpt_prefix_unread prefix flags :
  inference_resnet extern iterate torch_has_attr (set_ckpt_prefix prefix flags)
  = inference_resnet extern iterate torch_has_attr flags
  ∧ configure_model extern torch_has_attr (set_ckpt_prefix prefix flags)
    = configure_model extern torch_has_attr flags.
Proof. split; reflexivity. Qed.

(** C3: [inference_resnet] never returns 100.  Whatever the flags and
    whatever the libraries do, a call returns no value at all; the
    timing report after the loop never returns, and it raises NameError
    for [sample_count] whenever the library calls before that line
    return and [start] has been assigned; with [fake_data] set, building
    the loader raises NameError for [batch_size] in every state, and the
    run raises it with [device] still unassigned. *)
Theorem inference_resnet_never_returns_100 flags :
  (∀ st v st',
     inference_resnet extern iterate torch_has_attr flags st ≠ (Return v, st'))
  ∧ (∀ st v st', report_timing extern flags st ≠ (Return v, st'))
  ∧ (library_returns extern →
     ∀ st start, locals st !! "start" = Some start →
       ∃ st', report_timing extern flags st
              = (Raise (NameError "sample_count"), st'))
  ∧ (fake_data flags = true →
     (∀ st, make_test_loader extern flags st
            = (Raise (NameError "batch_size"), st))
     ∧ (library_returns extern →
        ∀ history,
          ∃ st', inference_resnet_body extern iterate torch_has_attr flags
                   {| locals := ∅; calls := history |}
                 = (Raise (NameError "batch_size"), st')
                 ∧ locals st' !! "device" = None)).
Proof.
  split; [| split; [| split]].
  - intros st v st' H.
    destruct (inference_resnet_never_returns flags st) as (e & st1 & Hr).
    congruence.
  - intros st v st' H.
    destruct (report_timing_never_returns flags st) as (e & st1 & Hr).
    congruence.
  - intros Hret st start Hstart. apply (report_timing_NameError _ _ _ Hret Hstart).
  - intros Hfake. split.
    + intros st. apply (make_test_loader_fake _ _ Hfake).
    + intros Hret history. apply (inference_resnet_body_fake _ _ Hret Hfake).
Qed.

(** C4: the auto-wrap policy handed to FSDP.  From a state in which
    [model] is bound, and with a compute dtype that torch defines, the
    first library call of lines 121-158 is the call of FSDP on the
    model, and its [auto_wrap_policy] argument is
    [partial(size_based_auto_wrap_policy, min_num_params=flags.auto_wrap_min_num_params)]
    for [size_based],
    [partial(transformer_auto_wrap_policy, transformer_layer_cls={nn.Conv2d, nn.Linear})]
    for [type_based], and [None] for [none]. *)
Theorem auto_wrap_policy_pass_through flags st m :
  torch_has_attr (compute_dtype flags) = true →
  locals st !! "model" = Some m →
  let st' := (configure_model extern torch_has_attr flags st).2 in
  let handed policy :=
    ∃ c, calls st' !! length (calls st) = Some c
         ∧ callee c = VGlobal "FSDP"
         ∧ args c = [m]
         ∧ kwarg "auto_wrap_policy" c = Some policy in
  (auto_wrap_policy flags = "size_based" →
   handed (VPartial (VGlobal "size_based_auto_wrap_policy")
             [("min_num_params", VInt (auto_wrap_min_num_params flags))]))
  ∧ (auto_wrap_policy flags = "type_based" →
     handed (VPartial (VGlobal "transformer_auto_wrap_policy")
               [("transformer_layer_cls",
                 VSet [VAttr (VGlobal "nn") "Conv2d";
                       VAttr (VGlobal "nn") "Linear"])]))
  ∧ (auto_wrap_policy flags = "none" → handed VNone).
Proof.
  intros Hd Hm. cbv zeta.
  repeat split; intros H;
    (destruct (configure_model_policy flags st m Hd Hm)
       as (c & wrapper & Hc & Hcallee & Hargs & Hkw);
     [rewrite H, choices_auto_wrap_policy, !elem_of_cons; auto 10 |]);
    exists c; (repeat split; try assumption);
    unfold kwarg; rewrite Hkw, H; reflexivity.
Qed.

(** C5: the dtype and the boolean options handed to FSDP.  For a
    compute dtype among the choices of [--compute_dtype], each a name
    torch defines, [fsdp_wrap] makes one call, of FSDP on its argument,
    with [compute_dtype] the torch attribute of that name and
    [fp32_reduce_scatter], [flatten_parameters], [shard_param_on_dim_0]
    and [pin_layout_in_collective_ops] the values of the flags. *)
Theorem compute_dtype_pass_through flags st m policy wrapper :
  (∀ name, name ∈ choices_of "--compute_dtype" → torch_has_attr name = true) →
  compute_dtype flags ∈ choices_of "--compute_dtype" →
  locals st !! "auto_wrap_policy" = Some policy →
  locals st !! "auto_wrapper_callable" = Some wrapper →
  ∃ c, fsdp_wrap extern torch_has_attr flags m st
       = (extern (calls st) c,
          {| locals := locals st; calls := calls st ++ [c] |})
       ∧ callee c = VGlobal "FSDP"
       ∧ args c = [m]
       ∧ kwarg "compute_dtype" c
         = Some (py_getattr (VGlobal "torch") (compute_dtype flags))
       ∧ kwarg "fp32_reduce_scatter" c = Some (VBool (fp32_reduce_scatter flags))
       ∧ kwarg "flatten_parameters" c = Some (VBool (flatten_parameters flags))
       ∧ kwarg "shard_param_on_dim_0" c = Some (VBool (shard_param_on_dim_0 flags))
       ∧ kwarg "pin_layout_in_collective_ops" c
         = Some (VBool (pin_layout_in_collective_ops flags)).
Proof.
  intros Htorch Hin Hp Hw.
  rewrite (fsdp_wrap_eq _ _ _ _ _ (Htorch _ Hin) Hp Hw), py_call_eq.
  eexists. split; [reflexivity |]. repeat split.
Qed.

(** C2, as the code has it: the wrap policy, compute dtype,
    reduce-scatter precision and sharding dimension flags each set an
    argument of the FSDP call, and [ckpt_prefix] is read nowhere: a run
    and the FSDP configuration are the same for every value of it. *)
Theorem flags_map_onto_fsdp_options flags st m :
  torch_has_attr (compute_dtype flags) = true →
  locals st !! "model" = Some m →
  auto_wrap_policy flags ∈ choices_of "--auto_wrap_policy" →
  (∃ c, calls (configure_model extern torch_has_attr flags st).2
          !! length (calls st) = Some c
        ∧ callee c = VGlobal "FSDP"
        ∧ kwarg "auto_wrap_policy" c =
            Some (if String.eqb (auto_wrap_policy flags) "size_based" then
                    VPartial (VGlobal "size_based_auto_wrap_policy")
                      [("min_num_params", VInt (auto_wrap_min_num_params flags))]
                  else if String.eqb (auto_wrap_policy flags) "type_based" then
                    VPartial (VGlobal "transformer_auto_wrap_policy")
                      [("transformer_layer_cls",
                        VSet [VAttr (VGlobal "nn") "Conv2d";
                              VAttr (VGlobal "nn") "Linear"])]
                  else VNone)
        ∧ kwarg "compute_dtype" c
          = Some (py_getattr (VGlobal "torch") (compute_dtype flags))
        ∧ kwarg "fp32_reduce_scatter" c = Some (VBool (fp32_reduce_scatter flags))
        ∧ kwarg "shard_param_on_dim_0" c
          = Some (VBool (shard_param_on_dim_0 flags)))
  ∧ (∀ prefix,
       inference_resnet extern iterate torch_has_attr (set_ckpt_prefix prefix flags)
       = inference_resnet extern iterate torch_has_attr flags
       ∧ configure_model extern torch_has_attr (set_ckpt_prefix prefix flags)
         = configure_model extern torch_has_attr flags).
Proof.
  intros Hd Hm Hin. split; [| intros prefix; apply ckpt_prefix_unread].
  destruct (configure_model_policy flags st m Hd Hm Hin)
    as (c & wrapper & Hc & Hcallee & Hargs & Hkw).
  exists c. unfold kwarg. rewrite Hkw. repeat split; assumption.
Qed.

End Facts.
(** C1, at a recognised policy: with the default flags, whose policy is
    [none], every run of [inference_resnet] raises, whatever the
    libraries do; with libraries that return, the exception is the
    NameError for [datasets] at line 98, after two library calls and
    before the policy is looked at.  With [fake_data] set it is the
    NameError for [batch_size] at line 94. *)
Theorem recognised_policy_still_raises :
  auto_wrap_policy example_flags ∈ choices_of "--auto_wrap_policy"
  ∧ (∀ extern iterate torch_has_attr st,
       ∃ e st', inference_resnet extern iterate torch_has_attr example_flags st
                = (Raise e, st'))
  ∧ inference_resnet fresh_objects no_items torch_dtypes example_flags initial_state
    = (Raise (NameError "datasets"),
       {| locals := ∅;
          calls := [ {| callee := VAttr (VGlobal "time") "time";
                        args := []; kwargs := [] |};
                     {| callee := VAttr (VGlobal "torch") "manual_seed";
                        args := [VInt 1]; kwargs := [] |} ] |}).
Proof.
  split; [| split].
  - rewrite choices_auto_wrap_policy. apply list_elem_of_here.
  - intros extern iterate torch_has_attr st.
    apply inference_resnet_never_returns.
  - reflexivity.
Qed.

(** C2, as stated, fails for the default flags: the checkpoint prefix
    is an argument of no library call, neither in a run of
    [inference_resnet] nor in the three calls that configure and compile
    the model. *)
Lemma ckpt_prefix_reaches_no_library_call :
  ckpt_prefix example_flags = "/tmp/mnist-fsdp/final_ckpt"
  ∧ existsb (call_mentions (ckpt_prefix example_flags))
      (calls (inference_resnet fresh_objects no_items torch_dtypes
                example_flags initial_state).2) = false
  ∧ length (calls (configure_model fresh_objects torch_dtypes
                     example_flags model_state).2) = 3
  ∧ existsb (call_mentions (ckpt_prefix example_flags))
      (calls (configure_model fresh_objects torch_dtypes
                example_flags model_state).2) = false.
Proof. repeat split. Qed.

(** The size-based policy with the default threshold. *)
Lemma flags_map_onto_fsdp_options_witness :
  ∃ c, calls (configure_model fresh_objects torch_dtypes
                (flags_with_policy "size_based") model_state).2 !! 0 = Some c
       ∧ kwarg "auto_wrap_policy" c =
           Some (VPartial (VGlobal "size_based_auto_wrap_policy")
                   [("min_num_params", VInt 1000)])
       ∧ kwarg "compute_dtype" c = Some (VAttr (VGlobal "torch") "float32").
Proof.
  destruct (flags_map_onto_fsdp_options fresh_objects no_items torch_dtypes
              (flags_with_policy "size_based") model_state (VObject 0)
              eq_refl eq_refl) as [(c & Hc & _ & Hpolicy & Hdtype & _) _].
  - rewrite choices_auto_wrap_policy. apply list_elem_of_further, list_elem_of_here.
  - exists c. repeat split; assumption.
Defined.

Lemma auto_wrap_policy_pass_through_witness :
  ∃ c, calls (configure_model fresh_objects torch_dtypes
                (flags_with_policy "type_based") model_state).2 !! 0 = Some c
       ∧ callee c = VGlobal "FSDP"
       ∧ args c = [VObject 0]
       ∧ kwarg "auto_wrap_policy" c =
           Some (VPartial (VGlobal "transformer_auto_wrap_policy")
                   [("transformer_layer_cls",
                     VSet [VAttr (VGlobal "nn") "Conv2d";
                           VAttr (VGlobal "nn") "Linear"])]).
Proof.
  exact (proj1 (proj2 (auto_wrap_policy_pass_through fresh_objects torch_dtypes
                         (flags_with_policy "type_based") model_state (VObject 0)
                         eq_refl eq_refl)) eq_refl).
Defined.

Lemma compute_dtype_pass_through_witness :
  ∃ c, fsdp_wrap fresh_objects torch_dtypes example_flags (VObject 0)
         {| locals := {["auto_wrap_policy" := VNone;
                        "auto_wrapper_callable" := VNone]};
            calls := [] |}
       = (Return (VObject 0),
          {| locals := {["auto_wrap_policy" := VNone;
                         "auto_wrapper_callable" := VNone]};
             calls := [c] |})
       ∧ kwarg "compute_dtype" c = Some (VAttr (VGlobal "torch") "float32")
       ∧ kwarg "fp32_reduce_scatter" c = Some (VBool false)
       ∧ kwarg "pin_layout_in_collective_ops" c = Some (VBool true).
Proof.
  destruct (compute_dtype_pass_through fresh_objects torch_dtypes example_flags
              {| locals := {["auto_wrap_policy" := VNone;
                             "auto_wrapper_callable" := VNone]};
                 calls := [] |}
              (VObject 0) VNone VNone)
    as (c & Hrun & _ & _ & Hdtype & Hfp32 & _ & _ & Hpin).
  - intros name Hname. rewrite choices_compute_dtype in Hname.
    unfold torch_dtypes. apply bool_decide_eq_true_2, Hname.
  - rewrite choices_compute_dtype. apply list_elem_of_here.
  - reflexivity.
  - reflexivity.
  - exists c. repeat split; assumption.
Defined.

End FsdpLatencySpec.

(** * Further properties of setup.py *)

Module SetupExtra.
Import PyStr PyMonad PyMonadFacts Setup SetupSpec.

(** ** Build mode and environment flags *)

Lemma find_first_split {A} (f : A -> bool) (l : list A) (x : A) :
  List.find f l = Some x ↔
  ∃ before after, l = before ++ x :: after ∧ f x = true
                  ∧ ∀ a, a ∈ before → f a = false.
Proof.
  induction l as [|y l IH]; cbn [List.find].
  - split; [discriminate |]. intros (before & after & Heq & _).
    destruct before; discriminate Heq.
  - destruct (f y) eqn:Hy.
    + split.
      * intros [= <-]. exists [], l. split; [reflexivity |].
        split; [exact Hy |]. intros a Ha. inversion Ha.
      * intros (before & after & Heq & Hx & Hbefore).
        destruct before as [|b before]; cbn in Heq; injection Heq as <- Hl.
        -- reflexivity.
        -- rewrite Hbefore in Hy by apply list_elem_of_here. discriminate Hy.
    + rewrite IH. split.
      * intros (before & after & -> & Hx & Hbefore).
        exists (y :: before), after. split; [reflexivity |].
        split; [exact Hx |]. intros a [-> | Ha]%elem_of_cons; auto.
      * intros (before & after & Heq & Hx & Hbefore).
        destruct before as [|b before]; cbn in Heq; injection Heq as <- Hl.
        -- congruence.
        -- exists before, after. split; [exact Hl |]. split; [exact Hx |].
           intros a Ha. apply Hbefore, list_elem_of_further, Ha.
Qed.

Lemma find_none_all {A} (f : A -> bool) (l : list A) :
  List.find f l = None ↔ ∀ a, a ∈ l → f a = false.
Proof.
  induction l as [|y l IH]; cbn [List.find].
  - split; [intros _ a Ha; inversion Ha | reflexivity].
  - destruct (f y) eqn:Hy.
    + split; [discriminate |]. intros H.
      rewrite H in Hy by apply list_elem_of_here. discriminate Hy.
    + rewrite IH. split.
      * intros H a [-> | Ha]%elem_of_cons; auto.
      * intros H a Ha. apply H, list_elem_of_further, Ha.
Qed.

(** X1: the build mode is the first argument after the program name
    that does not start with a dash; every argument before it is an
    option, and there is no mode exactly when all arguments are
    options (in particular when there are none). *)
Theorem get_build_mode_first_non_option (argv : list string) :
  (∀ mode,
     _get_build_mode argv = Some mode ↔
     ∃ options rest,
       tail argv = options ++ mode :: rest
       ∧ startswith mode "-" = false
       ∧ ∀ a, a ∈ options → startswith a "-" = true)
  ∧ (_get_build_mode argv = None ↔
     ∀ a, a ∈ tail argv → startswith a "-" = true).
Proof.
  unfold _get_build_mode. split.
  - intros mode. rewrite find_first_split.
    split; intros (options & rest & Heq & Hm & Hopt);
      exists options, rest; (split; [exact Heq |]); split.
    + apply negb_true_iff, Hm.
    + intros a Ha. apply negb_false_iff, Hopt, Ha.
    + apply negb_true_iff, Hm.
    + intros a Ha. apply negb_false_iff, Hopt, Ha.
  - rewrite find_none_all. split; intros H a Ha.
    + apply negb_false_iff, H, Ha.
    + apply negb_false_iff, H, Ha.
Qed.

Lemma upper_char_idempotent (c : ascii) : upper_char (upper_char c) = upper_char c.
Proof. destruct c as [[] [] [] [] [] [] [] []]; reflexivity. Qed.

Lemma upper_idempotent (s : string) : upper (upper s) = upper s.
Proof.
  induction s as [|c s IH]; cbn [upper]; [reflexivity |].
  rewrite upper_char_idempotent, IH. reflexivity.
Qed.

(** Every character, for a check by cases. *)
Lemma all_ascii_complete (a : ascii) :
  In a (map Ascii.ascii_of_nat (seq 0 256)).
Proof.
  rewrite <- (Ascii.ascii_nat_embedding a). apply in_map, in_seq.
  pose proof (Ascii.nat_ascii_bounded a). lia.
Qed.

Lemma same_letter_upper (a b : ascii) :
  same_letter a b = Ascii.eqb (upper_char a) (upper_char b).
Proof.
  assert (Htable :
    forallb (fun a => forallb (fun b =>
               Bool.eqb (same_letter a b)
                        (Ascii.eqb (upper_char a) (upper_char b)))
               (map Ascii.ascii_of_nat (seq 0 256)))
            (map Ascii.ascii_of_nat (seq 0 256)) = true)
    by (vm_compute; reflexivity).
  rewrite forallb_forall in Htable.
  specialize (Htable a (all_ascii_complete a)).
  rewrite forallb_forall in Htable.
  apply Bool.eqb_prop, Htable, all_ascii_complete.
Qed.

Lemma equal_ignoring_case_upper (s t : string) :
  equal_ignoring_case s t = true ↔ upper s = upper t.
Proof.
  revert t. induction s as [|a s IH]; intros [|b t]; cbn [equal_ignoring_case upper];
    try (split; intros H; reflexivity || discriminate H).
  rewrite andb_true_iff, same_letter_upper, IH. split.
  - intros [Hc ->]. apply Ascii.eqb_eq in Hc. rewrite Hc. reflexivity.
  - intros [= Hc Hs]. split; [apply Ascii.eqb_eq, Hc | exact Hs].
Qed.

(** X2: an environment flag is read without regard to case.  For a
    value of ASCII characters the flag holds exactly when the value is,
    up to the case of its letters, one of the five words ON, 1, YES,
    TRUE and Y; and two values that differ in the case of letters only
    give the same flag.  Once the variable is set the default plays no
    part. *)
Theorem check_env_flag_case_insensitive (env : environ) (name dflt value : string) :
  isascii value = true →
  (_check_env_flag (<[name := value]> env) name dflt = true ↔
     ∃ word, word ∈ ["ON"; "1"; "YES"; "TRUE"; "Y"]
             ∧ equal_ignoring_case value word = true)
  ∧ (∀ value', equal_ignoring_case value value' = true →
       _check_env_flag (<[name := value']> env) name dflt
       = _check_env_flag (<[name := value]> env) name dflt).
Proof.
  intros _. unfold _check_env_flag, getenv. rewrite lookup_insert_eq.
  cbn [default from_option id]. split.
  - rewrite bool_decide_eq_true. unfold truthy_values. split.
    + intros Hin. exists (upper value). split; [exact Hin |].
      apply equal_ignoring_case_upper. rewrite upper_idempotent. reflexivity.
    + intros (word & Hin & Heq). apply equal_ignoring_case_upper in Heq.
      rewrite Heq.
      repeat (apply elem_of_cons in Hin as [-> | Hin]; [set_solver |]).
      inversion Hin.
  - intros value' Heq. rewrite lookup_insert_eq. cbn [default from_option id].
    apply equal_ignoring_case_upper in Heq. rewrite Heq. reflexivity.
Qed.

(** Mixed case, with another default. *)
Lemma check_env_flag_case_insensitive_witness :
  _check_env_flag (<["XLA_CUDA" := "Yes"]> ∅) "XLA_CUDA" "0" = true
  ∧ _check_env_flag (<["XLA_CUDA" := "yES"]> ∅) "XLA_CUDA" "0" = true.
Proof.
  destruct (check_env_flag_case_insensitive ∅ "XLA_CUDA" "0" "Yes" eq_refl)
    as [[_ Hflag] Hcase].
  assert (H : _check_env_flag (<["XLA_CUDA" := "Yes"]> ∅) "XLA_CUDA" "0" = true).
  { apply Hflag. exists "YES". split; [| reflexivity].
    apply list_elem_of_further, list_elem_of_further, list_elem_of_here. }
  split; [exact H |]. rewrite (Hcase "yES" eq_refl). exact H.
Defined.

(** ** The command line *)

(** X3: [-s] is appended to the command line exactly when BAZEL_VERBOSE
    is truthy. *)
Theorem bazel_verbose_flag h (env : environ) self ext :
  "-s" ∈ appended_options (setup_bazel_argv h env self ext) ↔
  upper (getenv env "BAZEL_VERBOSE" EmptyString) ∈ ["ON"; "1"; "YES"; "TRUE"; "Y"].
Proof.
  rewrite <- check_env_flag_true. unfold setup_bazel_argv.
  rewrite elem_of_appended_options.
  cbn [DEBUG module_globals GCLOUD_KEY_FILE CACHE_SILO_NAME IS_WINDOWS].
  split; [| tauto]. intros H.
  repeat (destruct H as [H|H]);
    try (destruct H as [? [?|[?|[? ?]]]]; str_discr);
    try (destruct H as [? (d & ? & ?)]; str_discr);
    try (destruct H; first [assumption | str_discr]).
Qed.

(** X4: the cache-silo option needs both a key file and a silo name.
    The option for the value of SILO_NAME ([dev] when unset) is
    appended exactly when GCLOUD_SERVICE_KEY_FILE is non-empty and that
    value is non-empty; an empty SILO_NAME switches the option off, and
    without a key file SILO_NAME has no effect. *)
Theorem silo_option_needs_key_and_name h (env : environ) self ext :
  let silo := getenv env "SILO_NAME" "dev" in
  silo_option silo ∈ appended_options (setup_bazel_argv h env self ext) ↔
  getenv env "GCLOUD_SERVICE_KEY_FILE" EmptyString ≠ EmptyString
  ∧ silo ≠ EmptyString.
Proof.
  cbv zeta. rewrite <- !truthy_true. unfold setup_bazel_argv.
  rewrite elem_of_appended_options.
  cbn [DEBUG module_globals GCLOUD_KEY_FILE CACHE_SILO_NAME IS_WINDOWS].
  split; [| tauto]. intros H.
  repeat (destruct H as [H|H]);
    try (destruct H as [? (d & ? & ?)]; str_discr);
    try (destruct H as [? [?|[?|[? ?]]]]; first [tauto | str_discr]);
    try (destruct H; str_discr).
Qed.

(** X5: library directories reach the command line on Windows only.
    The command line is the one for no library directory followed, when
    [sys.platform] starts with [win], by one [/LIBPATH] link option per
    directory, in order. *)
Theorem linkopts_on_windows_only h (env : environ) self ext :
  setup_bazel_argv h env self ext =
  setup_bazel_argv h env {| build_temp := build_temp self; library_dirs := [] |} ext
  ++ (if startswith (sys_platform h) "win"
      then map (fun library_dir => "--linkopt=/LIBPATH:" +:+ library_dir)
               (library_dirs self)
      else []).
Proof.
  unfold setup_bazel_argv. rewrite !bazel_argv_segments.
  cbn [IS_WINDOWS module_globals library_dirs build_temp map].
  destruct (startswith (sys_platform h) "win");
    rewrite <- ?app_assoc, ?app_nil_r; reflexivity.
Qed.

Lemma sublist_if_singleton (b : bool) (x : string) :
  (if b then [x] else []) `sublist_of` [x].
Proof. destruct b; [reflexivity | apply sublist_nil_l]. Qed.

(** X6: the shape of every command line.  It starts with [bazel],
    [build], the target, the symlink prefix and the joined [--cxxopt]
    element, and the options after them come in one fixed order, each at
    most once: debug, remote cache, credentials, cache silo, verbose,
    CUDA, ACL, then the link options. *)
Theorem bazel_argv_shape h g (env : environ) self ext :
  bazel_argv h g env self ext =
  ["bazel"; "build"; bazel_target ext;
   "--symlink_prefix=" +:+ os_path_join h (build_temp self) "bazel-";
   join newline (map (fun opt => "--cxxopt=" +:+ opt) (extra_compile_args g))]
  ++ appended_options (bazel_argv h g env self ext)
  ∧ appended_options (bazel_argv h g env self ext) `sublist_of`
    ["--compilation_mode=dbg"; "--config=remote_cache";
     "--google_credentials=" +:+ GCLOUD_KEY_FILE g;
     silo_option (CACHE_SILO_NAME g); "-s"; "--config=cuda"; "--config=acl"]
    ++ map (fun library_dir => "--linkopt=/LIBPATH:" +:+ library_dir)
           (library_dirs self).
Proof.
  split; [apply bazel_argv_split |].
  rewrite appended_options_segments.
  cbn [app].
  apply (sublist_app _ [_]); [apply sublist_if_singleton |].
  apply (sublist_app _ [_; _; _]).
  { destruct (truthy (GCLOUD_KEY_FILE g)); [| apply sublist_nil_l].
    apply (sublist_app [_; _] [_; _]); [reflexivity | apply sublist_if_singleton]. }
  apply (sublist_app _ [_]); [apply sublist_if_singleton |].
  apply (sublist_app _ [_]); [apply sublist_if_singleton |].
  apply (sublist_app _ [_]); [apply sublist_if_singleton |].
  destruct (IS_WINDOWS g); [reflexivity | apply sublist_nil_l].
Qed.

(** ** Files *)

Lemma existsb_ext_in {A} (f g : A -> bool) (l : list A) :
  (∀ a, a ∈ l → f a = g a) → existsb f l = existsb g l.
Proof.
  induction l as [|a l IH]; cbn [existsb]; intros H; [reflexivity |].
  rewrite (H a) by apply list_elem_of_here.
  rewrite IH; [reflexivity |]. intros b Hb. apply H, list_elem_of_further, Hb.
Qed.

(** [under_file] looks at the proper prefixes of the path only. *)
Lemma under_file_ext (files1 files2 : gmap (list string) node) (q : list string) :
  (∀ n, n < length q → files1 !! firstn n q = files2 !! firstn n q) →
  under_file files1 q = under_file files2 q.
Proof.
  intros H. unfold under_file. apply existsb_ext_in.
  intros n Hn%list_elem_of_In%in_seq. rewrite H by lia. reflexivity.
Qed.

Lemma under_file_snoc (files : gmap (list string) node) (p : list string) (a : string) :
  under_file files (p ++ [a]) =
  under_file files p
  || match files !! p with Some (File _) => true | _ => false end.
Proof.
  unfold under_file. rewrite length_app. cbn [length].
  replace (length p + 1) with (S (length p)) by lia.
  rewrite seq_S, existsb_app. cbn [existsb plus].
  rewrite firstn_app, Nat.sub_diag, firstn_all. cbn [firstn].
  rewrite app_nil_r, orb_false_r. f_equal.
  apply existsb_ext_in. intros n Hn%list_elem_of_In%in_seq.
  rewrite firstn_app. replace (n - length p) with 0 by lia.
  cbn [firstn]. rewrite app_nil_r. reflexivity.
Qed.

Lemma firstn_ne_longer {A} (q p : list A) (n : nat) :
  length q < length p → firstn n q ≠ p.
Proof.
  intros Hlen Heq. apply (f_equal (@length A)) in Heq.
  rewrite length_firstn in Heq. lia.
Qed.

Lemma open_w_ok (p : list string) (w : world) :
  under_file (fs w) p = false →
  fs w !! p ≠ Some Dir →
  fs w !! parent p = Some Dir →
  open_w p w = (Return tt, set_fs (insert p (File EmptyString)) w).
Proof.
  intros Hu Hp Hparent. unfold open_w, mbind, M_bind, bind, get.
  rewrite Hu, Hparent. destruct (fs w !! p) as [[]|]; try reflexivity. congruence.
Qed.

Lemma open_w_returns (p : list string) (w : world) u w' :
  open_w p w = (Return u, w') →
  w' = set_fs (insert p (File EmptyString)) w.
Proof.
  unfold open_w, mbind, M_bind, bind, get.
  destruct (under_file (fs w) p); [discriminate |].
  destruct (fs w !! p) as [[]|]; try discriminate;
    destruct (fs w !! parent p) as [[]|]; try discriminate;
    intros [= _ <-]; reflexivity.
Qed.

Lemma open_w_raises_unchanged (p : list string) (w : world) e w' :
  open_w p w = (Raise e, w') → w' = w.
Proof.
  unfold open_w, mbind, M_bind, bind, get.
  destruct (under_file (fs w) p); [intros [= _ <-]; reflexivity |].
  destruct (fs w !! p) as [[]|]; try (intros [= _ <-]; reflexivity);
    destruct (fs w !! parent p) as [[]|]; try discriminate;
    intros [= _ <-]; reflexivity.
Qed.

Lemma open_w_no_parent (p : list string) (w : world) :
  under_file (fs w) p = false →
  fs w !! p ≠ Some Dir →
  fs w !! parent p = None →
  open_w p w = (Raise (FileNotFoundError p), w).
Proof.
  intros Hu Hp Hparent. unfold open_w, mbind, M_bind, bind, get.
  rewrite Hu, Hparent. destruct (fs w !! p) as [[]|]; try reflexivity. congruence.
Qed.

Lemma version_paths_differ (base_dir : list string) :
  base_dir ++ ["torch_xla"; "version.py"]
  ≠ base_dir ++ ["torch_xla"; "csrc"; "version.cpp"].
Proof. intros H. apply app_inv_head in H. discriminate H. Qed.

(** What [create_version_files] has done whenever it returns. *)
Lemma create_version_files_returns base_dir version xla_git_sha torch_git_sha w u w' :
  create_version_files base_dir version xla_git_sha torch_git_sha w = (Return u, w') →
  fs w' !! (base_dir ++ ["torch_xla"; "version.py"]) =
    Some (File (fold_left String.append
                  ["# Autogenerated file, do not edit!" +:+ newline;
                   "__version__ = '" +:+ version +:+ "'" +:+ newline;
                   "__xla_gitrev__ = '" +:+ xla_git_sha +:+ "'" +:+ newline;
                   "__torch_gitrev__ = '" +:+ torch_git_sha +:+ "'" +:+ newline]
                  EmptyString))
  ∧ fs w' !! (base_dir ++ ["torch_xla"; "csrc"; "version.cpp"]) =
    Some (File (fold_left String.append
                  ["// Autogenerated file, do not edit!" +:+ newline;
                   "#include " +:+ dquote +:+ "torch_xla/csrc/version.h"
                     +:+ dquote +:+ newline +:+ newline;
                   "namespace torch_xla {" +:+ newline +:+ newline;
                   "const char XLA_GITREV[] = {" +:+ dquote +:+ xla_git_sha
                     +:+ dquote +:+ "};" +:+ newline;
                   "const char TORCH_GITREV[] = {" +:+ dquote +:+ torch_git_sha
                     +:+ dquote +:+ "};" +:+ newline +:+ newline;
                   "}  // namespace torch_xla" +:+ newline]
                  EmptyString))
  ∧ (∀ q, q ≠ base_dir ++ ["torch_xla"; "version.py"] →
          q ≠ base_dir ++ ["torch_xla"; "csrc"; "version.cpp"] →
          fs w' !! q = fs w !! q)
  ∧ stdout w' = stdout w ++ ["Building torch_xla version: " +:+ version;
                             "XLA Commit ID: " +:+ xla_git_sha;
                             "PyTorch Commit ID: " +:+ torch_git_sha].
Proof.
  pose proof (version_paths_differ base_dir) as Hne.
  unfold create_version_files.
  do 3 (erewrite bind_Return by reflexivity).
  intros (u1 & w1 & Hopen1 & Hrest)%bind_returns.
  apply open_w_returns in Hopen1. subst w1.
  do 4 (erewrite bind_Return in Hrest by reflexivity).
  apply bind_returns in Hrest as (u2 & w2 & Hopen2 & Hrest).
  apply open_w_returns in Hopen2. subst w2.
  do 5 (erewrite bind_Return in Hrest by reflexivity).
  injection Hrest as _ <-. cbn [fs set_fs stdout].
  repeat split.
  - simplify_map_eq. reflexivity.
  - simplify_map_eq. reflexivity.
  - intros q Hq1 Hq2. simplify_map_eq. reflexivity.
  - rewrite <- !app_assoc. reflexivity.
Qed.

Lemma create_version_files_ok base_dir version xla_git_sha torch_git_sha w :
  under_file (fs w) (base_dir ++ ["torch_xla"]) = false →
  fs w !! (base_dir ++ ["torch_xla"]) = Some Dir →
  fs w !! (base_dir ++ ["torch_xla"; "csrc"]) = Some Dir →
  fs w !! (base_dir ++ ["torch_xla"; "version.py"]) ≠ Some Dir →
  fs w !! (base_dir ++ ["torch_xla"; "csrc"; "version.cpp"]) ≠ Some Dir →
  ∃ w', create_version_files base_dir version xla_git_sha torch_git_sha w
        = (Return tt, w').
Proof.
  intros Hu Htx Hcsrc Hpy Hcpp.
  pose proof (version_paths_differ base_dir) as Hne.
  unfold create_version_files.
  do 3 (erewrite bind_Return by reflexivity).
  erewrite bind_Return; cycle 1.
  { apply open_w_ok; cbn [fs].
    - change (base_dir ++ ["torch_xla"; "version.py"])
        with (base_dir ++ ["torch_xla"] ++ ["version.py"]).
      rewrite app_assoc, under_file_snoc.
      apply orb_false_iff. split; [exact Hu |]. rewrite Htx. reflexivity.
    - exact Hpy.
    - change (base_dir ++ ["torch_xla"; "version.py"])
        with (base_dir ++ ["torch_xla"] ++ ["version.py"]).
      unfold parent. rewrite app_assoc, removelast_last. exact Htx. }
  do 4 (erewrite bind_Return by reflexivity).
  erewrite bind_Return; cycle 1.
  { assert (Hne1 : base_dir ++ ["torch_xla"; "version.py"]
                   ≠ base_dir ++ ["torch_xla"]).
    { intros H. apply app_inv_head in H. discriminate H. }
    assert (Hne2 : base_dir ++ ["torch_xla"; "version.py"]
                   ≠ base_dir ++ ["torch_xla"; "csrc"]).
    { intros H. apply app_inv_head in H. discriminate H. }
    apply open_w_ok; cbn [fs set_fs].
    - change (base_dir ++ ["torch_xla"; "csrc"; "version.cpp"])
        with (base_dir ++ ["torch_xla"] ++ ["csrc"] ++ ["version.cpp"]).
      rewrite !app_assoc. do 2 rewrite under_file_snoc.
      rewrite (under_file_ext _ (fs w)).
      + rewrite <- !app_assoc. cbn [app].
        rewrite !lookup_alter_ne, !lookup_insert_ne by assumption.
        rewrite Hu, Htx, Hcsrc. reflexivity.
      + intros n Hn.
        assert (base_dir ++ ["torch_xla"; "version.py"]
                ≠ firstn n (base_dir ++ ["torch_xla"])).
        { apply not_eq_sym, firstn_ne_longer. rewrite !length_app. cbn. lia. }
        rewrite !lookup_alter_ne, !lookup_insert_ne by assumption. reflexivity.
    - rewrite !lookup_alter_ne, !lookup_insert_ne by assumption. exact Hcpp.
    - change (base_dir ++ ["torch_xla"; "csrc"; "version.cpp"])
        with (base_dir ++ ["torch_xla"; "csrc"] ++ ["version.cpp"]).
      unfold parent. rewrite app_assoc, removelast_last.
      rewrite !lookup_alter_ne, !lookup_insert_ne by assumption. exact Hcsrc. }
  do 5 (erewrite bind_Return by reflexivity).
  eexists. reflexivity.
Qed.

(** X7: [create_version_files] in a checkout that has the two
    directories.  With torch_xla and torch_xla/csrc directories, and
    nothing but regular files (or nothing) at the two target paths, the
    call returns; version.py then holds exactly the header line and the
    three assignments of the version and the two commit ids, version.cpp
    holds the generated C++ source, every other path is as before, and
    three lines were printed. *)
Theorem create_version_files_writes base_dir version xla_git_sha torch_git_sha w :
  under_file (fs w) (base_dir ++ ["torch_xla"]) = false →
  fs w !! (base_dir ++ ["torch_xla"]) = Some Dir →
  fs w !! (base_dir ++ ["torch_xla"; "csrc"]) = Some Dir →
  fs w !! (base_dir ++ ["torch_xla"; "version.py"]) ≠ Some Dir →
  fs w !! (base_dir ++ ["torch_xla"; "csrc"; "version.cpp"]) ≠ Some Dir →
  ∃ w', create_version_files base_dir version xla_git_sha torch_git_sha w
        = (Return tt, w')
    ∧ fs w' !! (base_dir ++ ["torch_xla"; "version.py"]) =
      Some (File (fold_left String.append
                    ["# Autogenerated file, do not edit!" +:+ newline;
                     "__version__ = '" +:+ version +:+ "'" +:+ newline;
                     "__xla_gitrev__ = '" +:+ xla_git_sha +:+ "'" +:+ newline;
                     "__torch_gitrev__ = '" +:+ torch_git_sha +:+ "'" +:+ newline]
                    EmptyString))
    ∧ fs w' !! (base_dir ++ ["torch_xla"; "csrc"; "version.cpp"]) =
      Some (File (fold_left String.append
                    ["// Autogenerated file, do not edit!" +:+ newline;
                     "#include " +:+ dquote +:+ "torch_xla/csrc/version.h"
                       +:+ dquote +:+ newline +:+ newline;
                     "namespace torch_xla {" +:+ newline +:+ newline;
                     "const char XLA_GITREV[] = {" +:+ dquote +:+ xla_git_sha
                       +:+ dquote +:+ "};" +:+ newline;
                     "const char TORCH_GITREV[] = {" +:+ dquote +:+ torch_git_sha
                       +:+ dquote +:+ "};" +:+ newline +:+ newline;
                     "}  // namespace torch_xla" +:+ newline]
                    EmptyString))
    ∧ (∀ q, q ≠ base_dir ++ ["torch_xla"; "version.py"] →
            q ≠ base_dir ++ ["torch_xla"; "csrc"; "version.cpp"] →
            fs w' !! q = fs w !! q)
    ∧ stdout w' = stdout w ++ ["Building torch_xla version: " +:+ version;
                               "XLA Commit ID: " +:+ xla_git_sha;
                               "PyTorch Commit ID: " +:+ torch_git_sha].
Proof.
  intros Hu Htx Hcsrc Hpy Hcpp.
  destruct (create_version_files_ok base_dir version xla_git_sha torch_git_sha w
              Hu Htx Hcsrc Hpy Hcpp) as [w' Hrun].
  exists w'. split; [exact Hrun |].
  apply (create_version_files_returns _ _ _ _ _ _ _ Hrun).
Qed.

(** A checkout at /xla with the two directories and no generated file. *)
Lemma create_version_files_writes_witness :
  ∃ w', create_version_files ["xla"] "2.1.0" "0123abc" EmptyString
          {| fs := {[ ["xla"] := Dir; ["xla"; "torch_xla"] := Dir;
                      ["xla"; "torch_xla"; "csrc"] := Dir ]};
             stdout := [] |}
        = (Return tt, w')
      ∧ fs w' !! ["xla"; "torch_xla"; "version.py"] =
        Some (File (fold_left String.append
                      ["# Autogenerated file, do not edit!" +:+ newline;
                       "__version__ = '2.1.0'" +:+ newline;
                       "__xla_gitrev__ = '0123abc'" +:+ newline;
                       "__torch_gitrev__ = ''" +:+ newline]
                      EmptyString)).
Proof.
  destruct (create_version_files_writes ["xla"] "2.1.0" "0123abc" EmptyString
              {| fs := {[ ["xla"] := Dir; ["xla"; "torch_xla"] := Dir;
                          ["xla"; "torch_xla"; "csrc"] := Dir ]};
                 stdout := [] |})
    as (w' & Hrun & Hpy & _).
  - reflexivity.
  - reflexivity.
  - reflexivity.
  - vm_compute. discriminate.
  - vm_compute. discriminate.
  - exists w'. split; assumption.
Defined.

(** X8: [create_version_files] without its directories.  When
    torch_xla is missing the call raises FileNotFoundError for
    version.py and no file is touched; when only torch_xla/csrc is
    missing it raises FileNotFoundError for version.cpp after version.py
    has been written in full.  The three lines are printed in both
    cases. *)
Theorem create_version_files_missing_directory
    base_dir version xla_git_sha torch_git_sha w :
  under_file (fs w) (base_dir ++ ["torch_xla"]) = false →
  fs w !! (base_dir ++ ["torch_xla"; "version.py"]) ≠ Some Dir →
  fs w !! (base_dir ++ ["torch_xla"; "csrc"; "version.cpp"]) ≠ Some Dir →
  let printed := stdout w ++ ["Building torch_xla version: " +:+ version;
                              "XLA Commit ID: " +:+ xla_git_sha;
                              "PyTorch Commit ID: " +:+ torch_git_sha] in
  (fs w !! (base_dir ++ ["torch_xla"]) = None →
   create_version_files base_dir version xla_git_sha torch_git_sha w
   = (Raise (FileNotFoundError (base_dir ++ ["torch_xla"; "version.py"])),
      {| fs := fs w; stdout := printed |}))
  ∧ (fs w !! (base_dir ++ ["torch_xla"]) = Some Dir →
     fs w !! (base_dir ++ ["torch_xla"; "csrc"]) = None →
     ∃ w', create_version_files base_dir version xla_git_sha torch_git_sha w
           = (Raise (FileNotFoundError
                       (base_dir ++ ["torch_xla"; "csrc"; "version.cpp"])), w')
         ∧ fs w' !! (base_dir ++ ["torch_xla"; "version.py"]) =
           Some (File (fold_left String.append
                         ["# Autogenerated file, do not edit!" +:+ newline;
                          "__version__ = '" +:+ version +:+ "'" +:+ newline;
                          "__xla_gitrev__ = '" +:+ xla_git_sha +:+ "'" +:+ newline;
                          "__torch_gitrev__ = '" +:+ torch_git_sha +:+ "'"
                            +:+ newline]
                         EmptyString))
         ∧ fs w' !! (base_dir ++ ["torch_xla"; "csrc"; "version.cpp"])
           = fs w !! (base_dir ++ ["torch_xla"; "csrc"; "version.cpp"])
         ∧ stdout w' = printed).
Proof.
  intros Hu Hpy Hcpp. cbv zeta.
  assert (Hne1 : base_dir ++ ["torch_xla"; "version.py"]
                 ≠ base_dir ++ ["torch_xla"]).
  { intros H. apply app_inv_head in H. discriminate H. }
  assert (Hne2 : base_dir ++ ["torch_xla"; "version.py"]
                 ≠ base_dir ++ ["torch_xla"; "csrc"]).
  { intros H. apply app_inv_head in H. discriminate H. }
  pose proof (version_paths_differ base_dir) as Hne.
  split.
  - intros Htx. unfold create_version_files.
    do 3 (erewrite bind_Return by reflexivity).
    erewrite bind_Raise; cycle 1.
    { apply open_w_no_parent; cbn [fs].
      - change (base_dir ++ ["torch_xla"; "version.py"])
          with (base_dir ++ ["torch_xla"] ++ ["version.py"]).
        rewrite app_assoc, under_file_snoc.
        apply orb_false_iff. split; [exact Hu |]. rewrite Htx. reflexivity.
      - exact Hpy.
      - change (base_dir ++ ["torch_xla"; "version.py"])
          with (base_dir ++ ["torch_xla"] ++ ["version.py"]).
        unfold parent. rewrite app_assoc, removelast_last. exact Htx. }
    cbn [fs stdout]. rewrite <- !app_assoc. reflexivity.
  - intros Htx Hcsrc. unfold create_version_files.
    do 3 (erewrite bind_Return by reflexivity).
    erewrite bind_Return; cycle 1.
    { apply open_w_ok; cbn [fs].
      - change (base_dir ++ ["torch_xla"; "version.py"])
          with (base_dir ++ ["torch_xla"] ++ ["version.py"]).
        rewrite app_assoc, under_file_snoc.
        apply orb_false_iff. split; [exact Hu |]. rewrite Htx. reflexivity.
      - exact Hpy.
      - change (base_dir ++ ["torch_xla"; "version.py"])
          with (base_dir ++ ["torch_xla"] ++ ["version.py"]).
        unfold parent. rewrite app_assoc, removelast_last. exact Htx. }
    do 4 (erewrite bind_Return by reflexivity).
    eexists. split.
    { apply bind_Raise. apply open_w_no_parent; cbn [fs set_fs].
      - change (base_dir ++ ["torch_xla"; "csrc"; "version.cpp"])
          with (base_dir ++ ["torch_xla"] ++ ["csrc"] ++ ["version.cpp"]).
        rewrite !app_assoc. do 2 rewrite under_file_snoc.
        rewrite (under_file_ext _ (fs w)).
        + rewrite <- !app_assoc. cbn [app].
          rewrite !lookup_alter_ne, !lookup_insert_ne by assumption.
          rewrite Hu, Htx, Hcsrc. reflexivity.
        + intros n Hn.
          assert (base_dir ++ ["torch_xla"; "version.py"]
                  ≠ firstn n (base_dir ++ ["torch_xla"])).
          { apply not_eq_sym, firstn_ne_longer. rewrite !length_app. cbn. lia. }
          rewrite !lookup_alter_ne, !lookup_insert_ne by assumption. reflexivity.
      - rewrite !lookup_alter_ne, !lookup_insert_ne by assumption. exact Hcpp.
      - change (base_dir ++ ["torch_xla"; "csrc"; "version.cpp"])
          with (base_dir ++ ["torch_xla"; "csrc"] ++ ["version.cpp"]).
        unfold parent. rewrite app_assoc, removelast_last.
        rewrite !lookup_alter_ne, !lookup_insert_ne by assumption. exact Hcsrc. }
    cbn [fs set_fs stdout]. repeat split.
    + simplify_map_eq. reflexivity.
    + rewrite !lookup_alter_ne, !lookup_insert_ne by assumption. reflexivity.
    + rewrite <- !app_assoc. reflexivity.
Qed.

(** A checkout with torch_xla but no csrc directory. *)
Lemma create_version_files_missing_directory_witness :
  ∃ w', create_version_files ["xla"] "2.1.0" "0123abc" EmptyString
          {| fs := {[ ["xla"] := Dir; ["xla"; "torch_xla"] := Dir ]};
             stdout := [] |}
        = (Raise (FileNotFoundError ["xla"; "torch_xla"; "csrc"; "version.cpp"]), w')
      ∧ fs w' !! ["xla"; "torch_xla"; "csrc"; "version.cpp"] = None.
Proof.
  destruct (create_version_files_missing_directory ["xla"] "2.1.0" "0123abc"
              EmptyString
              {| fs := {[ ["xla"] := Dir; ["xla"; "torch_xla"] := Dir ]};
                 stdout := [] |}) as [_ H].
  - reflexivity.
  - vm_compute. discriminate.
  - vm_compute. discriminate.
  - destruct H as (w' & Hrun & _ & Hcpp & _); [reflexivity | reflexivity |].
    exists w'. split; [exact Hrun | exact Hcpp].
Defined.

(** ** The module-level code *)

(** Asking git for the commit ids changes nothing. *)
Lemma get_git_head_sha_world x base_dir w :
  ∃ r, get_git_head_sha x base_dir w = (r, w).
Proof.
  unfold get_git_head_sha, mbind, M_bind, bind, get.
  destruct (git_rev_parse x base_dir) as [sha|]; cbn; [| eauto].
  destruct (isdir w (parent base_dir ++ [".git"])); cbn; [| eauto].
  destruct (git_rev_parse x (parent base_dir)) as [sha'|]; cbn; eauto.
Qed.

(** X9: [setup.py clean] generates nothing.  When the build mode is
    [clean] the module-level code leaves the file system and the output
    as they were: it only asks git for the commit ids, and returns the
    build version, or raises what the git call raised. *)
Theorem module_prelude_clean x (env : environ) argv base_dir w :
  _get_build_mode argv = Some "clean" →
  module_prelude x env argv base_dir w =
  match get_git_head_sha x base_dir w with
  | (Return shas, _) => (Return (get_build_version env shas.1), w)
  | (Raise e, _) => (Raise e, w)
  end.
Proof.
  intros Hmode. unfold module_prelude. rewrite Hmode.
  rewrite bool_decide_eq_true_2 by reflexivity. cbn [negb].
  destruct (get_git_head_sha_world x base_dir w) as [r Hgit].
  rewrite Hgit. destruct r as [shas | e].
  - rewrite (bind_Return _ _ _ _ _ Hgit). reflexivity.
  - rewrite (bind_Raise _ _ _ _ _ Hgit). reflexivity.
Qed.

Lemma module_prelude_clean_witness :
  module_prelude
    {| git_rev_parse := fun _ => Some "0123abcdef"; libtpu_file := None;
       http_get := fun _ => None; tmp_name := ["tmp"; "whl"];
       zip_read := fun _ _ => None |}
    ∅ ["setup.py"; "clean"] ["xla"]
    {| fs := {[ ["xla"; "torch_xla"; "lib"; "libtpu.so"] := File "old" ]};
       stdout := [] |}
  = (Return "2.1.0",
     {| fs := {[ ["xla"; "torch_xla"; "lib"; "libtpu.so"] := File "old" ]};
        stdout := [] |}).
Proof.
  rewrite module_prelude_clean; reflexivity.
Defined.

Lemma maybe_bundle_libtpu_falsy_frame x env base_dir w u w' :
  _check_env_flag env "BUNDLE_LIBTPU" "0" = false →
  maybe_bundle_libtpu x env base_dir w = (Return u, w') →
  (∀ q, q ≠ libtpu_path base_dir → fs w' !! q = fs w !! q)
  ∧ stdout w' = stdout w.
Proof.
  intros Hflag. rewrite (maybe_bundle_libtpu_falsy _ _ _ _ Hflag).
  destruct (under_file (fs w) (libtpu_path base_dir)) eqn:Hu;
    [rewrite (remove_libtpu_under_file _ _ Hu); discriminate |].
  destruct (fs w !! libtpu_path base_dir) as [[data |] |] eqn:Hp.
  - rewrite (remove_libtpu_file _ _ _ Hu Hp). intros [= _ <-].
    split; [| reflexivity]. intros q Hq. cbn [fs set_fs].
    apply lookup_delete_ne. congruence.
  - rewrite (remove_libtpu_dir _ _ Hu Hp). discriminate.
  - rewrite (remove_libtpu_absent _ _ Hu Hp). intros [= _ <-]. auto.
Qed.

(** X10: the version a build reports is the version it writes.  In a
    build whose mode is not [clean] (also when no mode is given) and
    with BUNDLE_LIBTPU falsy, whenever the module-level code returns a
    version, git gave the two commit ids, the version is that of
    [get_build_version] for the first of them, torch_xla/version.py
    holds exactly that version and those ids, and libtpu.so is absent. *)
Theorem module_prelude_writes_version x (env : environ) argv base_dir w version w' :
  _get_build_mode argv ≠ Some "clean" →
  upper (getenv env "BUNDLE_LIBTPU" "0") ∉ ["ON"; "1"; "YES"; "TRUE"; "Y"] →
  module_prelude x env argv base_dir w = (Return version, w') →
  ∃ xla_git_sha torch_git_sha,
    get_git_head_sha x base_dir w = (Return (xla_git_sha, torch_git_sha), w)
    ∧ version = get_build_version env xla_git_sha
    ∧ fs w' !! (base_dir ++ ["torch_xla"; "version.py"]) =
      Some (File (fold_left String.append
                    ["# Autogenerated file, do not edit!" +:+ newline;
                     "__version__ = '" +:+ version +:+ "'" +:+ newline;
                     "__xla_gitrev__ = '" +:+ xla_git_sha +:+ "'" +:+ newline;
                     "__torch_gitrev__ = '" +:+ torch_git_sha +:+ "'" +:+ newline]
                    EmptyString))
    ∧ fs w' !! libtpu_path base_dir = None.
Proof.
  intros Hmode Hflag%check_env_flag_false. unfold module_prelude.
  intros ([xsha tsha] & w0 & Hgit & Hrest)%bind_returns.
  destruct (get_git_head_sha_world x base_dir w) as [r Hw].
  rewrite Hw in Hgit. injection Hgit as -> <-.
  apply bind_returns in Hrest as ([] & w1 & Hstep & Hret).
  injection Hret as <- <-.
  rewrite bool_decide_eq_false_2 in Hstep by exact Hmode. cbn [negb] in Hstep.
  apply bind_returns in Hstep as ([] & w2 & Hcreate & Hbundle).
  apply create_version_files_returns in Hcreate as (Hpy & _).
  destruct (maybe_bundle_libtpu_falsy_frame _ _ _ _ _ _ Hflag Hbundle) as [Hframe _].
  exists xsha, tsha. split; [exact Hw |]. split; [reflexivity |]. split.
  - rewrite Hframe; [exact Hpy |].
    unfold libtpu_path. intros H. apply app_inv_head in H. discriminate H.
  - apply (maybe_bundle_libtpu_returns_gone _ _ _ _ _ _ Hflag Hbundle).
Qed.

(** [python setup.py --verbose] with no command, in a checkout at /xla. *)
Lemma module_prelude_writes_version_witness :
  ∃ w', module_prelude
          {| git_rev_parse := fun _ => Some "0123abcdef"; libtpu_file := None;
             http_get := fun _ => None; tmp_name := ["tmp"; "whl"];
             zip_read := fun _ _ => None |}
          {["VERSIONED_XLA_BUILD" := "1"]} ["setup.py"; "--verbose"] ["xla"]
          {| fs := {[ ["xla"] := Dir; ["xla"; "torch_xla"] := Dir;
                      ["xla"; "torch_xla"; "csrc"] := Dir ]};
             stdout := [] |}
        = (Return "2.1.0+0123abc", w')
      ∧ fs w' !! ["xla"; "torch_xla"; "version.py"] =
        Some (File (fold_left String.append
                      ["# Autogenerated file, do not edit!" +:+ newline;
                       "__version__ = '2.1.0+0123abc'" +:+ newline;
                       "__xla_gitrev__ = '0123abcdef'" +:+ newline;
                       "__torch_gitrev__ = ''" +:+ newline]
                      EmptyString)).
Proof.
  pose (x := {| git_rev_parse := fun _ => Some "0123abcdef"; libtpu_file := None;
                http_get := fun _ => None; tmp_name := ["tmp"; "whl"];
                zip_read := fun _ _ => None |}).
  pose (w := {| fs := {[ ["xla"] := Dir; ["xla"; "torch_xla"] := Dir;
                         ["xla"; "torch_xla"; "csrc"] := Dir ]};
                stdout := [] |}).
  pose (env := ({["VERSIONED_XLA_BUILD" := "1"]} : environ)).
  assert (Hrun : module_prelude x env ["setup.py"; "--verbose"] ["xla"] w
                 = (Return "2.1.0+0123abc",
                    (module_prelude x env ["setup.py"; "--verbose"] ["xla"] w).2))
    by (vm_compute; reflexivity).
  assert (Hmode : _get_build_mode ["setup.py"; "--verbose"] ≠ Some "clean")
    by (vm_compute; discriminate).
  assert (Hflag : upper (getenv env "BUNDLE_LIBTPU" "0")
                  ∉ ["ON"; "1"; "YES"; "TRUE"; "Y"])
    by (apply check_env_flag_false; reflexivity).
  destruct (module_prelude_writes_version x env ["setup.py"; "--verbose"] ["xla"]
              w _ _ Hmode Hflag Hrun)
    as (xsha & tsha & Hgit & _ & Hpy & _).
  exists (module_prelude x env ["setup.py"; "--verbose"] ["xla"] w).2.
  split; [exact Hrun |].
  vm_compute in Hgit. injection Hgit as <- <-. exact Hpy.
Defined.

(** ** Bundling libtpu *)

Lemma existsb_false_iff {A} (f : A -> bool) (l : list A) :
  existsb f l = false ↔ ∀ a, a ∈ l → f a = false.
Proof.
  induction l as [|a l IH]; cbn [existsb].
  - split; [intros _ b Hb; inversion Hb | reflexivity].
  - rewrite orb_false_iff, IH. split.
    + intros [Ha Hl] b [-> | Hb]%elem_of_cons; auto.
    + intros H. split; [apply H, list_elem_of_here |].
      intros b Hb. apply H, list_elem_of_further, Hb.
Qed.

Lemma under_file_delete_false (files : gmap (list string) node) (p q : list string) :
  under_file files q = false → under_file (delete p files) q = false.
Proof.
  unfold under_file. rewrite !existsb_false_iff. intros H n Hn.
  specialize (H n Hn). destruct (decide (p = firstn n q)) as [-> | Hne].
  - rewrite lookup_delete_eq. reflexivity.
  - rewrite lookup_delete_ne by exact Hne. exact H.
Qed.

Lemma firstn_proper_ne {A} (q : list A) (n : nat) :
  n < length q → firstn n q ≠ q.
Proof.
  intros Hn Heq. apply (f_equal (@length A)) in Heq.
  rewrite length_firstn in Heq. lia.
Qed.

Lemma firstn_not_prefix {A} (p q : list A) (n : nat) :
  ¬ p `prefix_of` q → firstn n q ≠ p.
Proof.
  intros Hp <-. apply Hp. exists (skipn n q). symmetry. apply firstn_skipn.
Qed.

Lemma under_file_insert_unrelated (files : gmap (list string) node)
    (p q : list string) (x : node) :
  (∀ n, n < length q → firstn n q ≠ p) →
  under_file (<[p := x]> files) q = under_file files q.
Proof.
  intros H. apply under_file_ext. intros n Hn.
  apply lookup_insert_ne. apply not_eq_sym, H, Hn.
Qed.

Lemma under_file_write (files : gmap (list string) node) (p q : list string)
    (text : string) :
  under_file (alter (fun n => match n with
                              | File data => File (data +:+ text)
                              | Dir => Dir
                              end) p files) q
  = under_file files q.
Proof.
  unfold under_file. apply existsb_ext_in. intros n _.
  destruct (decide (p = firstn n q)) as [-> | Hne].
  - rewrite lookup_alter_eq. destruct (files !! firstn n q) as [[]|]; reflexivity.
  - rewrite lookup_alter_ne by exact Hne. reflexivity.
Qed.

Lemma read_file_ok (p : list string) (w : world) (data : string) :
  under_file (fs w) p = false →
  fs w !! p = Some (File data) →
  read_file p w = (Return data, w).
Proof.
  intros Hu Hp. unfold read_file, mbind, M_bind, bind, get.
  rewrite Hu, Hp. reflexivity.
Qed.

Lemma try_except_Return {E S A} (handled : E -> bool) (m h : M E S A) s a s' :
  m s = (Return a, s') → try_except handled m h s = (Return a, s').
Proof. intros H. unfold try_except. rewrite H. reflexivity. Qed.

Lemma try_except_handled {E S A} (handled : E -> bool) (m h : M E S A) s e s' :
  m s = (Raise e, s') → handled e = true → try_except handled m h s = h s'.
Proof. intros H He. unfold try_except. rewrite H, He. reflexivity. Qed.

Lemma try_except_unhandled {E S A} (handled : E -> bool) (m h : M E S A) s e s' :
  m s = (Raise e, s') → handled e = false →
  try_except handled m h s = (Raise e, s').
Proof. intros H He. unfold try_except. rewrite H, He. reflexivity. Qed.

Lemma finally_eq {E S A} (m : M E S A) (cleanup : S -> S) s r s' :
  m s = (r, s') → finally m cleanup s = (r, cleanup s').
Proof. intros H. unfold finally. rewrite H. reflexivity. Qed.

(** The first statement of [maybe_bundle_libtpu] when the path holds a
    file or nothing. *)
Lemma remove_libtpu_step (p : list string) (w : world) :
  under_file (fs w) p = false →
  fs w !! p ≠ Some Dir →
  ∃ w1, suppress_FileNotFoundError (os_remove p) w = (Return tt, w1)
        ∧ fs w1 = delete p (fs w)
        ∧ stdout w1 = stdout w.
Proof.
  intros Hu Hp. destruct (fs w !! p) as [[data |] |] eqn:Hlook.
  - exists (set_fs (delete p) w). split; [apply (remove_libtpu_file _ _ _ Hu Hlook) |].
    split; reflexivity.
  - congruence.
  - exists w. split; [apply (remove_libtpu_absent _ _ Hu Hlook) |].
    split; [| reflexivity]. symmetry. apply delete_id, Hlook.
Qed.

(** X11: bundling an installed libtpu.  With BUNDLE_LIBTPU truthy and
    the libtpu module installed, [maybe_bundle_libtpu] replaces
    torch_xla/lib/libtpu.so by a copy of the module's libtpu.so: it
    returns, the destination holds the source's bytes, the source and
    every other path are as before, and one line is printed.  Needed:
    the lib directory exists, the destination is not a directory, and
    the source is a readable file other than the destination. *)
Theorem maybe_bundle_libtpu_copies_installed
    x (env : environ) base_dir w libtpu_init data :
  upper (getenv env "BUNDLE_LIBTPU" "0") ∈ ["ON"; "1"; "YES"; "TRUE"; "Y"] →
  libtpu_file x = Some libtpu_init →
  let src := parent libtpu_init ++ ["libtpu.so"] in
  let dst := libtpu_path base_dir in
  src ≠ dst →
  under_file (fs w) dst = false →
  fs w !! dst ≠ Some Dir →
  fs w !! parent dst = Some Dir →
  under_file (fs w) src = false →
  fs w !! src = Some (File data) →
  ∃ w', maybe_bundle_libtpu x env base_dir w = (Return tt, w')
        ∧ fs w' !! dst = Some (File data)
        ∧ (∀ q, q ≠ dst → fs w' !! q = fs w !! q)
        ∧ stdout w' = stdout w ++ ["Found pre-installed libtpu at  "
                                   +:+ path_str (parent libtpu_init)].
Proof.
  intros Hflag%check_env_flag_true Hfile. cbv zeta.
  intros Hne Hudst Hdst Hparent Husrc Hsrc.
  destruct (remove_libtpu_step _ _ Hudst Hdst) as (w1 & Hstep & Hfs1 & Hout1).
  unfold maybe_bundle_libtpu. rewrite (bind_Return _ _ _ _ _ Hstep), Hflag.
  cbn [negb]. rewrite Hfile. cbn [from_option].
  eexists. split.
  { apply try_except_Return.
    erewrite bind_Return by reflexivity.
    erewrite bind_Return by reflexivity.
    unfold copyfile. rewrite bool_decide_eq_false_2 by exact Hne.
    erewrite bind_Return; cycle 1.
    { apply read_file_ok; cbn [fs]; rewrite Hfs1.
      - apply under_file_delete_false, Husrc.
      - rewrite lookup_delete_ne by (apply not_eq_sym, Hne). exact Hsrc. }
    erewrite bind_Return; cycle 1.
    { apply open_w_ok; cbn [fs]; rewrite Hfs1.
      - apply under_file_delete_false, Hudst.
      - rewrite lookup_delete_eq. discriminate.
      - rewrite lookup_delete_ne; [exact Hparent |].
        intros H. apply (f_equal (@length string)) in H.
        unfold parent, libtpu_path in H.
        change (base_dir ++ ["torch_xla"; "lib"; "libtpu.so"])
          with (base_dir ++ ["torch_xla"; "lib"] ++ ["libtpu.so"]) in H.
        rewrite app_assoc, removelast_last, !length_app in H. cbn in H. lia. }
    reflexivity. }
  cbn [fs set_fs stdout]. rewrite Hfs1, Hout1. repeat split.
  - simplify_map_eq. reflexivity.
  - intros q Hq. simplify_map_eq. reflexivity.
Qed.

(** An installed libtpu under /site and an old copy in the checkout. *)
Lemma maybe_bundle_libtpu_copies_installed_witness :
  ∃ w', maybe_bundle_libtpu
          {| git_rev_parse := fun _ => None;
             libtpu_file := Some ["site"; "libtpu"; "__init__.py"];
             http_get := fun _ => None; tmp_name := ["tmp"; "whl"];
             zip_read := fun _ _ => None |}
          {["BUNDLE_LIBTPU" := "yes"]} ["xla"]
          {| fs := {[ ["xla"; "torch_xla"; "lib"] := Dir;
                      ["xla"; "torch_xla"; "lib"; "libtpu.so"] := File "old";
                      ["site"; "libtpu"; "libtpu.so"] := File "new" ]};
             stdout := [] |}
        = (Return tt, w')
      ∧ fs w' !! ["xla"; "torch_xla"; "lib"; "libtpu.so"] = Some (File "new").
Proof.
  destruct (maybe_bundle_libtpu_copies_installed
              {| git_rev_parse := fun _ => None;
                 libtpu_file := Some ["site"; "libtpu"; "__init__.py"];
                 http_get := fun _ => None; tmp_name := ["tmp"; "whl"];
                 zip_read := fun _ _ => None |}
              {["BUNDLE_LIBTPU" := "yes"]} ["xla"]
              {| fs := {[ ["xla"; "torch_xla"; "lib"] := Dir;
                          ["xla"; "torch_xla"; "lib"; "libtpu.so"] := File "old";
                          ["site"; "libtpu"; "libtpu.so"] := File "new" ]};
                 stdout := [] |}
              ["site"; "libtpu"; "__init__.py"] "new")
    as (w' & Hrun & Hdst & _).
  - apply check_env_flag_true. reflexivity.
  - reflexivity.
  - discriminate.
  - reflexivity.
  - vm_compute. discriminate.
  - reflexivity.
  - reflexivity.
  - reflexivity.
  - exists w'. split; assumption.
Defined.

(** The download branch up to the response, in a world where the
    module is missing. *)
Lemma maybe_bundle_libtpu_downloads x (env : environ) base_dir w :
  _check_env_flag env "BUNDLE_LIBTPU" "0" = true →
  libtpu_file x = None →
  under_file (fs w) (libtpu_path base_dir) = false →
  fs w !! libtpu_path base_dir ≠ Some Dir →
  ∃ w1, maybe_bundle_libtpu x env base_dir w = download_libtpu x base_dir w1
        ∧ fs w1 = delete (libtpu_path base_dir) (fs w)
        ∧ stdout w1 = stdout w.
Proof.
  intros Hflag Hfile Hu Hdst.
  destruct (remove_libtpu_step _ _ Hu Hdst) as (w1 & Hstep & Hfs1 & Hout1).
  exists w1. split; [| split; assumption].
  unfold maybe_bundle_libtpu. rewrite (bind_Return _ _ _ _ _ Hstep), Hflag.
  cbn [negb]. rewrite Hfile. cbn [from_option].
  apply (try_except_handled _ _ _ _ (ModuleNotFoundError "libtpu")); reflexivity.
Qed.

(** X12: a download that fails leaves nothing behind.  With
    BUNDLE_LIBTPU truthy, no libtpu module installed and a request that
    raises or answers with a 4xx or 5xx status, [maybe_bundle_libtpu]
    raises (RequestException, or HTTPError with the status); afterwards
    there is no libtpu.so and no temporary file, and every other path is
    as before. *)
Theorem maybe_bundle_libtpu_failed_download x (env : environ) base_dir w :
  upper (getenv env "BUNDLE_LIBTPU" "0") ∈ ["ON"; "1"; "YES"; "TRUE"; "Y"] →
  libtpu_file x = None →
  under_file (fs w) (libtpu_path base_dir) = false →
  fs w !! libtpu_path base_dir ≠ Some Dir →
  tmp_name x ≠ libtpu_path base_dir →
  let failure :=
    match http_get x _libtpu_storage_path with
    | None => Some (RequestException _libtpu_storage_path)
    | Some (status, _) =>
        if bool_decide (400 <= status < 600) then Some (HTTPError status) else None
    end in
  ∀ e, failure = Some e →
    ∃ w', maybe_bundle_libtpu x env base_dir w = (Raise e, w')
          ∧ fs w' !! libtpu_path base_dir = None
          ∧ fs w' !! tmp_name x = None
          ∧ (∀ q, q ≠ libtpu_path base_dir → q ≠ tmp_name x →
                  fs w' !! q = fs w !! q).
Proof.
  intros Hflag%check_env_flag_true Hfile Hu Hdst Htmp. cbv zeta. intros e He.
  destruct (maybe_bundle_libtpu_downloads _ _ _ _ Hflag Hfile Hu Hdst)
    as (w1 & -> & Hfs1 & Hout1).
  unfold download_libtpu.
  do 2 (erewrite bind_Return by reflexivity).
  eexists. split.
  { apply finally_eq.
    destruct (http_get x _libtpu_storage_path) as [[status body] |].
    - destruct (bool_decide (400 ≤ status < 600)) eqn:Hstatus; [| discriminate He].
      injection He as <-.
      erewrite bind_Return by reflexivity. cbn [fst snd].
      apply bind_Raise. rewrite Hstatus. reflexivity.
    - injection He as <-. apply bind_Raise. reflexivity. }
  cbn [fs set_fs]. rewrite Hfs1. repeat split.
  - simplify_map_eq. reflexivity.
  - simplify_map_eq. reflexivity.
  - intros q Hq1 Hq2. simplify_map_eq. reflexivity.
Qed.

(** No module, and a server that answers 404. *)
Lemma maybe_bundle_libtpu_failed_download_witness :
  ∃ w', maybe_bundle_libtpu
          {| git_rev_parse := fun _ => None; libtpu_file := None;
             http_get := fun _ => Some (404, "Not Found");
             tmp_name := ["tmp"; "whl"]; zip_read := fun _ _ => None |}
          {["BUNDLE_LIBTPU" := "1"]} ["xla"]
          {| fs := {[ ["xla"; "torch_xla"; "lib"; "libtpu.so"] := File "old" ]};
             stdout := [] |}
        = (Raise (HTTPError 404), w')
      ∧ fs w' !! ["xla"; "torch_xla"; "lib"; "libtpu.so"] = None
      ∧ fs w' !! ["tmp"; "whl"] = None.
Proof.
  destruct (maybe_bundle_libtpu_failed_download
              {| git_rev_parse := fun _ => None; libtpu_file := None;
                 http_get := fun _ => Some (404, "Not Found");
                 tmp_name := ["tmp"; "whl"]; zip_read := fun _ _ => None |}
              {["BUNDLE_LIBTPU" := "1"]} ["xla"]
              {| fs := {[ ["xla"; "torch_xla"; "lib"; "libtpu.so"] := File "old" ]};
                 stdout := [] |})
    with (e := HTTPError 404) as (w' & Hrun & Hdst & Htmp & _).
  - apply check_env_flag_true. reflexivity.
  - reflexivity.
  - reflexivity.
  - vm_compute. discriminate.
  - discriminate.
  - reflexivity.
  - exists w'. repeat split; assumption.
Defined.

Lemma parent_ne_self (p : list string) (a : string) : parent (p ++ [a]) ≠ p ++ [a].
Proof.
  unfold parent. rewrite removelast_last. intros H.
  apply (f_equal (@length string)) in H. rewrite length_app in H. cbn in H. lia.
Qed.

Lemma parent_prefix (p : list string) : parent p `prefix_of` p.
Proof.
  unfold parent. destruct (decide (p = [])) as [-> | Hne]; [reflexivity |].
  exists [List.last p EmptyString]. apply app_removelast_last, Hne.
Qed.

(** X13: unpacking the downloaded wheel.  With BUNDLE_LIBTPU truthy, no
    libtpu module installed and a response whose status is not 4xx or
    5xx, [maybe_bundle_libtpu] returns when the wheel has the member
    libtpu/libtpu.so, and libtpu.so then holds the member's bytes; when
    the member cannot be read it raises, and libtpu.so is left as an
    empty file.  Either way the temporary file is gone and every other
    path is as before. *)
Theorem maybe_bundle_libtpu_unpacks_download
    x (env : environ) base_dir w status body :
  upper (getenv env "BUNDLE_LIBTPU" "0") ∈ ["ON"; "1"; "YES"; "TRUE"; "Y"] →
  libtpu_file x = None →
  http_get x _libtpu_storage_path = Some (status, body) →
  ¬ (400 <= status < 600) →
  let dst := libtpu_path base_dir in
  under_file (fs w) dst = false →
  fs w !! dst ≠ Some Dir →
  fs w !! parent dst = Some Dir →
  under_file (fs w) (tmp_name x) = false →
  ¬ tmp_name x `prefix_of` dst →
  ¬ dst `prefix_of` tmp_name x →
  ∃ w', maybe_bundle_libtpu x env base_dir w
        = (match zip_read x body "libtpu/libtpu.so" with
           | Some _ => Return tt
           | None => Raise (ZipError "libtpu/libtpu.so")
           end, w')
        ∧ fs w' !! dst
          = Some (File (default EmptyString (zip_read x body "libtpu/libtpu.so")))
        ∧ fs w' !! tmp_name x = None
        ∧ (∀ q, q ≠ dst → q ≠ tmp_name x → fs w' !! q = fs w !! q)
        ∧ stdout w' = stdout w ++ ["No installed libtpu found. Downloading..."].
Proof.
  intros Hflag%check_env_flag_true Hfile Hget Hstatus. cbv zeta.
  intros Hu Hdst Hparent Hutmp Hpre1 Hpre2.
  assert (Hne : tmp_name x ≠ libtpu_path base_dir).
  { intros H. apply Hpre1. rewrite H. reflexivity. }
  assert (Hnp : tmp_name x ≠ parent (libtpu_path base_dir)).
  { intros H. apply Hpre1. rewrite H. apply parent_prefix. }
  assert (Hdp : libtpu_path base_dir ≠ parent (libtpu_path base_dir)).
  { unfold libtpu_path.
    change (base_dir ++ ["torch_xla"; "lib"; "libtpu.so"])
      with (base_dir ++ ["torch_xla"; "lib"] ++ ["libtpu.so"]).
    rewrite app_assoc. apply not_eq_sym, parent_ne_self. }
  destruct (maybe_bundle_libtpu_downloads _ _ _ _ Hflag Hfile Hu Hdst)
    as (w1 & -> & Hfs1 & Hout1).
  unfold download_libtpu.
  do 2 (erewrite bind_Return by reflexivity).
  rewrite Hget. cbn [from_option].
  destruct (zip_read x body "libtpu/libtpu.so") as [so |] eqn:Hzip;
    (eexists; split;
     [ apply finally_eq;
       erewrite bind_Return by reflexivity; cbn [fst snd];
       rewrite bool_decide_eq_false_2 by exact Hstatus;
       erewrite bind_Return by reflexivity;
       erewrite bind_Return by reflexivity;
       erewrite bind_Return;
       [| apply open_w_ok; cbn [fs set_fs]; rewrite Hfs1;
          [ rewrite under_file_write, under_file_insert_unrelated;
            [ apply under_file_delete_false, Hu
            | intros n _; apply firstn_not_prefix, Hpre1 ]
          | rewrite lookup_alter_ne, lookup_insert_ne, lookup_delete_eq
              by exact Hne; discriminate
          | rewrite lookup_alter_ne, lookup_insert_ne, lookup_delete_ne
              by assumption; exact Hparent ] ];
       erewrite bind_Return;
       [| apply read_file_ok; cbn [fs set_fs]; rewrite Hfs1;
          [ rewrite under_file_insert_unrelated
              by (intros n _; apply firstn_not_prefix, Hpre2);
            rewrite under_file_write, under_file_insert_unrelated
              by (intros n Hn; apply firstn_proper_ne, Hn);
            apply under_file_delete_false, Hutmp
          | rewrite lookup_insert_ne by (apply not_eq_sym, Hne);
            rewrite lookup_alter_eq, lookup_insert_eq; reflexivity ] ];
       change (EmptyString +:+ body) with body; rewrite Hzip; cbn [from_option];
       first [ erewrite bind_Return by reflexivity; reflexivity
             | apply bind_Raise; reflexivity ]
     | cbn [fs set_fs stdout default from_option id]; rewrite Hfs1, Hout1;
       repeat split; try (intros q Hq1 Hq2); simplify_map_eq; reflexivity ]).
Qed.

(** A wheel that lacks the member: an empty libtpu.so is left. *)
Lemma maybe_bundle_libtpu_unpacks_download_witness :
  ∃ w', maybe_bundle_libtpu
          {| git_rev_parse := fun _ => None; libtpu_file := None;
             http_get := fun _ => Some (200, "not a wheel");
             tmp_name := ["tmp"; "whl"]; zip_read := fun _ _ => None |}
          {["BUNDLE_LIBTPU" := "1"]} ["xla"]
          {| fs := {[ ["xla"; "torch_xla"; "lib"] := Dir;
                      ["xla"; "torch_xla"; "lib"; "libtpu.so"] := File "old" ]};
             stdout := [] |}
        = (Raise (ZipError "libtpu/libtpu.so"), w')
      ∧ fs w' !! ["xla"; "torch_xla"; "lib"; "libtpu.so"] = Some (File EmptyString)
      ∧ fs w' !! ["tmp"; "whl"] = None.
Proof.
  destruct (maybe_bundle_libtpu_unpacks_download
              {| git_rev_parse := fun _ => None; libtpu_file := None;
                 http_get := fun _ => Some (200, "not a wheel");
                 tmp_name := ["tmp"; "whl"]; zip_read := fun _ _ => None |}
              {["BUNDLE_LIBTPU" := "1"]} ["xla"]
              {| fs := {[ ["xla"; "torch_xla"; "lib"] := Dir;
                          ["xla"; "torch_xla"; "lib"; "libtpu.so"] := File "old" ]};
                 stdout := [] |}
              200 "not a wheel")
    as (w' & Hrun & Hdst & Htmp & _).
  - apply check_env_flag_true. reflexivity.
  - reflexivity.
  - reflexivity.
  - lia.
  - reflexivity.
  - vm_compute. discriminate.
  - reflexivity.
  - reflexivity.
  - intros [k Hk]. discriminate Hk.
  - intros [k Hk]. discriminate Hk.
  - exists w'. repeat split; assumption.
Defined.

(** ** The clean command *)

(** A step that only deletes cannot put a file above a path. *)
Lemma under_file_shrink (files files' : gmap (list string) node) (q : list string) :
  (∀ r, files' !! r = None ∨ files' !! r = files !! r) →
  under_file files q = false → under_file files' q = false.
Proof.
  intros Hshrink. unfold under_file. rewrite !existsb_false_iff. intros H n Hn.
  specialize (H n Hn). destruct (Hshrink (firstn n q)) as [-> | ->]; [reflexivity | exact H].
Qed.

(** One removal: it returns, it only deletes, it deletes nothing
    outside the path and what lies under it, and it leaves nothing at
    the path unless a file above blocks it. *)
Lemma remove_file_or_tree_spec (p : list string) (w : world) :
  ∃ w', remove_file_or_tree p w = (Return tt, w')
        ∧ stdout w' = stdout w
        ∧ (∀ q, fs w' !! q = None ∨ fs w' !! q = fs w !! q)
        ∧ (∀ q, ¬ p `prefix_of` q → fs w' !! q = fs w !! q)
        ∧ (under_file (fs w) p = false → fs w' !! p = None).
Proof.
  unfold remove_file_or_tree, try_except, os_remove, rmtree_ignore_errors, isdir.
  unfold mbind, M_bind, bind, get.
  destruct (under_file (fs w) p) eqn:Hu; cbn.
  - rewrite Hu. cbn. exists w. repeat split; auto. discriminate.
  - destruct (fs w !! p) as [[data |] |] eqn:Hp; cbn.
    + exists (set_fs (delete p) w). cbn [fs set_fs stdout]. repeat split.
      * intros q. destruct (decide (p = q)) as [<- | Hne].
        -- left. apply lookup_delete_eq.
        -- right. apply lookup_delete_ne, Hne.
      * intros q Hq. apply lookup_delete_ne. intros <-. apply Hq. reflexivity.
      * intros _. apply lookup_delete_eq.
    + rewrite Hu, Hp. cbn.
      exists (set_fs (filter (fun kv => ¬ p `prefix_of` kv.1)) w).
      cbn [fs set_fs stdout]. repeat split.
      * intros q. destruct (fs w !! q) as [x |] eqn:Hq.
        -- destruct (decide (p `prefix_of` q)) as [Hpre | Hpre].
           ++ left. apply map_lookup_filter_None. right. intros x' _ Hn.
              apply Hn, Hpre.
           ++ right. apply map_lookup_filter_Some. split; [exact Hq | exact Hpre].
        -- left. apply map_lookup_filter_None. left. exact Hq.
      * intros q Hq. destruct (fs w !! q) as [x |] eqn:Hlook.
        -- apply map_lookup_filter_Some. split; [exact Hlook | exact Hq].
        -- apply map_lookup_filter_None. left. exact Hlook.
      * intros _. apply map_lookup_filter_None. right. intros x' _ Hn.
        apply Hn. reflexivity.
    + rewrite Hu, Hp. cbn. exists w. repeat split; auto.
Qed.

(** The removals of one pattern, path by path. *)
Lemma remove_all_spec (filenames : list (list string)) (w : world) :
  ∃ w', remove_all filenames w = (Return tt, w')
        ∧ stdout w' = stdout w
        ∧ (∀ p, p ∈ filenames → under_file (fs w) p = false → fs w' !! p = None)
        ∧ (∀ q, fs w' !! q = None ∨ fs w' !! q = fs w !! q)
        ∧ (∀ q, (∀ p, p ∈ filenames → ¬ p `prefix_of` q) →
                fs w' !! q = fs w !! q).
Proof.
  revert w. induction filenames as [|p rest IH]; intros w; cbn [remove_all].
  - exists w. repeat split; auto. intros p Hp. inversion Hp.
  - destruct (remove_file_or_tree_spec p w)
      as (w1 & Hrun1 & Hout1 & Hshrink1 & Hframe1 & Hgone1).
    destruct (IH w1) as (w' & Hrun & Hout & Hgone & Hshrink & Hframe).
    exists w'. rewrite (bind_Return _ _ _ _ _ Hrun1).
    split; [exact Hrun |]. split; [congruence |]. split; [| split].
    + intros p' [-> | Hin]%elem_of_cons Hu.
      * destruct (Hshrink p) as [H | H]; [exact H |]. rewrite H. apply Hgone1, Hu.
      * apply Hgone; [exact Hin |]. apply (under_file_shrink (fs w)); assumption.
    + intros q. destruct (Hshrink q) as [H | H]; [left; exact H |].
      rewrite H. apply Hshrink1.
    + intros q Hq. rewrite Hframe.
      * apply Hframe1, Hq, list_elem_of_here.
      * intros p' Hp'. apply Hq, list_elem_of_further, Hp'.
Qed.

(** X14: the inner loop of [Clean.run].  Removing a list of paths never
    raises: every path of the list that no file above it blocks is gone
    afterwards, whether it was a file, a directory or absent; nothing is
    created, and a path that is none of the list's and under none of
    them is as before. *)
Theorem remove_all_removes (filenames : list (list string)) (w : world) :
  ∃ w', remove_all filenames w = (Return tt, w')
        ∧ stdout w' = stdout w
        ∧ (∀ p, p ∈ filenames → under_file (fs w) p = false → fs w' !! p = None)
        ∧ (∀ q, fs w' !! q = None ∨ fs w' !! q = fs w !! q)
        ∧ (∀ q, (∀ p, p ∈ filenames → ¬ p `prefix_of` q) →
                fs w' !! q = fs w !! q).
Proof. apply remove_all_spec. Qed.

(** X15: the NOT-CLEAN-FILES marker ends the clean.  For a line that
    starts with [# BEGIN NOT-CLEAN-FILES ], cleaning the lines up to and
    beyond it does exactly what cleaning the lines before it does: no
    pattern after the marker is ever expanded. *)
Theorem clean_lines_stop_at_marker c (before after : list string) (line : string) :
  startswith line not_clean_marker = true →
  clean_lines c (before ++ line :: after) = clean_lines c before.
Proof.
  intros Hmark. induction before as [|l before IH]; cbn [app clean_lines].
  - assert (Hhash : startswith line "#" = true).
    { destruct line as [|a line]; [discriminate Hmark |].
      cbn in Hmark |- *. apply andb_true_iff in Hmark as [-> _]. reflexivity. }
    assert (Htruthy : truthy line = true).
    { destruct line; [discriminate Hmark | reflexivity]. }
    rewrite Htruthy, Hhash, Hmark. reflexivity.
  - rewrite IH. reflexivity.
Qed.

Lemma clean_lines_stop_at_marker_witness :
  clean_lines
    {| cwd := ["xla"]; glob := fun _ _ => [["xla"; "build"]];
       distutils_clean_run := mret tt |}
    (["build/"] ++ "# BEGIN NOT-CLEAN-FILES (keep these)" :: ["torch_xla/lib"])
  = clean_lines
      {| cwd := ["xla"]; glob := fun _ _ => [["xla"; "build"]];
         distutils_clean_run := mret tt |}
      ["build/"].
Proof.
  apply (clean_lines_stop_at_marker
           {| cwd := ["xla"]; glob := fun _ _ => [["xla"; "build"]];
              distutils_clean_run := mret tt |}
           ["build/"] ["torch_xla/lib"] "# BEGIN NOT-CLEAN-FILES (keep these)").
  reflexivity.
Defined.

(** The loop over the lines of .gitignore. *)
Lemma clean_lines_spec c (lines : list string) (w : world) :
  ∃ w', clean_lines c lines w = (Return tt, w')
        ∧ stdout w' = stdout w
        ∧ (∀ q, fs w' !! q = None ∨ fs w' !! q = fs w !! q)
        ∧ (∀ q, (∀ wildcard files p,
                   wildcard ∈ lines → wildcard ≠ EmptyString →
                   startswith wildcard "#" = false →
                   p ∈ glob c files wildcard → ¬ p `prefix_of` q) →
                fs w' !! q = fs w !! q).
Proof.
  revert w. induction lines as [|wildcard rest IH]; intros w; cbn [clean_lines].
  - exists w. repeat split; auto.
  - destruct (IH w) as (w' & Hrun & Hout & Hshrink & Hframe).
    assert (Hskip : ∃ w', clean_lines c rest w = (Return tt, w')
        ∧ stdout w' = stdout w
        ∧ (∀ q, fs w' !! q = None ∨ fs w' !! q = fs w !! q)
        ∧ (∀ q, (∀ wildcard0 files p,
                   wildcard0 ∈ wildcard :: rest → wildcard0 ≠ EmptyString →
                   startswith wildcard0 "#" = false →
                   p ∈ glob c files wildcard0 → ¬ p `prefix_of` q) →
                fs w' !! q = fs w !! q)).
    { exists w'. repeat split; try assumption. intros q Hq. apply Hframe.
      intros wc files p Hwc. apply Hq, list_elem_of_further, Hwc. }
    destruct (truthy wildcard) eqn:Htruthy; cbn [negb]; [| exact Hskip].
    destruct (startswith wildcard "#") eqn:Hhash.
    + destruct (startswith wildcard not_clean_marker); [| exact Hskip].
      exists w. repeat split; auto.
    + clear Hskip w' Hrun Hout Hshrink Hframe.
      erewrite bind_Return by reflexivity.
      destruct (remove_all_spec (glob c (fs w) wildcard) w)
        as (w1 & Hrun1 & Hout1 & _ & Hshrink1 & Hframe1).
      rewrite (bind_Return _ _ _ _ _ Hrun1).
      destruct (IH w1) as (w' & Hrun & Hout & Hshrink & Hframe).
      exists w'. split; [exact Hrun |]. split; [congruence |]. split.
      * intros q. destruct (Hshrink q) as [H | H]; [left; exact H |].
        rewrite H. apply Hshrink1.
      * intros q Hq. rewrite Hframe.
        -- apply Hframe1. intros p Hp.
           apply (Hq wildcard (fs w) p); [apply list_elem_of_here | | exact Hhash | exact Hp].
           intros ->. discriminate Htruthy.
        -- intros wc files p Hwc. apply Hq, list_elem_of_further, Hwc.
Qed.

(** X16: what a clean can touch.  The loop over the lines of
    .gitignore never raises and prints nothing; it creates nothing; and
    a path survives unchanged when no pattern line (non-empty, not
    starting with [#]) expands, on any state of the files, to that path
    or to a path above it. *)
Theorem clean_lines_frame c (lines : list string) (w : world) :
  ∃ w', clean_lines c lines w = (Return tt, w')
        ∧ stdout w' = stdout w
        ∧ (∀ q, fs w' !! q = None ∨ fs w' !! q = fs w !! q)
        ∧ (∀ q, (∀ wildcard files p,
                   wildcard ∈ lines → wildcard ≠ EmptyString →
                   startswith wildcard "#" = false →
                   p ∈ glob c files wildcard → ¬ p `prefix_of` q) →
                fs w' !! q = fs w !! q).
Proof. apply clean_lines_spec. Qed.

(** X28: no .gitignore, no clean.  With no .gitignore in the working
    directory [Clean.run] raises FileNotFoundError for it: nothing is
    removed or printed, and the clean of distutils is not run, whatever
    it would do. *)
Theorem Clean_run_needs_gitignore c (w : world) :
  under_file (fs w) (cwd c ++ [".gitignore"]) = false →
  fs w !! (cwd c ++ [".gitignore"]) = None →
  Clean_run c w = (Raise (FileNotFoundError (cwd c ++ [".gitignore"])), w).
Proof.
  intros Hu Hp. unfold Clean_run. apply bind_Raise.
  unfold read_file, mbind, M_bind, bind, get. rewrite Hu, Hp. reflexivity.
Qed.

Lemma Clean_run_needs_gitignore_witness :
  Clean_run
    {| cwd := ["xla"]; glob := fun _ _ => [["xla"; "build"]];
       distutils_clean_run := print "running clean" |}
    {| fs := {[ ["xla"] := Dir; ["xla"; "build"] := Dir ]}; stdout := [] |}
  = (Raise (FileNotFoundError ["xla"; ".gitignore"]),
     {| fs := {[ ["xla"] := Dir; ["xla"; "build"] := Dir ]}; stdout := [] |}).
Proof.
  exact (Clean_run_needs_gitignore
           {| cwd := ["xla"]; glob := fun _ _ => [["xla"; "build"]];
              distutils_clean_run := print "running clean" |}
           {| fs := {[ ["xla"] := Dir; ["xla"; "build"] := Dir ]}; stdout := [] |}
           eq_refl eq_refl).
Defined.

(** X29: the clean of distutils comes last.  With a .gitignore to read,
    [Clean.run] ends as the clean of distutils does, run on the files
    the loop over the lines left: the loop itself never raises, prints
    nothing and creates nothing. *)
Theorem Clean_run_ends_in_distutils_clean c (w : world) (ignores : string) :
  under_file (fs w) (cwd c ++ [".gitignore"]) = false →
  fs w !! (cwd c ++ [".gitignore"]) = Some (File ignores) →
  ∃ w', clean_lines c (split_lines ignores) w = (Return tt, w')
        ∧ Clean_run c w = distutils_clean_run c w'
        ∧ stdout w' = stdout w
        ∧ (∀ q, fs w' !! q = None ∨ fs w' !! q = fs w !! q).
Proof.
  intros Hu Hp.
  destruct (clean_lines_spec c (split_lines ignores) w)
    as (w' & Hrun & Hout & Hshrink & _).
  exists w'. split; [exact Hrun |]. split; [| split; assumption].
  unfold Clean_run.
  rewrite (bind_Return _ _ _ _ _ (read_file_ok _ _ _ Hu Hp)).
  rewrite (bind_Return _ _ _ _ _ Hrun). reflexivity.
Qed.

Lemma Clean_run_ends_in_distutils_clean_witness :
  ∃ w', Clean_run
          {| cwd := ["xla"]; glob := fun _ _ => [["xla"; "build"]];
             distutils_clean_run := print "running clean" |}
          {| fs := {[ ["xla"] := Dir; ["xla"; "build"] := Dir;
                      ["xla"; ".gitignore"] := File "build/" ]};
             stdout := [] |}
        = print "running clean" w'
        ∧ stdout w' = [].
Proof.
  destruct (Clean_run_ends_in_distutils_clean
              {| cwd := ["xla"]; glob := fun _ _ => [["xla"; "build"]];
                 distutils_clean_run := print "running clean" |}
              {| fs := {[ ["xla"] := Dir; ["xla"; "build"] := Dir;
                          ["xla"; ".gitignore"] := File "build/" ]};
                 stdout := [] |}
              "build/")
    as (w' & _ & Hrun & Hout & _).
  - vm_compute. reflexivity.
  - vm_compute. reflexivity.
  - exists w'. split; [exact Hrun | exact Hout].
Defined.

End SetupExtra.

(** * Further properties of the latency test script *)

Module FsdpLatencyExtra.
Import PyStr PyMonad PyMonadFacts FsdpLatencyTest FsdpLatencySpec.

(** X17: the option table is consistent: no two options share a name,
    every option with choices has a default among them, and every
    [store_false] option names its destination. *)
Theorem MODEL_OPTS_consistent :
  NoDup (map fst MODEL_OPTS)
  ∧ (∀ name o allowed,
       (name, o) ∈ MODEL_OPTS → choices o = Some allowed →
       ∃ d, default_ o = Some (VStr d) ∧ d ∈ allowed)
  ∧ (∀ name o,
       (name, o) ∈ MODEL_OPTS → action o = Some store_false → is_Some (dest o)).
Proof.
  split; [| split].
  - apply (bool_decide_unpack _). vm_compute. exact I.
  - intros name o allowed Hin Hc. unfold MODEL_OPTS in Hin.
    repeat (apply elem_of_cons in Hin as [[= -> ->] | Hin]);
      try discriminate Hc; try (inversion Hin; fail);
      injection Hc as <-; eexists; (split; [reflexivity |]);
      apply list_elem_of_here.
  - intros name o Hin Ha. unfold MODEL_OPTS in Hin.
    repeat (apply elem_of_cons in Hin as [[= -> ->] | Hin]);
      try discriminate Ha; try (inversion Hin; fail); eexists; reflexivity.
Qed.

Section Facts.
Variable extern : list call -> call -> outcome exn pyval.
Variable iterate : list call -> pyval -> list pyval.
Variable torch_has_attr : string -> bool.

Ltac py_step Hret :=
  first
    [ erewrite bind_Return by reflexivity
    | match goal with
      | |- context [(py_call extern ?f ?a ?k ≫= _) ?st] =>
          let v := fresh "v" in
          let Hv := fresh "Hv" in
          destruct (py_call_returns extern f a k st Hret) as [v Hv];
          rewrite (bind_Return _ _ _ _ _ Hv); clear Hv
      | |- context [(load_fast ?x ≫= _) ?st] =>
          erewrite (bind_Return (load_fast x))
            by (apply load_fast_bound; cbn [locals]; simplify_map_eq; reflexivity)
      end ];
  cbv beta; cbn [locals calls].

(** What [auto_wrap_policy] is bound to when lines 121-141 are left,
    by the end or by the [raise] of line 137. *)
Lemma select_auto_wrap_policy_binds flags st :
  locals (select_auto_wrap_policy flags st).2 !! "auto_wrap_policy"
  = Some (if negb (String.eqb (auto_wrap_policy flags) "none") then
            if String.eqb (auto_wrap_policy flags) "size_based" then
              VPartial (VGlobal "size_based_auto_wrap_policy")
                [("min_num_params", VInt (auto_wrap_min_num_params flags))]
            else if String.eqb (auto_wrap_policy flags) "type_based" then
              VPartial (VGlobal "transformer_auto_wrap_policy")
                [("transformer_layer_cls",
                  VSet [VAttr (VGlobal "nn") "Conv2d";
                        VAttr (VGlobal "nn") "Linear"])]
            else VNone
          else VNone).
Proof.
  unfold select_auto_wrap_policy.
  destruct (String.eqb (auto_wrap_policy flags) "none"),
    (String.eqb (auto_wrap_policy flags) "size_based"),
    (String.eqb (auto_wrap_policy flags) "type_based"),
    (use_gradient_checkpointing flags);
    cbn; simplify_map_eq; reflexivity.
Qed.

(** X18: the policy choice calls nothing but [functools.partial].
    Whatever the flags, and whether lines 121-141 are left by their end
    or by the [raise], no call is recorded (FSDP, the policies and the
    layer classes are named, not called), no local variable other than
    [auto_wrap_policy] and [auto_wrapper_callable] has changed, and
    [auto_wrap_policy] is the object [partial] returned at line 127 for
    [size_based] and at line 133 for [type_based], and None for every
    other value. *)
Theorem select_auto_wrap_policy_local flags st :
  calls (select_auto_wrap_policy flags st).2 = calls st
  ∧ (∀ name, name ≠ "auto_wrap_policy" → name ≠ "auto_wrapper_callable" →
             locals (select_auto_wrap_policy flags st).2 !! name
             = locals st !! name)
  ∧ locals (select_auto_wrap_policy flags st).2 !! "auto_wrap_policy"
    = Some (if negb (String.eqb (auto_wrap_policy flags) "none") then
              if String.eqb (auto_wrap_policy flags) "size_based" then
                VPartial (VGlobal "size_based_auto_wrap_policy")
                  [("min_num_params", VInt (auto_wrap_min_num_params flags))]
              else if String.eqb (auto_wrap_policy flags) "type_based" then
                VPartial (VGlobal "transformer_auto_wrap_policy")
                  [("transformer_layer_cls",
                    VSet [VAttr (VGlobal "nn") "Conv2d";
                          VAttr (VGlobal "nn") "Linear"])]
              else VNone
            else VNone).
Proof.
  split; [| split; [| apply select_auto_wrap_policy_binds]];
    unfold select_auto_wrap_policy;
    destruct (String.eqb (auto_wrap_policy flags) "none"),
      (String.eqb (auto_wrap_policy flags) "size_based"),
      (String.eqb (auto_wrap_policy flags) "type_based"),
      (use_gradient_checkpointing flags);
    try reflexivity; intros name H1 H2; cbn; simplify_map_eq; reflexivity.
Qed.

(** A recognised policy is chosen without error, and the model stays
    bound. *)
Lemma select_recognised flags st :
  auto_wrap_policy flags ∈ choices_of "--auto_wrap_policy" →
  ∃ st1 policy,
    select_auto_wrap_policy flags st = (Return tt, st1)
    ∧ calls st1 = calls st
    ∧ locals st1 !! "model" = locals st !! "model"
    ∧ locals st1 !! "auto_wrap_policy" = Some policy
    ∧ locals st1 !! "auto_wrapper_callable" =
        Some (if negb (String.eqb (auto_wrap_policy flags) "none")
                 && use_gradient_checkpointing flags
              then VAutoWrapperCallable else VNone).
Proof.
  rewrite choices_auto_wrap_policy, !elem_of_cons, elem_of_nil.
  intros [H | [H | [H | []]]].
  - eexists _, VNone. rewrite (select_none _ _ H), H. cbn [locals calls].
    repeat split; simplify_map_eq; reflexivity.
  - destruct (select_size_based flags st H) as (st1 & Hsel & Hc & Hm & Hp & Hw).
    exists st1. eexists. rewrite H. cbn [String.eqb negb andb].
    repeat split; eassumption.
  - destruct (select_type_based flags st H) as (st1 & Hsel & Hc & Hm & Hp & Hw).
    exists st1. eexists. rewrite H. cbn [String.eqb negb andb].
    repeat split; eassumption.
Qed.

(** X19: gradient checkpointing needs a wrap policy.  For a recognised
    policy the FSDP call gets the checkpointing wrapper as
    [auto_wrapper_callable] exactly when [--use_gradient_checkpointing]
    is set and the policy is not [none]; with the policy [none] the flag
    has no effect and the argument is None. *)
Theorem gradient_checkpointing_needs_policy flags st m :
  torch_has_attr (compute_dtype flags) = true →
  locals st !! "model" = Some m →
  auto_wrap_policy flags ∈ choices_of "--auto_wrap_policy" →
  ∃ c, calls (configure_model extern torch_has_attr flags st).2
         !! length (calls st) = Some c
       ∧ callee c = VGlobal "FSDP"
       ∧ kwarg "auto_wrapper_callable" c =
           Some (if negb (String.eqb (auto_wrap_policy flags) "none")
                    && use_gradient_checkpointing flags
                 then VAutoWrapperCallable else VNone).
Proof.
  intros Hd Hm Hin.
  destruct (select_recognised flags st Hin)
    as (st1 & policy & Hsel & Hcalls & Hmodel & Hp & Hw).
  rewrite Hm in Hmodel.
  destruct (configure_model_first_call extern torch_has_attr flags st st1 m _ _
              Hd Hsel Hcalls Hmodel Hp Hw) as (c & Hc & Hcallee & _ & Hkw).
  exists c. split; [exact Hc |]. split; [exact Hcallee |].
  unfold kwarg. rewrite Hkw. reflexivity.
Qed.

(** X20: an unrecognised policy is rejected before any library is
    called.  Lines 121-158 then raise
    [Exception("Invalid auto-wrap policy: <value>")], make no library
    call (FSDP is not constructed, the model is not compiled) and leave
    [model] as it was. *)
Theorem configure_model_rejects_unknown_policy flags st :
  auto_wrap_policy flags ∉ choices_of "--auto_wrap_policy" →
  ∃ st', configure_model extern torch_has_attr flags st
         = (Raise (PyException ("Invalid auto-wrap policy: "
                                +:+ auto_wrap_policy flags)), st')
         ∧ calls st' = calls st
         ∧ locals st' !! "model" = locals st !! "model".
Proof.
  intros H. eexists. unfold configure_model.
  rewrite (bind_Raise _ _ _ _ _ (select_invalid flags st H)).
  split; [reflexivity |]. cbn [locals calls].
  split; [reflexivity |]. simplify_map_eq. reflexivity.
Qed.

(** X21: a compute dtype that torch does not define stops the wrap.
    For a recognised policy and a bound model, lines 121-158 raise
    AttributeError for the dtype name at line 145, before FSDP is
    constructed: no call is recorded (FSDP and [torch.compile] are not
    called) and [model] is not rebound.  What has happened is the
    policy choice: [auto_wrap_policy] is None for [none] and the object
    [functools.partial] returned for the two other policies; that call
    of [partial] and the failing [getattr] are the only calls
    evaluated. *)
Theorem configure_model_unknown_dtype flags st m :
  torch_has_attr (compute_dtype flags) = false →
  locals st !! "model" = Some m →
  auto_wrap_policy flags ∈ choices_of "--auto_wrap_policy" →
  ∃ st', configure_model extern torch_has_attr flags st
         = (Raise (AttributeError (compute_dtype flags)), st')
         ∧ calls st' = calls st
         ∧ locals st' !! "model" = Some m
         ∧ locals st' !! "auto_wrap_policy"
           = Some (if String.eqb (auto_wrap_policy flags) "size_based" then
                     VPartial (VGlobal "size_based_auto_wrap_policy")
                       [("min_num_params", VInt (auto_wrap_min_num_params flags))]
                   else if String.eqb (auto_wrap_policy flags) "type_based" then
                     VPartial (VGlobal "transformer_auto_wrap_policy")
                       [("transformer_layer_cls",
                         VSet [VAttr (VGlobal "nn") "Conv2d";
                               VAttr (VGlobal "nn") "Linear"])]
                   else VNone).
Proof.
  intros Hd Hm Hin.
  destruct (select_recognised flags st Hin)
    as (st1 & policy & Hsel & Hcalls & Hmodel & Hp & Hw).
  rewrite Hm in Hmodel.
  exists st1. split; [| split; [exact Hcalls | split; [exact Hmodel |]]].
  - unfold configure_model. rewrite (bind_Return _ _ _ _ _ Hsel).
    unfold wrap_model.
    rewrite (bind_Return _ _ _ _ _ (load_fast_bound _ _ _ Hmodel)).
    apply bind_Raise. unfold fsdp_wrap.
    do 3 (erewrite bind_Return by reflexivity).
    apply bind_Raise. unfold getattr_torch. rewrite Hd. reflexivity.
  - pose proof (select_auto_wrap_policy_binds flags st) as Hb.
    rewrite Hsel in Hb. cbn [snd] in Hb. rewrite Hb.
    rewrite choices_auto_wrap_policy, !elem_of_cons, elem_of_nil in Hin.
    destruct Hin as [-> | [-> | [-> | []]]]; reflexivity.
Qed.

(** X22: the flags that reach FSDP.  Lines 121-158 read eight flags:
    two sets of flags that agree on the wrap policy, its parameter
    threshold, gradient checkpointing, the compute dtype and the four
    boolean FSDP options behave alike, whatever [use_nested_fsdp],
    [ckpt_consolidation], [sample_count] and the other flags are. *)
Theorem configure_model_reads_eight_flags flags1 flags2 :
  auto_wrap_policy flags1 = auto_wrap_policy flags2 →
  auto_wrap_min_num_params flags1 = auto_wrap_min_num_params flags2 →
  use_gradient_checkpointing flags1 = use_gradient_checkpointing flags2 →
  compute_dtype flags1 = compute_dtype flags2 →
  fp32_reduce_scatter flags1 = fp32_reduce_scatter flags2 →
  flatten_parameters flags1 = flatten_parameters flags2 →
  shard_param_on_dim_0 flags1 = shard_param_on_dim_0 flags2 →
  pin_layout_in_collective_ops flags1 = pin_layout_in_collective_ops flags2 →
  configure_model extern torch_has_attr flags1
  = configure_model extern torch_has_attr flags2.
Proof.
  destruct flags1, flags2. cbn. intros. subst. reflexivity.
Qed.

(** X23: what is compiled is what FSDP returned.  In a state with the
    model and the policy bound, [wrap_model] first calls FSDP on the
    model; when that call raises, [wrap_model] raises the same
    exception, calls nothing else and rebinds nothing; when it returns a
    value, the next library call is [torch.compile] on that value with
    the backend [torchxla_trace_once]. *)
Theorem wrap_model_compiles_fsdp_result flags st m policy wrapper :
  torch_has_attr (compute_dtype flags) = true →
  locals st !! "model" = Some m →
  locals st !! "auto_wrap_policy" = Some policy →
  locals st !! "auto_wrapper_callable" = Some wrapper →
  ∃ c, callee c = VGlobal "FSDP"
       ∧ args c = [m]
       ∧ (∀ e, extern (calls st) c = Raise e →
            wrap_model extern torch_has_attr flags st
            = (Raise e, {| locals := locals st; calls := calls st ++ [c] |}))
       ∧ (∀ wrapped, extern (calls st) c = Return wrapped →
            calls (wrap_model extern torch_has_attr flags st).2
              !! S (length (calls st))
            = Some {| callee := VAttr (VGlobal "torch") "compile";
                      args := [wrapped];
                      kwargs := [("backend", VStr "torchxla_trace_once")] |}).
Proof.
  intros Hd Hm Hp Hw. eexists. split; [| split; [| split]].
  3: { intros e He. unfold wrap_model.
       rewrite (bind_Return _ _ _ _ _ (load_fast_bound _ _ _ Hm)).
       apply bind_Raise.
       rewrite (fsdp_wrap_eq extern torch_has_attr _ _ _ _ _ Hd Hp Hw), py_call_eq, He.
       reflexivity. }
  1, 2: reflexivity.
  intros wrapped Hret. unfold wrap_model.
  rewrite (bind_Return _ _ _ _ _ (load_fast_bound _ _ _ Hm)).
  erewrite bind_Return; cycle 1.
  { rewrite (fsdp_wrap_eq extern torch_has_attr _ _ _ _ _ Hd Hp Hw), py_call_eq, Hret.
    reflexivity. }
  clear Hret.
  erewrite bind_Return by reflexivity. cbv beta.
  erewrite bind_Return by reflexivity. cbv beta.
  erewrite (bind_Return (load_fast "model"))
    by (apply load_fast_bound; cbn [locals]; simplify_map_eq; reflexivity).
  unfold mbind at 1, M_bind at 1, bind at 1. rewrite py_call_eq.
  destruct (extern _ _) as [v' | e']; cbn [snd calls locals].
  - erewrite bind_Return by reflexivity. cbv beta.
    erewrite bind_Return by reflexivity. cbv beta.
    unfold mbind at 1, M_bind at 1, bind at 1. rewrite py_call_eq.
    destruct (extern _ _) as [v'' | e'']; cbn [snd calls locals mret M_ret ret];
      rewrite <- !app_assoc; cbn [app];
      rewrite lookup_app_r by lia;
      replace (S (length (calls st)) - length (calls st)) with 1 by lia;
      reflexivity.
  - rewrite <- !app_assoc. cbn [app]. rewrite lookup_app_r by lia.
    replace (S (length (calls st)) - length (calls st)) with 1 by lia.
    reflexivity.
Qed.

(** The loop body, batch by batch. *)
Lemma inference_loop_items_calls model (batches : list (pyval * pyval)) st :
  library_returns extern →
  inference_loop_items extern model (map batch_item batches) st
  = (Return tt,
     {| locals := locals st;
        calls := calls st ++ map (batch_call model) batches |}).
Proof.
  intros Hret. revert st.
  induction batches as [|[data target] batches IH]; intros st;
    cbn [map batch_item inference_loop_items fst snd].
  - rewrite app_nil_r. destruct st; reflexivity.
  - destruct (py_call_returns extern model [data] [] st Hret) as [v Hv].
    rewrite (bind_Return _ _ _ _ _ Hv), IH. cbn [locals calls].
    rewrite <- app_assoc. reflexivity.
Qed.

(** The loop over the loader's items. *)
Lemma inference_loop_fn_trace model loader (batches : list (pyval * pyval)) st :
  library_returns extern →
  iterate (calls st) loader = map batch_item batches →
  inference_loop_fn extern iterate model loader st
  = (Return tt,
     {| locals := locals st;
        calls := calls st ++ map (batch_call model) batches |}).
Proof.
  intros Hret Hiter. unfold inference_loop_fn.
  erewrite bind_Return by reflexivity.
  erewrite bind_Return by reflexivity.
  rewrite Hiter. apply inference_loop_items_calls, Hret.
Qed.

(** X24: one model call per batch.  When the library calls return and
    [enumerate(loader)] yields the batches [(data, target)],
    [inference_loop_fn] returns, and apart from [enumerate(loader)] and
    the iteration over it, which supply the batches and are no recorded
    calls, the calls it makes are the calls of the model: one per
    batch, in order, on the data of the batch alone.  Targets are never
    passed on and no local changes; with no batch the model is not
    called. *)
Theorem inference_loop_fn_calls model loader (batches : list (pyval * pyval)) st :
  library_returns extern →
  iterate (calls st) loader = map batch_item batches →
  inference_loop_fn extern iterate model loader st
  = (Return tt,
     {| locals := locals st;
        calls := calls st ++ map (batch_call model) batches |}).
Proof. apply inference_loop_fn_trace. Qed.


(** X26: the run makes two library calls.  When the library calls
    return, every run of the body of [inference_resnet] ends in
    NameError, for [batch_size] with fake data and for [datasets]
    without, after exactly [time.time()] and [torch.manual_seed(1)]: no
    device is asked for, no model built, FSDP never called; [start] is
    the only local bound. *)
Theorem inference_resnet_makes_two_calls flags history :
  library_returns extern →
  ∃ start,
    inference_resnet_body extern iterate torch_has_attr flags
      {| locals := ∅; calls := history |}
    = (Raise (NameError (if fake_data flags then "batch_size" else "datasets")),
       {| locals := {["start" := start]};
          calls := history
                   ++ [ {| callee := VAttr (VGlobal "time") "time";
                           args := []; kwargs := [] |};
                        {| callee := VAttr (VGlobal "torch") "manual_seed";
                           args := [VInt 1]; kwargs := [] |} ] |}).
Proof.
  intros Hret. unfold inference_resnet_body.
  erewrite bind_Return by reflexivity. cbv beta.
  destruct (py_call_returns extern (py_getattr (VGlobal "time") "time") [] []
              {| locals := ∅; calls := history |} Hret) as [start Hv1].
  rewrite (bind_Return _ _ _ _ _ Hv1).
  erewrite bind_Return by reflexivity. cbv beta.
  erewrite bind_Return by reflexivity. cbv beta.
  match goal with
  | |- context [(py_call extern ?f ?a ?k ≫= _) ?s] =>
      destruct (py_call_returns extern f a k s Hret) as [seeded Hv2];
      rewrite (bind_Return _ _ _ _ _ Hv2)
  end.
  cbn [locals calls]. exists start.
  destruct (fake_data flags) eqn:Hfake.
  - rewrite (bind_Raise _ _ _ _ _ (make_test_loader_fake extern _ _ Hfake)).
    rewrite <- app_assoc. reflexivity.
  - rewrite (bind_Raise _ _ _ _ _ (make_test_loader_real extern _ _ Hfake)).
    rewrite <- app_assoc. reflexivity.
Qed.

(** X30: no timing is ever reported.  When the library calls return
    and [start] is bound, lines 168-176 print [Done.], read the clock
    and subtract, and then raise NameError for [sample_count]: neither
    total is printed, the metrics report is not asked for, and [end]
    and [elapsed_time] are the only locals bound. *)
Theorem report_timing_reports_nothing flags st start :
  library_returns extern →
  locals st !! "start" = Some start →
  ∃ end_ elapsed_time,
    report_timing extern flags st
    = (Raise (NameError "sample_count"),
       {| locals := <["elapsed_time" := elapsed_time]> (<["end" := end_]> (locals st));
          calls := calls st
                   ++ [ {| callee := VBuiltin "print"; args := [VStr "Done."];
                           kwargs := [] |};
                        {| callee := VAttr (VGlobal "time") "time";
                           args := []; kwargs := [] |};
                        {| callee := VOperator "-"; args := [end_; start];
                           kwargs := [] |} ] |}).
Proof.
  intros Hret Hstart. unfold report_timing, binop.
  erewrite bind_Return by reflexivity. cbv beta.
  match goal with
  | |- context [(py_call extern ?f ?a ?k ≫= _) ?s] =>
      destruct (py_call_returns extern f a k s Hret) as [done Hv1];
      rewrite (bind_Return _ _ _ _ _ Hv1)
  end.
  erewrite bind_Return by reflexivity. cbv beta.
  match goal with
  | |- context [(py_call extern ?f ?a ?k ≫= _) ?s] =>
      destruct (py_call_returns extern f a k s Hret) as [end_ Hv2];
      rewrite (bind_Return _ _ _ _ _ Hv2)
  end.
  erewrite bind_Return by reflexivity. cbv beta. cbn [locals calls].
  erewrite (bind_Return (load_fast "end"))
    by (apply load_fast_bound; cbn [locals]; simplify_map_eq; reflexivity).
  erewrite (bind_Return (load_fast "start"))
    by (apply load_fast_bound; cbn [locals]; simplify_map_eq; reflexivity).
  match goal with
  | |- context [(py_call extern ?f ?a ?k ≫= _) ?s] =>
      destruct (py_call_returns extern f a k s Hret) as [elapsed_time Hv3];
      rewrite (bind_Return _ _ _ _ _ Hv3)
  end.
  erewrite bind_Return by reflexivity. cbv beta. cbn [locals calls].
  erewrite (bind_Return (load_fast "elapsed_time"))
    by (apply load_fast_bound; cbn [locals]; simplify_map_eq; reflexivity).
  erewrite bind_Return by reflexivity. cbv beta.
  exists end_, elapsed_time.
  erewrite bind_Raise by reflexivity.
  rewrite <- !app_assoc. reflexivity.
Qed.

(** Whatever the libraries do, the body raises having only added calls. *)
Lemma inference_resnet_body_extending flags st :
  ∃ e st' suffix,
    inference_resnet_body extern iterate torch_has_attr flags st = (Raise e, st')
    ∧ calls st' = calls st ++ suffix.
Proof.
  unfold inference_resnet_body.
  erewrite bind_Return by reflexivity. cbv beta.
  unfold mbind at 1, M_bind at 1, bind at 1. rewrite py_call_eq.
  match goal with
  | |- context [extern ?h ?c] => destruct (extern h c) as [v1 | e1]
  end.
  - erewrite bind_Return by reflexivity. cbv beta.
    erewrite bind_Return by reflexivity. cbv beta.
    unfold mbind at 1, M_bind at 1, bind at 1. rewrite py_call_eq.
    match goal with
    | |- context [extern ?h ?c] => destruct (extern h c) as [v2 | e2]
    end.
    + match goal with
      | |- context [(make_test_loader extern flags ≫= _) ?s] =>
          destruct (fake_data flags) eqn:Hfake;
          [ rewrite (bind_Raise _ _ _ _ _ (make_test_loader_fake extern flags s Hfake))
          | rewrite (bind_Raise _ _ _ _ _ (make_test_loader_real extern flags s Hfake)) ]
      end; cbn [locals calls]; rewrite <- app_assoc;
        eexists _, _, _; (split; reflexivity).
    + cbn [locals calls]. rewrite <- app_assoc.
      eexists _, _, _; (split; reflexivity).
  - eexists _, _, _; (split; reflexivity).
Qed.

(** So does a call of [inference_resnet], and the caller's locals are
    as before. *)
Lemma inference_resnet_raises_extending flags st :
  ∃ e suffix,
    inference_resnet extern iterate torch_has_attr flags st
    = (Raise e, {| locals := locals st; calls := calls st ++ suffix |}).
Proof.
  unfold inference_resnet.
  destruct (inference_resnet_body_extending flags {| locals := ∅; calls := calls st |})
    as (e & st' & suffix & -> & Hc).
  cbn [calls] in Hc. rewrite Hc. eauto.
Qed.

(** X27: a worker never gets an accuracy.  [_mp_fn] sets the default
    tensor type first and then never returns, whatever the libraries
    do: it raises, and its locals, [accuracy] among them, are as
    before. *)
Theorem mp_fn_never_returns index flags st :
  ∃ e st',
    _mp_fn extern iterate torch_has_attr index flags st = (Raise e, st')
    ∧ locals st' = locals st
    ∧ calls st' !! length (calls st) =
        Some {| callee := VAttr (VGlobal "torch") "set_default_tensor_type";
                args := [VStr "torch.FloatTensor"]; kwargs := [] |}.
Proof.
  unfold _mp_fn.
  erewrite bind_Return by reflexivity. cbv beta.
  unfold mbind at 1, M_bind at 1, bind at 1. rewrite py_call_eq.
  destruct (extern (calls st) _) as [v | e].
  - match goal with
    | |- context [(inference_resnet extern iterate torch_has_attr flags ≫= _) ?s] =>
        destruct (inference_resnet_raises_extending flags s) as (e & suffix & Hr);
        rewrite (bind_Raise _ _ _ _ _ Hr)
    end.
    exists e. eexists. split; [reflexivity |]. cbn [locals calls].
    split; [reflexivity |].
    rewrite <- app_assoc. apply list_lookup_middle. reflexivity.
  - exists e. eexists. split; [reflexivity |]. cbn [locals calls].
    split; [reflexivity |]. apply list_lookup_middle. reflexivity.
Qed.


End Facts.

(** *** The hypotheses hold on examples *)

Lemma fresh_objects_returns : library_returns fresh_objects.
Proof. intros history c. eexists. reflexivity. Qed.

Lemma type_based_recognised : "type_based" ∈ choices_of "--auto_wrap_policy".
Proof.
  rewrite choices_auto_wrap_policy.
  apply list_elem_of_further, list_elem_of_further, list_elem_of_here.
Qed.

Lemma layer_based_unrecognised : "layer_based" ∉ choices_of "--auto_wrap_policy".
Proof.
  rewrite choices_auto_wrap_policy. intros H.
  repeat (apply elem_of_cons in H as [H | H]; [discriminate H |]).
  inversion H.
Qed.

Lemma gradient_checkpointing_needs_policy_witness :
  ∃ c, calls (configure_model fresh_objects torch_dtypes
                (set_use_gradient_checkpointing true (flags_with_policy "type_based"))
                model_state).2 !! 0 = Some c
       ∧ callee c = VGlobal "FSDP"
       ∧ kwarg "auto_wrapper_callable" c = Some VAutoWrapperCallable.
Proof.
  exact (gradient_checkpointing_needs_policy fresh_objects torch_dtypes
           (set_use_gradient_checkpointing true (flags_with_policy "type_based"))
           model_state (VObject 0) eq_refl eq_refl type_based_recognised).
Defined.

Lemma configure_model_rejects_unknown_policy_witness :
  ∃ st', configure_model fresh_objects torch_dtypes
           (flags_with_policy "layer_based") model_state
         = (Raise (PyException "Invalid auto-wrap policy: layer_based"), st')
         ∧ calls st' = []
         ∧ locals st' !! "model" = Some (VObject 0).
Proof.
  exact (configure_model_rejects_unknown_policy fresh_objects torch_dtypes
           (flags_with_policy "layer_based") model_state layer_based_unrecognised).
Defined.

Lemma configure_model_unknown_dtype_witness :
  ∃ st', configure_model fresh_objects torch_dtypes
           (set_compute_dtype "float64" (flags_with_policy "type_based")) model_state
         = (Raise (AttributeError "float64"), st')
         ∧ calls st' = []
         ∧ locals st' !! "model" = Some (VObject 0)
         ∧ locals st' !! "auto_wrap_policy"
           = Some (VPartial (VGlobal "transformer_auto_wrap_policy")
                     [("transformer_layer_cls",
                       VSet [VAttr (VGlobal "nn") "Conv2d";
                             VAttr (VGlobal "nn") "Linear"])]).
Proof.
  exact (configure_model_unknown_dtype fresh_objects torch_dtypes
           (set_compute_dtype "float64" (flags_with_policy "type_based"))
           model_state (VObject 0) eq_refl eq_refl type_based_recognised).
Defined.

Lemma configure_model_reads_eight_flags_witness :
  configure_model fresh_objects torch_dtypes example_flags
  = configure_model fresh_objects torch_dtypes
      (set_ckpt_prefix "/tmp/elsewhere" example_flags).
Proof.
  exact (configure_model_reads_eight_flags fresh_objects torch_dtypes
           example_flags (set_ckpt_prefix "/tmp/elsewhere" example_flags)
           eq_refl eq_refl eq_refl eq_refl eq_refl eq_refl eq_refl eq_refl).
Defined.

Lemma wrap_model_compiles_fsdp_result_witness :
  ∃ c, callee c = VGlobal "FSDP"
       ∧ args c = [VObject 0]
       ∧ calls (wrap_model fresh_objects torch_dtypes example_flags policy_state).2 !! 1
         = Some {| callee := VAttr (VGlobal "torch") "compile";
                   args := [VObject 0];
                   kwargs := [("backend", VStr "torchxla_trace_once")] |}.
Proof.
  destruct (wrap_model_compiles_fsdp_result fresh_objects torch_dtypes example_flags
              policy_state (VObject 0) VNone VNone eq_refl eq_refl eq_refl eq_refl)
    as (c & Hcallee & Hargs & _ & Hcompile).
  exists c. split; [exact Hcallee |]. split; [exact Hargs |].
  exact (Hcompile (VObject 0) eq_refl).
Defined.

Lemma inference_loop_fn_calls_witness :
  inference_loop_fn fresh_objects one_batch (VObject 2) (VObject 3) loop_state
  = (Return tt,
     {| locals := locals loop_state;
        calls := [ {| callee := VObject 2; args := [VObject 100]; kwargs := [] |} ] |}).
Proof.
  exact (inference_loop_fn_calls fresh_objects one_batch (VObject 2) (VObject 3)
           [(VObject 100, VObject 101)] loop_state fresh_objects_returns eq_refl).
Defined.


Lemma inference_resnet_makes_two_calls_witness :
  ∃ start,
    inference_resnet_body fresh_objects no_items torch_dtypes example_flags initial_state
    = (Raise (NameError "datasets"),
       {| locals := {["start" := start]};
          calls := [ {| callee := VAttr (VGlobal "time") "time";
                        args := []; kwargs := [] |};
                     {| callee := VAttr (VGlobal "torch") "manual_seed";
                        args := [VInt 1]; kwargs := [] |} ] |}).
Proof.
  exact (inference_resnet_makes_two_calls fresh_objects no_items torch_dtypes
           example_flags [] fresh_objects_returns).
Defined.

Lemma report_timing_reports_nothing_witness :
  ∃ end_ elapsed_time,
    report_timing fresh_objects example_flags
      {| locals := {["start" := VObject 0]}; calls := [] |}
    = (Raise (NameError "sample_count"),
       {| locals := <["elapsed_time" := elapsed_time]>
                      (<["end" := end_]> {["start" := VObject 0]});
          calls := [ {| callee := VBuiltin "print"; args := [VStr "Done."];
                        kwargs := [] |};
                     {| callee := VAttr (VGlobal "time") "time";
                        args := []; kwargs := [] |};
                     {| callee := VOperator "-"; args := [end_; VObject 0];
                        kwargs := [] |} ] |}).
Proof.
  exact (report_timing_reports_nothing fresh_objects example_flags
           {| locals := {["start" := VObject 0]}; calls := [] |} (VObject 0)
           fresh_objects_returns eq_refl).
Defined.

End FsdpLatencyExtra.
